(** * Dashboard.js: the telemetry session engine

    A shallow embedding of the second revision of
    [wwwroot/js/Dashboard.js] (the one with the client-side simulator and
    the session history), followed by the properties of the session
    engine that are checked against it.

    Conventions of the embedding.
    - A JavaScript number is a [JsNum]: [NaN], the two infinities, or a
      finite double carried as the rational that it is.  Every addition,
      subtraction, multiplication and division rounds its exact result to
      the nearest double, ties to even, with gradual underflow and
      overflow to an infinity, as IEEE 754 binary64 does; a numeric
      literal of the source is the double nearest to what is written.
      The negative zero is not modelled.  Integer counters (the alert
      counter, the cooldown, the lengths of arrays) are integers: they
      stay far below 2^53, where a double is exact.
    - A JavaScript value is a [JsVal]; an object is an association list
      of its properties in insertion order.
    - The module-level [let] variables, the chart, the page elements the
      script writes to, [localStorage], the browser's interval timers and
      the engine's limit on the number of arguments of a call are the
      fields of [State].
    - A function of the script is a computation in the monad [M]: it
      threads the state and may end in a thrown exception.
    - Clock readings ([new Date()], [performance.now()]) and the values of
      [Math.random()] are arguments of the function that reads them.
    - Platform functions whose result is a string that the script never
      inspects ([JSON.stringify], [toISOString], ...) are the fields of a
      [Platform] that the development is parameterised by.
    - The markup of the page is not part of the script: every element
      that the script looks up by its id is taken to exist, and the
      [console] is not modelled. *)

From Stdlib Require Import ZArith QArith Qpower Qround Qabs Lqa.
From stdpp Require Import gmap strings list fin_maps.

Set Warnings "-register-all".
Local Open Scope Z_scope.

(** ** Numbers *)

Inductive JsNum : Type :=
| NaN
| PInf
| NInf
| Fin (q : Q).

Definition Qltb (x y : Q) : bool := negb (Qle_bool y x).

Definition Qsgn (q : Q) : comparison := (q ?= 0)%Q.

(** *** Rounding to a double

    A double is [m * 2^k] with [m] an integer of at most 53 bits and
    [k] from -1074 to 971.  [rd q] is the double nearest to [q], the one
    with the even [m] when two are as near, whatever the size of [q];
    [round64 q] is the result of an operation whose exact value is [q]:
    [rd q], or an infinity when that is 2^1024 or more. *)

Definition pow2 (k : Z) : Q := (2 ^ k)%Q.

(** The binary exponent of a positive [q]: [2^e <= q < 2^(e+1)]. *)
Definition ilog2 (q : Q) : Z :=
  let e := Z.log2 (Qnum q) - Z.log2 (Z.pos (Qden q)) in
  if Qle_bool (pow2 e) q then e else e - 1.

(** The nearest integer, the even one of two. *)
Definition rne (x : Q) : Z :=
  let f := Qfloor x in
  match (x - inject_Z f ?= 1 # 2)%Q with
  | Lt => f
  | Gt => f + 1
  | Eq => if Z.even f then f else f + 1
  end.

(** The exponent of the last bit of the doubles around a positive [q]:
    52 below its own, and no lower than that of the subnormal numbers. *)
Definition ulpExp (q : Q) : Z := Z.max (ilog2 q) (-1022) - 52.

(** [q] in units of the last bit. *)
Definition scaled (q : Q) : Q := (q / pow2 (ulpExp q))%Q.

Definition rdPos (q : Q) : Q :=
  Qred (inject_Z (rne (scaled q)) * pow2 (ulpExp q)).

Definition rd (q : Q) : Q :=
  match (q ?= 0)%Q with
  | Eq => 0%Q
  | Gt => rdPos q
  | Lt => (- rdPos (- q))%Q
  end.

Definition round64 (q : Q) : JsNum :=
  if Qle_bool (pow2 1024) (rd q) then PInf
  else if Qle_bool (rd q) (- pow2 1024) then NInf
  else Fin (rd q).

(** The rationals that are doubles, but for their size. *)
Definition isDouble (q : Q) : Prop := (rd q == q)%Q.
Definition isDoubleb (q : Q) : bool := Qeq_bool (rd q) q.

(** A numeric literal of the source. *)
Definition lit (q : Q) : Q := rd q.

(** [x + y] on numbers. *)
Definition jadd (x y : JsNum) : JsNum :=
  match x, y with
  | NaN, _ | _, NaN => NaN
  | PInf, NInf | NInf, PInf => NaN
  | PInf, _ | _, PInf => PInf
  | NInf, _ | _, NInf => NInf
  | Fin a, Fin b => round64 (a + b)
  end.

(** [x - y] on numbers. *)
Definition jsub (x y : JsNum) : JsNum :=
  match x, y with
  | NaN, _ | _, NaN => NaN
  | PInf, PInf | NInf, NInf => NaN
  | PInf, _ | _, NInf => PInf
  | NInf, _ | _, PInf => NInf
  | Fin a, Fin b => round64 (a - b)
  end.

(** [x * y] on numbers. *)
Definition jmul (x y : JsNum) : JsNum :=
  match x, y with
  | NaN, _ | _, NaN => NaN
  | Fin a, Fin b => round64 (a * b)
  | PInf, PInf | NInf, NInf => PInf
  | PInf, NInf | NInf, PInf => NInf
  | PInf, Fin q | Fin q, PInf =>
      match Qsgn q with Eq => NaN | Gt => PInf | Lt => NInf end
  | NInf, Fin q | Fin q, NInf =>
      match Qsgn q with Eq => NaN | Gt => NInf | Lt => PInf end
  end.

(** [x / y] on numbers (a zero divisor is the positive zero). *)
Definition jdiv (x y : JsNum) : JsNum :=
  match x, y with
  | NaN, _ | _, NaN => NaN
  | (PInf | NInf), (PInf | NInf) => NaN
  | Fin _, (PInf | NInf) => Fin 0
  | PInf, Fin q => match Qsgn q with Lt => NInf | _ => PInf end
  | NInf, Fin q => match Qsgn q with Lt => PInf | _ => NInf end
  | Fin a, Fin b =>
      match Qsgn b with
      | Eq => match Qsgn a with Eq => NaN | Gt => PInf | Lt => NInf end
      | _ => round64 (a / b)
      end
  end.

(** [Math.max(x, y)] and [Math.min(x, y)]: [NaN] wins. *)
Definition jmax (x y : JsNum) : JsNum :=
  match x, y with
  | NaN, _ | _, NaN => NaN
  | PInf, _ | _, PInf => PInf
  | NInf, z | z, NInf => z
  | Fin a, Fin b => if Qle_bool a b then Fin b else Fin a
  end.

Definition jmin (x y : JsNum) : JsNum :=
  match x, y with
  | NaN, _ | _, NaN => NaN
  | NInf, _ | _, NInf => NInf
  | PInf, z | z, PInf => z
  | Fin a, Fin b => if Qle_bool a b then Fin a else Fin b
  end.

(** [Math.max] of the arguments [xs]; with no argument the result is
    [-Infinity]. *)
Definition Math_max (xs : list JsNum) : JsNum := foldl jmax NInf xs.

(** [Number.isFinite(x)]. *)
Definition Number_isFinite (x : JsNum) : bool :=
  match x with Fin _ => true | _ => false end.

(** [x >= y] on numbers. *)
Definition jge (x y : JsNum) : bool :=
  match x, y with
  | NaN, _ | _, NaN => false
  | PInf, _ | _, NInf => true
  | NInf, _ | _, PInf => false
  | Fin a, Fin b => Qle_bool b a
  end.

(** The length of an array as a number: an array has fewer than 2^32
    elements, so the conversion is exact. *)
Definition of_nat (n : nat) : JsNum := Fin (inject_Z (Z.of_nat n)).

(** An integer as a number. *)
Definition of_Z (z : Z) : JsNum := round64 (inject_Z z).

(** ** Values *)

Inductive JsVal : Type :=
| JUndefined
| JNull
| JBool (b : bool)
| JNum (n : JsNum)
| JStr (s : string)
| JDate (t : option Z)          (* time value in ms; [None] is an Invalid Date *)
| JArr (items : list JsVal)
| JObj (props : list (string * JsVal)).

(** The value of [typeof v]. *)
Definition typeof (v : JsVal) : string :=
  match v with
  | JUndefined => "undefined"
  | JBool _ => "boolean"
  | JNum _ => "number"
  | JStr _ => "string"
  | JNull | JDate _ | JArr _ | JObj _ => "object"
  end.

(** The truth value of [v] in a condition. *)
Definition truthy (v : JsVal) : bool :=
  match v with
  | JUndefined | JNull => false
  | JBool b => b
  | JNum NaN => false
  | JNum (Fin q) => negb (Qeq_bool q 0)
  | JNum _ => true
  | JStr s => negb (String.eqb s "")
  | JDate _ | JArr _ | JObj _ => true
  end.

Fixpoint assoc (k : string) (ps : list (string * JsVal)) : JsVal :=
  match ps with
  | [] => JUndefined
  | (k', v) :: ps' => if String.eqb k k' then v else assoc k ps'
  end.

(** [v.k] for the property names the script reads (none of them is a
    property of a primitive wrapper, of an array or of a Date).  [None]
    is the TypeError of reading a property of [undefined] or [null]. *)
Definition getProp (v : JsVal) (k : string) : option JsVal :=
  match v with
  | JUndefined | JNull => None
  | JObj ps => Some (assoc k ps)
  | _ => Some JUndefined
  end.

Fixpoint assign (k : string) (x : JsVal) (ps : list (string * JsVal))
  : list (string * JsVal) :=
  match ps with
  | [] => [(k, x)]
  | (k', v) :: ps' =>
      if String.eqb k k' then (k', x) :: ps' else (k', v) :: assign k x ps'
  end.

(** [v.k = x]: [None] is the TypeError on [undefined] and [null]; on a
    primitive the assignment is dropped, and on an array or a Date it
    creates a property that no lookup of another name sees. *)
Definition setProp (v : JsVal) (k : string) (x : JsVal) : option JsVal :=
  match v with
  | JUndefined | JNull => None
  | JObj ps => Some (JObj (assign k x ps))
  | _ => Some v
  end.

(** The number held by [v], when [v] is a number.  Used where the script
    calls [toFixed] on a value: the call throws unless it is a number. *)
Definition asNumber (v : JsVal) : option JsNum :=
  match v with JNum n => Some n | _ => None end.

(** *** [parseInt]

    Strings are sequences of bytes, in UTF-8. *)

Definition code (c : Ascii.ascii) : Z := Z.of_N (Ascii.N_of_ascii c).

(** The string without the white space and the line terminators in front
    of it: tab, line feed, vertical tab, form feed, carriage return,
    space, and the no-break space, the byte order mark, the line and
    paragraph separators and the space separators of Unicode. *)
Fixpoint skipSpace (str : string) : string :=
  match str with
  | String a rest1 =>
      if (9 <=? code a) && (code a <=? 13) || (code a =? 32)
      then skipSpace rest1
      else
        match rest1 with
        | String b rest2 =>
            if (code a =? 194) && (code b =? 160) then skipSpace rest2
            else
              match rest2 with
              | String c rest3 =>
                  if (code a =? 225) && (code b =? 154) && (code c =? 128)
                     || (code a =? 226) && (code b =? 128)
                        && ((128 <=? code c) && (code c <=? 138)
                            || (code c =? 168) || (code c =? 169)
                            || (code c =? 175))
                     || (code a =? 226) && (code b =? 129) && (code c =? 159)
                     || (code a =? 227) && (code b =? 128) && (code c =? 128)
                     || (code a =? 239) && (code b =? 187) && (code c =? 191)
                  then skipSpace rest3
                  else str
              | EmptyString => str
              end
        | EmptyString => str
        end
  | EmptyString => str
  end.

(** The value of a digit in a radix: [0-9], [a-z], [A-Z]. *)
Definition digitOf (radix : Z) (c : Ascii.ascii) : option Z :=
  let n := code c in
  let d := if (48 <=? n) && (n <=? 57) then n - 48
           else if (97 <=? n) && (n <=? 122) then n - 87
           else if (65 <=? n) && (n <=? 90) then n - 55
           else radix in
  if d <? radix then Some d else None.

(** The integer that the digits in front of a string write; [None] when
    the string does not begin with a digit. *)
Fixpoint digits (radix : Z) (acc : option Z) (str : string) : option Z :=
  match str with
  | String c rest =>
      match digitOf radix c with
      | Some d => digits radix (Some (radix * default 0 acc + d)) rest
      | None => acc
      end
  | EmptyString => acc
  end.

(** [parseInt(str)], no radix given: white space is skipped, then a sign
    is read, then [0x] or [0X] for radix 16, then the digits; what
    follows them is ignored.  (In radix 10 an engine may approximate an
    integer of more than 20 digits; here it is rounded exactly.) *)
Definition parseInt (str : string) : JsNum :=
  let str := skipSpace str in
  let signed :=
    match str with
    | String c rest =>
        if code c =? 45 then (-1, rest)
        else if code c =? 43 then (1, rest)
        else (1, str)
    | EmptyString => (1, str)
    end in
  let based :=
    match signed.2 with
    | String c (String x rest) =>
        if (code c =? 48) && ((code x =? 120) || (code x =? 88))
        then (16, rest) else (10, signed.2)
    | _ => (10, signed.2)
    end in
  match digits based.1 None based.2 with
  | Some n => round64 (inject_Z (signed.1 * n))
  | None => NaN
  end.

(** ** The page, the chart, the simulator and the browser *)

Inductive AlertState : Type := Active | Clear.

(** What the script has written to a property of a page element.  Texts
    made by formatting a number are kept as the number and the format. *)
Inductive DomVal : Type :=
| DText (s : string)
| DInt (z : Z)                                   (* an integer, as text *)
| DFixed (digits : nat) (x : JsNum) (suffix : string)  (* x.toFixed(d) + suffix *)
| DConcat (v : JsVal) (suffix : string)          (* v + suffix *)
| DClock (h m s : Z)                             (* hh:mm:ss, zero padded *)
| DTime (t : option Z)                           (* t.toLocaleTimeString() *)
| DFlag (b : bool)
| DAlert (a : AlertState)                        (* the two alert banners *)
| DRows (rows : list JsVal).                     (* the rendered history *)

Record Chart : Type := mkChart {
  labels : list (option Z);      (* each label is t.toLocaleTimeString() *)
  dataset0 : list JsVal;         (* datasets[0].data: drowsiness level *)
  dataset1 : list JsVal          (* datasets[1].data: blink rate *)
}.

Record Tilt : Type := mkTilt { pitch : Q; roll : Q; yaw : Q }.

Record SimulatorState : Type := mkSim {
  lastBlinkMs : Q;
  blinkIntervalMs : Q;
  batteryLevel : Q;
  tiltCooldown : Z;
  baseTilt : Tilt
}.

(** The [recentSessions] key of [localStorage].  [getItem] and [setItem]
    throw when the storage is not readable or not writable. *)
Record Storage : Type := mkStorage {
  slot : option string;
  readable : bool;
  writable : bool
}.

Record State : Type := mkState {
  isSessionActive : bool;
  sessionStartTime : option Z;             (* null, or the Date's ms *)
  drowsinessChart : option Chart;          (* null until initializeChart *)
  totalAlerts : Z;
  sessionData : list JsVal;
  simulatorIntervalId : option positive;   (* null, or a timer id *)
  simulatorState : SimulatorState;
  recentSessions : list JsVal;
  page : gmap string DomVal;               (* "element.property" to value *)
  localStorage : Storage;
  intervals : list positive;               (* the scheduled interval timers *)
  nextIntervalId : positive;
  argumentLimit : Z          (* the most arguments that a call can be given *)
}.

Definition set_isSessionActive (v : bool) (s : State) : State :=
  mkState v (sessionStartTime s) (drowsinessChart s) (totalAlerts s)
    (sessionData s) (simulatorIntervalId s) (simulatorState s)
    (recentSessions s) (page s) (localStorage s) (intervals s)
    (nextIntervalId s) (argumentLimit s).

Definition set_sessionStartTime (v : option Z) (s : State) : State :=
  mkState (isSessionActive s) v (drowsinessChart s) (totalAlerts s)
    (sessionData s) (simulatorIntervalId s) (simulatorState s)
    (recentSessions s) (page s) (localStorage s) (intervals s)
    (nextIntervalId s) (argumentLimit s).

Definition set_drowsinessChart (v : option Chart) (s : State) : State :=
  mkState (isSessionActive s) (sessionStartTime s) v (totalAlerts s)
    (sessionData s) (simulatorIntervalId s) (simulatorState s)
    (recentSessions s) (page s) (localStorage s) (intervals s)
    (nextIntervalId s) (argumentLimit s).

Definition set_totalAlerts (v : Z) (s : State) : State :=
  mkState (isSessionActive s) (sessionStartTime s) (drowsinessChart s) v
    (sessionData s) (simulatorIntervalId s) (simulatorState s)
    (recentSessions s) (page s) (localStorage s) (intervals s)
    (nextIntervalId s) (argumentLimit s).

Definition set_sessionData (v : list JsVal) (s : State) : State :=
  mkState (isSessionActive s) (sessionStartTime s) (drowsinessChart s)
    (totalAlerts s) v (simulatorIntervalId s) (simulatorState s)
    (recentSessions s) (page s) (localStorage s) (intervals s)
    (nextIntervalId s) (argumentLimit s).

Definition set_simulatorIntervalId (v : option positive) (s : State) : State :=
  mkState (isSessionActive s) (sessionStartTime s) (drowsinessChart s)
    (totalAlerts s) (sessionData s) v (simulatorState s)
    (recentSessions s) (page s) (localStorage s) (intervals s)
    (nextIntervalId s) (argumentLimit s).

Definition set_simulatorState (v : SimulatorState) (s : State) : State :=
  mkState (isSessionActive s) (sessionStartTime s) (drowsinessChart s)
    (totalAlerts s) (sessionData s) (simulatorIntervalId s) v
    (recentSessions s) (page s) (localStorage s) (intervals s)
    (nextIntervalId s) (argumentLimit s).

Definition set_recentSessions (v : list JsVal) (s : State) : State :=
  mkState (isSessionActive s) (sessionStartTime s) (drowsinessChart s)
    (totalAlerts s) (sessionData s) (simulatorIntervalId s)
    (simulatorState s) v (page s) (localStorage s) (intervals s)
    (nextIntervalId s) (argumentLimit s).

Definition set_page (v : gmap string DomVal) (s : State) : State :=
  mkState (isSessionActive s) (sessionStartTime s) (drowsinessChart s)
    (totalAlerts s) (sessionData s) (simulatorIntervalId s)
    (simulatorState s) (recentSessions s) v (localStorage s) (intervals s)
    (nextIntervalId s) (argumentLimit s).

Definition set_localStorage (v : Storage) (s : State) : State :=
  mkState (isSessionActive s) (sessionStartTime s) (drowsinessChart s)
    (totalAlerts s) (sessionData s) (simulatorIntervalId s)
    (simulatorState s) (recentSessions s) (page s) v (intervals s)
    (nextIntervalId s) (argumentLimit s).

Definition set_timers (v : list positive) (n : positive) (s : State) : State :=
  mkState (isSessionActive s) (sessionStartTime s) (drowsinessChart s)
    (totalAlerts s) (sessionData s) (simulatorIntervalId s)
    (simulatorState s) (recentSessions s) (page s) (localStorage s) v n
    (argumentLimit s).

(** ** The monad of the script's functions *)

Inductive Exn : Type := TypeError | SyntaxError | StorageError | RangeError.

Inductive Outcome (A : Type) : Type :=
| Ok (a : A)
| Throw (e : Exn).
Arguments Ok {A} a.
Arguments Throw {A} e.

Definition M (A : Type) : Type := State → Outcome A * State.

#[export] Instance M_ret : MRet M := λ A a s, (Ok a, s).

#[export] Instance M_bind : MBind M := λ A B f m s,
  match m s with
  | (Ok a, s') => f a s'
  | (Throw e, s') => (Throw e, s')
  end.

Definition throw {A : Type} (e : Exn) : M A := λ s, (Throw e, s).
Definition get : M State := λ s, (Ok s, s).
Definition modify (f : State → State) : M unit := λ s, (Ok tt, f s).

(** [try { m } catch (_) { h }]. *)
Definition try_catch (m h : M unit) : M unit := λ s,
  match m s with
  | (Ok a, s') => (Ok a, s')
  | (Throw _, s') => h s'
  end.

(** A value that must be there, or the TypeError of using it. *)
Definition orThrow {A : Type} (o : option A) : M A :=
  match o with Some a => mret a | None => throw TypeError end.

(** The state a computation leaves, whether it returned or threw. *)
Definition exec {A : Type} (m : M A) (s : State) : State := (m s).2.
Definition outcome {A : Type} (m : M A) (s : State) : Outcome A := (m s).1.

(** [document.getElementById(e).p = v], with the key ["e.p"]. *)
Definition setDom (key : string) (v : DomVal) : M unit :=
  modify (λ s, set_page (<[key := v]> (page s)) s).

(** ** Platform functions *)

(** The results of these depend on the browser and its locale; the script
    only stores or forwards them. *)
Record Platform : Type := mkPlatform {
  JSON_parse : string → option JsVal;     (* [None]: SyntaxError *)
  JSON_stringify : JsVal → string;
  toISOString : Z → string;
  newDate : JsVal → option Z              (* new Date(v); [None]: Invalid Date *)
}.

(** The values of the [Math.random()] calls of one simulator tick, one
    field per call site, in the order of the calls. *)
Record Draws : Type := mkDraws {
  rSpike : Q;        (* Math.random() < 0.08 *)
  rCooldown : Q;     (* 2 + Math.floor(Math.random() * 2) *)
  rAxis : Q;         (* Math.floor(Math.random() * 3) *)
  rSign : Q;         (* Math.random() < 0.5 ? 1 : -1 *)
  rMagnitude : Q;    (* 30 + Math.random() * 20 *)
  rPitch : Q;
  rRoll : Q;
  rYaw : Q;          (* (Math.random() - 0.5) * 4, three times *)
  rBaseline : Q;     (* 15 + Math.random() * 6 *)
  rDrowsy : Q;       (* 35 + Math.random() * 15 *)
  rBlinkBoost : Q;   (* 20 + Math.random() * 10 *)
  rTiltBoost : Q;    (* 20 + Math.random() * 15 *)
  rBattery : Q       (* 0.15 + Math.random() * 0.1 *)
}.

Definition qmax (x y : Q) : Q := if Qle_bool x y then y else x.
Definition qmin (x y : Q) : Q := if Qle_bool x y then x else y.

Definition zeroTilt : Tilt := mkTilt 0 0 0.

(** [baseTilt[axis] = v] with [axis] the entry of
    [['pitch','roll','yaw']] at index [i]. *)
Definition set_axis (i : Z) (v : Q) (t : Tilt) : Tilt :=
  match i with
  | 0 => mkTilt v (roll t) (yaw t)
  | 1 => mkTilt (pitch t) v (yaw t)
  | 2 => mkTilt (pitch t) (roll t) v
  | _ => t
  end.

Definition set_lastBlinkMs (v : Q) (st : SimulatorState) : SimulatorState :=
  mkSim v (blinkIntervalMs st) (batteryLevel st) (tiltCooldown st) (baseTilt st).
Definition set_batteryLevel (v : Q) (st : SimulatorState) : SimulatorState :=
  mkSim (lastBlinkMs st) (blinkIntervalMs st) v (tiltCooldown st) (baseTilt st).
Definition set_tiltCooldown (v : Z) (st : SimulatorState) : SimulatorState :=
  mkSim (lastBlinkMs st) (blinkIntervalMs st) (batteryLevel st) v (baseTilt st).
Definition set_baseTilt (v : Tilt) (st : SimulatorState) : SimulatorState :=
  mkSim (lastBlinkMs st) (blinkIntervalMs st) (batteryLevel st) (tiltCooldown st) v.

(** [parseInt(document.getElementById('drowsinessThreshold').value)]: the
    value of an input is a string, here the decimal text of an integer
    ([DInt]) or any text ([DText]); an input that has none of the two
    reads as the empty string. *)
Definition threshold (s : State) : JsNum :=
  match page s !! "drowsinessThreshold.value" with
  | Some (DInt z) => of_Z z
  | Some (DText t) => parseInt t
  | _ => NaN
  end.

(** [d.k] as the summand of a [reduce] or an argument of [Math.max].
    Every element of [sessionData] has passed the [typeof] test of
    [processSensorData], so [d.k] is a number; the other cases (where
    JavaScript would coerce) are not reached and stand as [NaN]. *)
Definition numberField (k : string) (d : JsVal) : JsNum :=
  match getProp d k with
  | Some (JNum n) => n
  | _ => NaN
  end.

(** [sessionData.reduce((sum, d) => sum + d.eyeBlinkRate, 0) / sessionData.length] *)
Definition averageBlink (ds : list JsVal) : JsNum :=
  jdiv (foldl (λ sum d, jadd sum (numberField "eyeBlinkRate" d)) (Fin 0) ds)
       (of_nat (length ds)).

(** The value of [Math.max(...sessionData.map(d => d.drowsinessLevel))]
    when the call is made. *)
Definition peakDrowsy (ds : list JsVal) : JsNum :=
  Math_max (map (numberField "drowsinessLevel") ds).

(** ** The functions of the script *)

Section Engine.
Context (P : Platform).

Definition resetChart : M unit :=
  s ← get;
  match drowsinessChart s with
  | None => mret tt
  | Some _ => modify (set_drowsinessChart (Some (mkChart [] [] [])))
  end.

Definition initializeChart : M unit :=
  modify (set_drowsinessChart (Some (mkChart [] [] []))).

(** [localStorage.getItem('recentSessions')] *)
Definition getItem : M (option string) :=
  s ← get;
  if readable (localStorage s) then mret (slot (localStorage s))
  else throw StorageError.

(** [localStorage.setItem('recentSessions', v)] *)
Definition setItem (v : string) : M unit :=
  s ← get;
  if writable (localStorage s)
  then modify (set_localStorage
                 (mkStorage (Some v) (readable (localStorage s)) true))
  else throw StorageError.

Definition loadRecentSessions : M unit :=
  try_catch
    (raw ← getItem;
     parsed ← match raw with
              | None => mret (JArr [])
              | Some str =>
                  if String.eqb str "" then mret (JArr [])
                  else match JSON_parse P str with
                       | Some v => mret v
                       | None => throw SyntaxError
                       end
              end;
     match parsed with
     | JArr items => modify (set_recentSessions items)
     | _ => modify (set_recentSessions [])
     end)
    (modify (set_recentSessions [])).

(** [Math.max(...sessionData.map(d => d.drowsinessLevel))]: the call has
    one argument for each sample, and throws a RangeError when the engine
    cannot pass so many. *)
Definition spreadPeak : M JsNum :=
  s ← get;
  if Z.of_nat (length (sessionData s)) <=? argumentLimit s
  then mret (peakDrowsy (sessionData s))
  else throw RangeError.

(** The [summary] object that [saveRecentSession] builds. *)
Definition sessionSummary (start endTime : Z) (s : State) : JsVal :=
  let durationMs := endTime - start in
  let avgBlink := averageBlink (sessionData s) in
  let peak := peakDrowsy (sessionData s) in
  JObj [
    ("start", JStr (toISOString P start));
    ("end", JStr (toISOString P endTime));
    ("durationMs", JNum (of_Z durationMs));
    ("totalAlerts", JNum (of_Z (totalAlerts s)));
    ("avgBlinkRate",
      JNum (if Number_isFinite avgBlink then avgBlink else Fin 0));
    ("peakDrowsiness",
      JNum (if Number_isFinite peak then peak else Fin 0));
    ("points", JNum (of_nat (length (sessionData s))))].

Definition saveRecentSession (endTime : Z) : M unit :=
  s ← get;
  match sessionStartTime s, sessionData s with
  | None, _ | _, [] => mret tt
  | Some start, _ :: _ =>
      (* the average, then the peak, which may throw *)
      _ ← spreadPeak;
      let summary := sessionSummary start endTime s in
      (* unshift(summary), then slice(0, 10) *)
      let kept := take 10 (summary :: recentSessions s) in
      modify (set_recentSessions kept);;
      try_catch (setItem (JSON_stringify P (JArr kept))) (mret tt)
  end.

(** An entry of the history that the row template can format: reading
    its properties does not throw and [toFixed] finds two numbers. *)
Definition renderable (e : JsVal) : bool :=
  match getProp e "avgBlinkRate", getProp e "peakDrowsiness" with
  | Some (JNum _), Some (JNum _) => true
  | _, _ => false
  end.

Definition renderRecentSessions : M unit :=
  s ← get;
  match recentSessions s with
  | [] => setDom "sessionHistory.innerHTML" (DText "No previous sessions found")
  | rows =>
      if forallb renderable rows
      then setDom "sessionHistory.innerHTML" (DRows rows)
      else throw TypeError
  end.

Definition startSimulator (perfNow : Q) : M unit :=
  s ← get;
  match simulatorIntervalId s with
  | Some _ => mret tt
  | None =>
      modify (set_simulatorState
        (mkSim perfNow (blinkIntervalMs (simulatorState s)) 100 0 zeroTilt));;
      (* setInterval(simulatorTick, 2000) *)
      modify (λ s, set_timers (intervals s ++ [nextIntervalId s])
                     (Pos.succ (nextIntervalId s))
                     (set_simulatorIntervalId (Some (nextIntervalId s)) s))
  end.

Definition stopSimulator : M unit :=
  s ← get;
  match simulatorIntervalId s with
  | Some id =>
      (* clearInterval(id) *)
      modify (λ s, set_timers (filter (λ j, j ≠ id) (intervals s))
                     (nextIntervalId s) s);;
      modify (set_simulatorIntervalId None)
  | None => mret tt
  end.

Definition updateExportButtons : M unit :=
  s ← get;
  let hasData := negb (Nat.eqb (length (sessionData s)) 0) in
  let isPdf := match page s !! "exportFormat.value" with
               | Some (DText f) => String.eqb f "pdf"
               | _ => false
               end in
  setDom "exportBtn.disabled" (DFlag (negb hasData));;
  setDom "previewBtn.disabled" (DFlag (negb hasData || isPdf)).

Definition updateConnectionStatus (isConnected : bool) : M unit :=
  if isConnected then
    setDom "connectionStatus.className" (DText "badge bg-success");;
    setDom "connectionStatus.textContent" (DText "🟢 ESP32 Connected")
  else
    setDom "connectionStatus.className" (DText "badge bg-danger");;
    setDom "connectionStatus.textContent" (DText "🔴 ESP32 Disconnected").

Definition updateSessionStatus (isActive : bool) : M unit :=
  if isActive then
    setDom "sessionStatus.className" (DText "badge bg-success");;
    setDom "sessionStatus.textContent" (DText "Session Active")
  else
    setDom "sessionStatus.className" (DText "badge bg-secondary");;
    setDom "sessionStatus.textContent" (DText "Session Inactive").

Definition updateSessionControls (isActive : bool) : M unit :=
  setDom "startSessionBtn.disabled" (DFlag isActive);;
  setDom "stopSessionBtn.disabled" (DFlag (negb isActive));;
  updateExportButtons.

(** The [value] of an input element, as the script reads it. *)
Definition inputValue (v : option DomVal) : JsVal :=
  match v with
  | Some (DInt z) => JNum (of_Z z)
  | Some (DText t) => JStr t
  | _ => JStr ""
  end.

Definition updateThreshold : M unit :=
  s ← get;
  let value := inputValue (page s !! "drowsinessThreshold.value") in
  setDom "thresholdValue.textContent" (DConcat value "%").

Definition updateBlinkRate : M unit :=
  s ← get;
  let value := inputValue (page s !! "normalBlinkRate.value") in
  setDom "normalBlinkValue.textContent" (DConcat value " BPM").

Definition clearAlert : M unit :=
  setDom "alertStatus.innerHTML" (DAlert Clear).

Definition triggerAlert (data : JsVal) : M unit :=
  modify (λ s, set_totalAlerts (totalAlerts s + 1) s);;
  s ← get;
  setDom "totalAlerts.textContent" (DInt (totalAlerts s));;
  setDom "alertStatus.innerHTML" (DAlert Active);;
  (* console.log(..., data.drowsinessLevel.toFixed(1) + '%') *)
  level ← orThrow (getProp data "drowsinessLevel");
  _ ← orThrow (asNumber level);
  mret tt.

Definition checkForAlerts (data : JsVal) : M unit :=
  flag ← orThrow (getProp data "alertTriggered");
  if truthy flag then triggerAlert data else clearAlert.
Definition updateSessionStatistics (now : Z) : M unit :=
  s ← get;
  match sessionData s with
  | [] => mret tt
  | _ :: _ =>
      (* new Date() - sessionStartTime; null counts as 0 *)
      let duration := now - default 0 (sessionStartTime s) in
      let hours := duration `div` 3600000 in
      let minutes := (duration `rem` 3600000) `div` 60000 in
      let seconds := (duration `rem` 60000) `div` 1000 in
      setDom "sessionDuration.textContent" (DClock hours minutes seconds);;
      setDom "avgBlinkRate.textContent"
        (DFixed 1 (averageBlink (sessionData s)) " BPM");;
      peak ← spreadPeak;
      setDom "peakDrowsiness.textContent" (DFixed 1 peak "%")
  end.

(** [data.a.toFixed(..)]: the property must hold a number. *)
Definition fixedOf (data : JsVal) (a : string) : M JsNum :=
  v ← orThrow (getProp data a);
  orThrow (asNumber v).

(** [data.timestamp.toLocaleTimeString()]: the property must hold a Date. *)
Definition timeLabelOf (data : JsVal) : M (option Z) :=
  v ← orThrow (getProp data "timestamp");
  match v with
  | JDate t => mret t
  | _ => throw TypeError
  end.

Definition updateDashboardDisplays (data : JsVal) : M unit :=
  blink ← fixedOf data "eyeBlinkRate";
  setDom "blinkRate.textContent" (DFixed 1 blink " BPM");;
  let blinkRatePercent := jmin (jmul (jdiv blink (Fin 30)) (Fin 100)) (Fin 100) in
  setDom "blinkRateBar.style.width" (DConcat (JNum blinkRatePercent) "%");;
  level ← fixedOf data "drowsinessLevel";
  setDom "drowsinessLevel.textContent" (DFixed 1 level "%");;
  setDom "drowsinessBar.style.width" (DConcat (JNum level) "%");;
  head ← orThrow (getProp data "headMovement");
  p ← fixedOf head "pitch";
  setDom "pitchValue.textContent" (DFixed 1 p "°");;
  r ← fixedOf head "roll";
  setDom "rollValue.textContent" (DFixed 1 r "°");;
  y ← fixedOf head "yaw";
  setDom "yawValue.textContent" (DFixed 1 y "°");;
  battery ← fixedOf data "batteryLevel";
  setDom "batteryLevel.textContent" (DFixed 0 battery "%");;
  setDom "batteryBar.style.width" (DConcat (JNum battery) "%");;
  t ← timeLabelOf data;
  setDom "lastDataTime.textContent" (DTime t).

(** The window of the chart: push on the three arrays, then drop the
    oldest point when more than 20 labels are held. *)
Definition pushPoint (label : option Z) (level blink : JsVal) (c : Chart) : Chart :=
  let c1 := mkChart (labels c ++ [label]) (dataset0 c ++ [level])
                    (dataset1 c ++ [blink]) in
  if Nat.ltb 20 (length (labels c1))
  then mkChart (tail (labels c1)) (tail (dataset0 c1)) (tail (dataset1 c1))
  else c1.

Definition updateChart (data : JsVal) : M unit :=
  timeLabel ← timeLabelOf data;
  s ← get;
  chart ← orThrow (drowsinessChart s);
  level ← orThrow (getProp data "drowsinessLevel");
  blink ← orThrow (getProp data "eyeBlinkRate");
  modify (set_drowsinessChart (Some (pushPoint timeLabel level blink chart))).

(** The test that guards [processSensorData]: [true] when the data is
    refused. *)
Definition invalidSensorData (data : JsVal) : bool :=
  negb (truthy data)
  || negb (truthy (default JUndefined (getProp data "headMovement")))
  || negb (String.eqb (typeof (default JUndefined (getProp data "eyeBlinkRate"))) "number")
  || negb (String.eqb (typeof (default JUndefined (getProp data "drowsinessLevel"))) "number").

Definition processSensorData (statNow : Z) (data : JsVal) : M unit :=
  if invalidSensorData data then mret tt   (* console.error; return *)
  else
    modify (λ s, set_sessionData (sessionData s ++ [data]) s);;
    updateDashboardDisplays data;;
    updateChart data;;
    checkForAlerts data;;
    updateSessionStatistics statNow.

(** Every operation on numbers rounds.  In the states that the page can
    reach the operands are doubles of bounded size (a draw is below 1,
    the battery level at most 100, a base deflection at most 50), so no
    operation here overflows and each result is the finite double [rd]
    of the exact value; the difference of the two clock readings, which
    are not bounded, is taken with [jsub]. *)
Definition simulatorTick (now : Z) (nowMs : Q) (r : Draws) (statNow : Z) : M unit :=
  s ← get;
  if negb (isSessionActive s) then mret tt
  else
    let st := simulatorState s in
    let eyeClosedThisTick :=
      jge (jsub (Fin nowMs) (Fin (lastBlinkMs st))) (Fin (blinkIntervalMs st)) in
    let st := if eyeClosedThisTick then set_lastBlinkMs nowMs st else st in
    let st :=
      if (tiltCooldown st =? 0) && Qltb (rSpike r) (lit 0.08) then
        let st := set_tiltCooldown (2 + Qfloor (rd (rCooldown r * 2))) st in
        let spike := rd ((if Qltb (rSign r) 0.5 then 1 else -1)
                         * rd (30 + rd (rMagnitude r * 20)))%Q in
        set_baseTilt
          (set_axis (Qfloor (rd (rAxis r * 3))) spike (baseTilt st)) st
      else if 0 <? tiltCooldown st then
        let st := set_tiltCooldown (tiltCooldown st - 1) st in
        if tiltCooldown st =? 0 then set_baseTilt zeroTilt st else st
      else st in
    let hp := rd (pitch (baseTilt st) + rd (rd (rPitch r - 0.5) * 4))%Q in
    let hr := rd (roll (baseTilt st) + rd (rd (rRoll r - 0.5) * 4))%Q in
    let hy := rd (yaw (baseTilt st) + rd (rd (rYaw r - 0.5) * 4))%Q in
    let tiltExceeded :=
      Qltb 30 (qmax (qmax (Qabs hp) (Qabs hr)) (Qabs hy)) in
    let baselineBlink := rd (15 + rd (rBaseline r * 6))%Q in
    let eyeBlinkRate := if eyeClosedThisTick then 20%Q else baselineBlink in
    let level := rd (35 + rd (rDrowsy r * 15))%Q in
    let level := if eyeClosedThisTick
                 then rd (level + rd (20 + rd (rBlinkBoost r * 10)))%Q
                 else level in
    let level := if tiltExceeded
                 then rd (level + rd (20 + rd (rTiltBoost r * 15)))%Q
                 else level in
    let level := qmax 0 (qmin 100 level) in
    let st := set_batteryLevel
                (qmax 5 (rd (batteryLevel st
                             - rd (lit 0.15 + rd (rBattery r * lit 0.1)))))%Q
                st in
    modify (set_simulatorState st);;
    let alertTriggered := jge (Fin level) (threshold s) || tiltExceeded in
    let simulated := JObj [
      ("timestamp", JDate (Some now));
      ("eyeBlinkRate", JNum (Fin eyeBlinkRate));
      ("eyeClosureDuration",
        JNum (Fin (if eyeClosedThisTick then lit 0.2 else 0)));
      ("headMovement", JObj [("pitch", JNum (Fin hp)); ("roll", JNum (Fin hr));
                             ("yaw", JNum (Fin hy))]);
      ("drowsinessLevel", JNum (Fin level));
      ("alertTriggered", JBool alertTriggered);
      ("batteryLevel", JNum (Fin (batteryLevel st)))] in
    processSensorData statNow simulated.

(** The handler of the hub's [ReceiveSensorData] message. *)
Definition onReceiveSensorData (statNow : Z) (data : JsVal) : M unit :=
  s ← get;
  if isSessionActive s then
    stamp ← orThrow (getProp data "Timestamp");
    data' ← orThrow (setProp data "timestamp" (JDate (newDate P stamp)));
    processSensorData statNow data'
  else mret tt.

Definition startSession (now : Z) (perfNow : Q) : M unit :=
  modify (set_isSessionActive true);;
  modify (set_sessionStartTime (Some now));;
  modify (set_sessionData []);;
  modify (set_totalAlerts 0);;
  updateSessionStatus true;;
  updateSessionControls true;;
  updateConnectionStatus true;;
  startSimulator perfNow;;
  resetChart;;
  setDom "blinkRate.textContent" (DText "-- BPM");;
  setDom "blinkRateBar.style.width" (DText "0%");;
  setDom "drowsinessLevel.textContent" (DText "--%");;
  setDom "drowsinessBar.style.width" (DText "0%");;
  setDom "pitchValue.textContent" (DText "--°");;
  setDom "rollValue.textContent" (DText "--°");;
  setDom "yawValue.textContent" (DText "--°");;
  setDom "batteryLevel.textContent" (DText "--%");;
  setDom "batteryBar.style.width" (DText "0%");;
  setDom "lastDataTime.textContent" (DText "Never");;
  setDom "totalAlerts.textContent" (DText "0");;
  setDom "sessionDuration.textContent" (DText "00:00:00");;
  setDom "avgBlinkRate.textContent" (DText "-- BPM");;
  setDom "peakDrowsiness.textContent" (DText "--%");;
  clearAlert;;
  updateExportButtons.

Definition stopSession (now : Z) : M unit :=
  modify (set_isSessionActive false);;
  updateSessionStatus false;;
  updateSessionControls false;;
  stopSimulator;;
  saveRecentSession now;;
  renderRecentSessions.

Definition initializeDashboard : M unit :=
  updateConnectionStatus false;;
  updateSessionStatus false.

(** The [DOMContentLoaded] handler. *)
Definition onDOMContentLoaded : M unit :=
  initializeDashboard;;
  initializeChart;;
  loadRecentSessions;;
  renderRecentSessions.

End Engine.

(** ** The life of the page *)

(** What the browser delivers to the script: each event runs one handler
    to completion.  For an input event the browser first stores the new
    value in the element.  The export and preview buttons are left out:
    their handlers write to no component of [State]. *)
Inductive Event : Type :=
| DOMContentLoaded
| HubConnected                                  (* connection.start() resolved *)
| ClickStart (now : Z) (perfNow : Q)            (* startSessionBtn *)
| ClickStop (now : Z)                           (* stopSessionBtn *)
| TimerTick (now : Z) (nowMs : Q) (r : Draws) (statNow : Z)
| HubMessage (statNow : Z) (data : JsVal)       (* "ReceiveSensorData" *)
| InputThreshold (v : DomVal)                   (* the threshold slider moves *)
| InputBlinkRate (v : DomVal)                   (* the blink rate slider moves *)
| ChangeExportFormat (f : string).              (* the format selector changes *)

Definition handler (P : Platform) (e : Event) : M unit :=
  match e with
  | DOMContentLoaded => onDOMContentLoaded P
  | HubConnected => updateConnectionStatus true
  | ClickStart now perfNow => startSession now perfNow
  | ClickStop now => stopSession P now
  | TimerTick now nowMs r statNow => simulatorTick now nowMs r statNow
  | HubMessage statNow data => onReceiveSensorData P statNow data
  | InputThreshold v => setDom "drowsinessThreshold.value" v;; updateThreshold
  | InputBlinkRate v => setDom "normalBlinkRate.value" v;; updateBlinkRate
  | ChangeExportFormat f =>
      setDom "exportFormat.value" (DText f);; updateExportButtons
  end.

(** [Math.random()] returns a double in [0, 1). *)
Definition inUnit (q : Q) : bool := Qle_bool 0 q && Qltb q 1 && isDoubleb q.

Definition validDraws (r : Draws) : bool :=
  inUnit (rSpike r) && inUnit (rCooldown r) && inUnit (rAxis r)
  && inUnit (rSign r) && inUnit (rMagnitude r) && inUnit (rPitch r)
  && inUnit (rRoll r) && inUnit (rYaw r) && inUnit (rBaseline r)
  && inUnit (rDrowsy r) && inUnit (rBlinkBoost r) && inUnit (rTiltBoost r)
  && inUnit (rBattery r).

(** The timer callback runs only while an interval is scheduled; the
    script schedules no other callback than [simulatorTick]. *)
Definition possible (e : Event) (s : State) : bool :=
  match e with
  | TimerTick _ _ r _ =>
      match intervals s with [] => false | _ :: _ => validDraws r end
  | _ => true
  end.

(** The state when the script has been evaluated: the initial values of
    its variables, on whatever page and storage the browser provides and
    with whatever limit the engine has on the arguments of a call. *)
Definition initialState (page0 : gmap string DomVal) (store : Storage)
    (limit : Z) : State :=
  mkState false None None 0 [] None (mkSim 0 3000 100 0 zeroTilt) []
          page0 store [] 1%positive limit.

Inductive reachable (P : Platform) : State → Prop :=
| reachable_init page0 store limit :
    reachable P (initialState page0 store limit)
| reachable_step s e :
    reachable P s → possible e s = true → reachable P (exec (handler P e) s).

(** The states that a list of events leads through. *)
Fixpoint run (P : Platform) (es : list Event) (s : State) : State :=
  match es with
  | [] => s
  | e :: es' => run P es' (exec (handler P e) s)
  end.

(** ** A platform and some samples for the worked examples *)

Definition examplePlatform : Platform :=
  mkPlatform
    (λ str, if String.eqb str "[]" then Some (JArr [])
            else if String.eqb str "[null]" then Some (JArr [JNull])
            else if String.eqb str "{}" then Some (JObj [])
            else None)
    (λ _, "[...]")
    (λ _, "1970-01-01T00:00:00.000Z")
    (λ v, match v with JNum (Fin q) => Some (Qfloor q) | _ => None end).

Definition exampleStorage : Storage := mkStorage None true true.

(** An engine that passes 65535 arguments at most. *)
Definition exampleLimit : Z := 65535.

Definition sample (t : Z) (blink level : JsNum) (alert : JsVal) : JsVal :=
  JObj [("timestamp", JDate (Some t));
        ("eyeBlinkRate", JNum blink);
        ("eyeClosureDuration", JNum (Fin 0));
        ("headMovement", JObj [("pitch", JNum (Fin 1)); ("roll", JNum (Fin 2));
                               ("yaw", JNum (Fin 3))]);
        ("drowsinessLevel", JNum level);
        ("alertTriggered", alert);
        ("batteryLevel", JNum (Fin 90))].

Definition halfDraws : Draws :=
  mkDraws 0.5 0.5 0.5 0.5 0.5 0.5 0.5 0.5 0.5 0.5 0.5 0.5 0.5.

(** ** Vocabulary of the properties *)

(** [preserves R m]: whatever the state [s], running [m] from [s] ends
    (by return or by throw) in a state related to [s] by [R]. *)
Definition preserves (R : State → State → Prop) {A : Type} (m : M A) : Prop :=
  ∀ s, R s (m s).2.

(** [keeps f m]: the computation [m] never changes the component [f]. *)
Definition keeps {A B : Type} (f : State → B) (m : M A) : Prop :=
  preserves (λ s s', f s' = f s) m.

(** The acceptance condition in the words of the specification: the raw
    value is there, its [headMovement] is there, and the two rates are
    finite numbers. *)
Definition present (v : JsVal) : bool :=
  match v with JUndefined | JNull => false | _ => true end.

Definition finiteNumber (v : JsVal) : bool :=
  match v with JNum (Fin _) => true | _ => false end.

Definition specAccepts (raw : JsVal) : bool :=
  present raw
  && present (default JUndefined (getProp raw "headMovement"))
  && finiteNumber (default JUndefined (getProp raw "eyeBlinkRate"))
  && finiteNumber (default JUndefined (getProp raw "drowsinessLevel")).

(** What the guard of [processSensorData] lets through: an object whose
    [headMovement] is truthy and whose two rates have type number. *)
Definition accepted (raw : JsVal) : Prop :=
  ∃ props blink level,
    raw = JObj props
    ∧ truthy (assoc "headMovement" props) = true
    ∧ assoc "eyeBlinkRate" props = JNum blink
    ∧ assoc "drowsinessLevel" props = JNum level.

(** The events of a list are possible one after the other from [s]. *)
Fixpoint allPossible (P : Platform) (es : list Event) (s : State) : bool :=
  match es with
  | [] => true
  | e :: es' => possible e s && allPossible P es' (exec (handler P e) s)
  end.

(** A page that has been loaded, and the same with a session started. *)
Definition loadedState : State :=
  run examplePlatform [DOMContentLoaded; HubConnected]
    (initialState {["drowsinessThreshold.value" := DInt 70]} exampleStorage
       exampleLimit).

Definition activeState : State :=
  run examplePlatform [ClickStart 1000 0] loadedState.

(** A sample whose blink rate is [NaN]. *)
Definition nanSample : JsVal := sample 1500 NaN (Fin 50) (JBool false).

(** The state [s] with the threshold slider moved to [v]. *)
Definition withThreshold (v : DomVal) (s : State) : State :=
  set_page (<["drowsinessThreshold.value" := v]> (page s)) s.

(** The alert banner that the page shows. *)
Definition alertShown (s : State) : option DomVal :=
  page s !! "alertStatus.innerHTML".

(** A sample of a producer that sends no [alertTriggered]. *)
Definition legacySample : JsVal :=
  JObj [("timestamp", JDate (Some 1500));
        ("eyeBlinkRate", JNum (Fin 18));
        ("headMovement", JObj [("pitch", JNum (Fin 1)); ("roll", JNum (Fin 2));
                               ("yaw", JNum (Fin 3))]);
        ("drowsinessLevel", JNum (Fin 90));
        ("batteryLevel", JNum (Fin 90))].






(** The session of the specification's example: blink 10, drowsiness 20,
    then blink 20, drowsiness 80. *)
Definition twoSampleState : State :=
  run examplePlatform
    [HubMessage 2000 (sample 1500 (Fin 10) (Fin 20) (JBool false));
     HubMessage 3000 (sample 2000 (Fin 20) (Fin 80) (JBool true))]
    activeState.





(** The last [n] elements of a list, oldest first. *)
Definition lastN {A : Type} (n : nat) (l : list A) : list A :=
  drop (length l - n) l.

(** A chart window in its normal shape: at most 20 points, the three
    arrays of the same length. *)
Definition windowOk (c : Chart) : Prop :=
  (length (labels c) ≤ 20)%nat
  ∧ length (dataset0 c) = length (labels c)
  ∧ length (dataset1 c) = length (labels c).

(** The sample has a Date under [timestamp], so [updateChart] can make
    its label and pushes it. *)
Definition stamped (d : JsVal) : Prop :=
  ∃ t, getProp d "timestamp" = Some (JDate t).

Definition stampOf (d : JsVal) : option Z :=
  match getProp d "timestamp" with Some (JDate t) => t | _ => None end.

Definition fieldOf (k : string) (d : JsVal) : JsVal :=
  default JUndefined (getProp d k).

(** One call of [updateChart] per sample, each in its own turn. *)
Definition pushAll (ds : list JsVal) (s : State) : State :=
  foldl (λ s d, exec (updateChart d) s) s ds.

(** Twenty-five samples, stamped 1 to 25, with level [i] and blink rate
    [100 + i]. *)
Definition numberedSample (i : Z) : JsVal :=
  sample i (Fin (inject_Z (100 + i))) (Fin (inject_Z i)) (JBool false).

Definition twentyFive : list JsVal :=
  map numberedSample
    [1; 2; 3; 4; 5; 6; 7; 8; 9; 10; 11; 12; 13; 14; 15; 16; 17; 18; 19; 20;
     21; 22; 23; 24; 25].

(** The storage holds a well-formed history: it can be read, and the
    string under the key is not empty and parses to an array. *)
Definition wellFormedSlot (P : Platform) (st : Storage) (items : list JsVal) : Prop :=
  readable st = true
  ∧ ∃ raw, slot st = Some raw ∧ raw ≠ "" ∧ JSON_parse P raw = Some (JArr items).

(** The timers that the variable [simulatorIntervalId] accounts for. *)
Definition timerRow (s : State) : list positive :=
  match simulatorIntervalId s with Some id => [id] | None => [] end.

Definition battery (s : State) : Q := batteryLevel (simulatorState s).

(** Every window that the chart has is in its normal shape. *)
Definition chartOk (s : State) : Prop :=
  ∀ c, drowsinessChart s = Some c → windowOk c.

(** What holds of every state that the page can be in. *)
Record invariant (s : State) : Prop := mkInvariant {
  inv_timers : intervals s = timerRow s;
  inv_active :
    isSessionActive s = match simulatorIntervalId s with
                        | Some _ => true | None => false end;
  inv_started :
    sessionStartTime s = None → isSessionActive s = false ∧ sessionData s = [];
  inv_battery : (5 <= battery s <= 100)%Q;
  inv_samples : Forall accepted (sessionData s);
  inv_window : chartOk s
}.

(** The amount that one tick subtracts from the battery level:
    [0.15 + Math.random() * 0.1]. *)
Definition drain (r : Draws) : Q := rd (lit 0.15 + rd (rBattery r * lit 0.1)).

Definition isTick (e : Event) : bool :=
  match e with TimerTick _ _ _ _ => true | _ => false end.

Definition isStart (e : Event) : bool :=
  match e with ClickStart _ _ => true | _ => false end.

(** [returns m]: the computation [m] never throws. *)
Definition returns {A : Type} (m : M A) : Prop :=
  ∀ s, ∃ a, (m s).1 = Ok a.

(** The simulator and the timers. *)
Definition simulatorPart (s : State)
  : option positive * list positive * positive * SimulatorState :=
  (simulatorIntervalId s, intervals s, nextIntervalId s, simulatorState s).

(** Everything but the page. *)
Definition engine (s : State) :=
  (isSessionActive s, sessionStartTime s, drowsinessChart s, totalAlerts s,
   sessionData s, simulatorPart s, recentSessions s, localStorage s).

(** A stop records the session when it was started, has a sample and
    its samples are no more than the engine takes as arguments. *)
Definition recordsAtStop (s : State) : bool :=
  match sessionStartTime s, sessionData s with
  | Some _, _ :: _ => Z.of_nat (length (sessionData s)) <=? argumentLimit s
  | _, _ => false
  end.

(** The history that a stop at [now] leaves, in the words of the
    specification: the summary of the session in front of the previous
    entries, the whole cut to 10, when the session is recorded; the
    previous history otherwise. *)
Definition historyAfterStop (P : Platform) (now : Z) (s : State) : list JsVal :=
  match sessionStartTime s with
  | Some start =>
      if recordsAtStop s
      then take 10 (sessionSummary P start now s :: recentSessions s)
      else recentSessions s
  | None => recentSessions s
  end.

Definition storageAfterStop (P : Platform) (now : Z) (s : State) : Storage :=
  if recordsAtStop s && writable (localStorage s)
  then mkStorage (Some (JSON_stringify P (JArr (historyAfterStop P now s))))
                 (readable (localStorage s)) true
  else localStorage s.

(** The components that ingesting a sample leaves alone. *)
Definition steady (s : State) :=
  (isSessionActive s, sessionStartTime s, simulatorPart s, recentSessions s,
   localStorage s).

(** The relation between two states the second of which has a chart in
    its normal shape whenever the first has. *)
Definition chartStaysOk (s s' : State) : Prop := chartOk s → chartOk s'.

(** A list of events that are all timer ticks with valid draws. *)
Definition validTick (e : Event) : bool :=
  match e with TimerTick _ _ r _ => validDraws r | _ => false end.

(** A sample that has every field of the data model with its type, so
    that the display can format it. *)
Definition complete (d : JsVal) : Prop :=
  ∃ t blink level head p r y charge,
    getProp d "timestamp" = Some (JDate t)
    ∧ getProp d "eyeBlinkRate" = Some (JNum blink)
    ∧ getProp d "drowsinessLevel" = Some (JNum level)
    ∧ getProp d "headMovement" = Some head
    ∧ truthy head = true
    ∧ getProp head "pitch" = Some (JNum p)
    ∧ getProp head "roll" = Some (JNum r)
    ∧ getProp head "yaw" = Some (JNum y)
    ∧ getProp d "batteryLevel" = Some (JNum charge).

(** A sample that passes the guard but has no angles, no battery level and
    no timestamp. *)
Definition bareSample : JsVal :=
  JObj [("headMovement", JObj []);
        ("eyeBlinkRate", JNum (Fin 18));
        ("drowsinessLevel", JNum (Fin 90));
        ("alertTriggered", JBool true)].

(** ** Vocabulary of the further properties *)

(** The samples that the guard of [processSensorData] lets through. *)
Definition validSensorData (d : JsVal) : bool := negb (invalidSensorData d).

(** One call of [processSensorData] per input, each in its own turn, with
    the clock reading of that turn. *)
Definition ingestAll (inputs : list (Z * JsVal)) (s : State) : State :=
  foldl (λ s i, exec (processSensorData i.1 i.2) s) s inputs.

(** The session as the statistics and the exports see it. *)
Definition sessionRecord (s : State) :=
  (isSessionActive s, sessionStartTime s, sessionData s, totalAlerts s).

Definition notStart (e : Event) : bool := negb (isStart e).

(** *** The parts of a simulator tick

    [simulatorTick] computes in one body; its intermediate values are
    named here, and [simulatorTick_unfold] shows that the function is
    made of them. *)

(** The blink timer has run out: [eyeClosedThisTick]. *)
Definition blinkFires (nowMs : Q) (st : SimulatorState) : bool :=
  jge (jsub (Fin nowMs) (Fin (lastBlinkMs st))) (Fin (blinkIntervalMs st)).

Definition afterBlink (nowMs : Q) (st : SimulatorState) : SimulatorState :=
  if blinkFires nowMs st then set_lastBlinkMs nowMs st else st.

(** The deflection of a new spike. *)
Definition spikeValue (r : Draws) : Q :=
  rd ((if Qltb (rSign r) 0.5 then 1 else -1)
      * rd (30 + rd (rMagnitude r * 20)))%Q.

(** The spike and cooldown step of the tick. *)
Definition afterTilt (r : Draws) (st : SimulatorState) : SimulatorState :=
  if (tiltCooldown st =? 0) && Qltb (rSpike r) (lit 0.08) then
    let st := set_tiltCooldown (2 + Qfloor (rd (rCooldown r * 2))) st in
    set_baseTilt
      (set_axis (Qfloor (rd (rAxis r * 3))) (spikeValue r) (baseTilt st)) st
  else if 0 <? tiltCooldown st then
    let st := set_tiltCooldown (tiltCooldown st - 1) st in
    if tiltCooldown st =? 0 then set_baseTilt zeroTilt st else st
  else st.

(** The noise of an angle: [(Math.random() - 0.5) * 4]. *)
Definition noiseOf (u : Q) : Q := rd (rd (u - 0.5) * 4).

(** The [headMovement] of the sample: the base deflection plus noise. *)
Definition observedTilt (r : Draws) (st : SimulatorState) : Tilt :=
  mkTilt (rd (pitch (baseTilt st) + noiseOf (rPitch r)))
         (rd (roll (baseTilt st) + noiseOf (rRoll r)))
         (rd (yaw (baseTilt st) + noiseOf (rYaw r))).

(** [Math.max(|pitch|, |roll|, |yaw|) > 30] *)
Definition tiltExceeded (t : Tilt) : bool :=
  Qltb 30 (qmax (qmax (Qabs (pitch t)) (Qabs (roll t))) (Qabs (yaw t))).

Definition simulatedBlinkRate (fires : bool) (r : Draws) : Q :=
  if fires then 20%Q else rd (15 + rd (rBaseline r * 6)).

Definition simulatedLevel (fires exceeded : bool) (r : Draws) : Q :=
  let level := rd (35 + rd (rDrowsy r * 15)) in
  let level := if fires
               then rd (level + rd (20 + rd (rBlinkBoost r * 10)))
               else level in
  let level := if exceeded
               then rd (level + rd (20 + rd (rTiltBoost r * 15)))
               else level in
  qmax 0 (qmin 100 level).

(** The simulator state that a tick leaves. *)
Definition nextSimulatorState (nowMs : Q) (r : Draws) (st : SimulatorState)
  : SimulatorState :=
  let st1 := afterTilt r (afterBlink nowMs st) in
  set_batteryLevel (qmax 5 (rd (batteryLevel st1 - drain r))) st1.

(** The sample that a tick makes, [thr] being the threshold read from the
    slider. *)
Definition simulatedSample (now : Z) (nowMs : Q) (r : Draws) (thr : JsNum)
    (st : SimulatorState) : JsVal :=
  let fires := blinkFires nowMs st in
  let head := observedTilt r (afterTilt r (afterBlink nowMs st)) in
  let level := simulatedLevel fires (tiltExceeded head) r in
  JObj [
    ("timestamp", JDate (Some now));
    ("eyeBlinkRate", JNum (Fin (simulatedBlinkRate fires r)));
    ("eyeClosureDuration", JNum (Fin (if fires then lit 0.2 else 0)));
    ("headMovement", JObj [("pitch", JNum (Fin (pitch head)));
                           ("roll", JNum (Fin (roll head)));
                           ("yaw", JNum (Fin (yaw head)))]);
    ("drowsinessLevel", JNum (Fin level));
    ("alertTriggered", JBool (jge (Fin level) thr || tiltExceeded head));
    ("batteryLevel", JNum (Fin (batteryLevel (nextSimulatorState nowMs r st))))].

(** The deflection of a spike: from 30 to 50 degrees, either way. *)
Definition spikeRange (v : Q) : Prop :=
  (30 <= v <= 50)%Q ∨ (-50 <= v <= -30)%Q.

(** At most one axis is deflected, and by a spike's amount. *)
Definition oneAxis (t : Tilt) : Prop :=
  t = zeroTilt
  ∨ ∃ v, spikeRange v
         ∧ (t = mkTilt v 0 0 ∨ t = mkTilt 0 v 0 ∨ t = mkTilt 0 0 v).

(** The shape of the simulator's tilt state. *)
Definition tiltInvariant (st : SimulatorState) : Prop :=
  0 ≤ tiltCooldown st ≤ 3
  ∧ (tiltCooldown st = 0 → baseTilt st = zeroTilt)
  ∧ oneAxis (baseTilt st).

(** An angle that is noise only. *)
Definition noiseOnly (q : Q) : Prop := (-2 <= q <= 2)%Q.

(** Draws for a tick on which a spike begins. *)
Definition spikeDraws : Draws :=
  mkDraws (1 # 64) 0.5 0.5 0.5 0.5 0.5 0.5 0.5 0.5 0.5 0.5 0.5 0.5.

(** *** Flagged samples *)

(** The sample's [alertTriggered] is truthy. *)
Definition flagged (d : JsVal) : bool := truthy (fieldOf "alertTriggered" d).

Definition flaggedCount (ds : list JsVal) : Z :=
  Z.of_nat (length (List.filter flagged ds)).

(** The session data and the alert counter. *)
Definition tally (s : State) : list JsVal * Z := (sessionData s, totalAlerts s).

(** A sample as the simulator makes them: complete, with a valid date and
    a boolean alert flag. *)
Definition wellFormed (d : JsVal) : Prop :=
  complete d
  ∧ (∃ t, getProp d "timestamp" = Some (JDate (Some t)))
  ∧ (∃ b, getProp d "alertTriggered" = Some (JBool b)).

(** A session all of whose samples went through the whole of
    [processSensorData]. *)
Definition fullyProcessed (s : State) : Prop :=
  is_Some (drowsinessChart s)
  ∧ Forall wellFormed (sessionData s)
  ∧ totalAlerts s = flaggedCount (sessionData s).

Definition notHubMessage (e : Event) : bool :=
  match e with HubMessage _ _ => false | _ => true end.

(** *** Durations *)

(** [formatDuration(ms)] for an integer [ms], as the [durationMs] that
    [saveRecentSession] records is.  The three parts are padded to two
    characters and joined with colons. *)
Definition formatDuration (ms : Z) : DomVal :=
  let h := ms `div` 3600000 in
  let m := (ms `rem` 3600000) `div` 60000 in
  let s := (ms `rem` 60000) `div` 1000 in
  DClock h m s.

(** *** The CSV export *)

(** A cell of the CSV text.  A number formatted by [toFixed] is kept as
    the number and the digits. *)
Inductive Cell : Type :=
| CText (s : string)
| CFixed (digits : nat) (x : JsNum).             (* x.toFixed(digits) *)

Definition csvHeaders : list Cell :=
  [CText "Timestamp"; CText "Blink Rate (BPM)"; CText "Drowsiness Level (%)";
   CText "Pitch (°)"; CText "Roll (°)"; CText "Yaw (°)";
   CText "Alert Triggered"; CText "Battery Level (%)"].

(** [data.a.toFixed(digits)]; [None] when it throws: the property must
    hold a number. *)
Definition toFixedOf (digits : nat) (data : JsVal) (a : string) : option Cell :=
  v ← getProp data a;
  x ← asNumber v;
  Some (CFixed digits x).

(** [data.timestamp.toISOString()]; [None] when it throws: a TypeError
    unless the property holds a Date, a RangeError when the Date is
    invalid. *)
Definition isoOf (P : Platform) (data : JsVal) : option Cell :=
  v ← getProp data "timestamp";
  match v with
  | JDate (Some t) => Some (CText (toISOString P t))
  | _ => None
  end.

(** The row that the [forEach] of [generateCSVContent] makes of a sample,
    before its cells are joined with commas; [None] when making it
    throws. *)
Definition csvRow (P : Platform) (data : JsVal) : option (list Cell) :=
  stamp ← isoOf P data;
  blink ← toFixedOf 2 data "eyeBlinkRate";
  level ← toFixedOf 2 data "drowsinessLevel";
  head ← getProp data "headMovement";
  p ← toFixedOf 2 head "pitch";
  r ← toFixedOf 2 head "roll";
  y ← toFixedOf 2 head "yaw";
  flag ← getProp data "alertTriggered";
  battery ← toFixedOf 1 data "batteryLevel";
  Some [stamp; blink; level; p; r; y;
        CText (if truthy flag then "Yes" else "No"); battery].

(** [generateCSVContent()]: the rows of the text, the header first,
    before they are joined with newlines.  A row that throws ends the
    function: [None]. *)
Definition generateCSVContent (P : Platform) (s : State)
  : option (list (list Cell)) :=
  rows ← mapM (csvRow P) (sessionData s);
  Some (csvHeaders :: rows).

(** The row says Yes in the Alert Triggered column. *)
Definition isYesRow (row : list Cell) : bool :=
  match row !! 6%nat with
  | Some (CText t) => String.eqb t "Yes"
  | _ => false
  end.

(** A hub message with every field, sent 1500 ms after the device's boot. *)
Definition datedMessage : JsVal :=
  JObj [("Timestamp", JNum (Fin 1500));
        ("eyeBlinkRate", JNum (Fin 18));
        ("headMovement", JObj [("pitch", JNum (Fin 1)); ("roll", JNum (Fin 2));
                               ("yaw", JNum (Fin 3))]);
        ("drowsinessLevel", JNum (Fin 80));
        ("alertTriggered", JBool true);
        ("batteryLevel", JNum (Fin 90))].

(** A session with two ticks of the simulator, a spike beginning on the
    second, then stopped. *)
Definition simulatedEvents : list Event :=
  [ClickStart 1000 0; TimerTick 3000 2000 halfDraws 3000;
   TimerTick 5000 4000 spikeDraws 5000; ClickStop 6000].

(** A hub message whose [Timestamp] the platform cannot read as a date. *)
Definition undatedMessage : JsVal :=
  JObj [("Timestamp", JStr "soon");
        ("eyeBlinkRate", JNum (Fin 18));
        ("headMovement", JObj [("pitch", JNum (Fin 1)); ("roll", JNum (Fin 2));
                               ("yaw", JNum (Fin 3))]);
        ("drowsinessLevel", JNum (Fin 40));
        ("alertTriggered", JBool false);
        ("batteryLevel", JNum (Fin 90))].

(** *** The export and preview buttons *)

(** What a click on the export button leads to. *)
Inductive ExportAction : Type :=
| ExportNoData        (* alert('No session data available to export. ...') *)
| ExportPdf           (* generatePDFReport() *)
| ExportCsv           (* generateCSVExport() *)
| ExportText          (* generateTextSummary() *)
| ExportNothing.      (* no case of the switch *)

(** What a click on the preview button leads to. *)
Inductive PreviewAction : Type :=
| PreviewNoData       (* alert('No session data available to preview. ...') *)
| PreviewCsv          (* showPreviewModal(generateCSVContent(), 'csv') *)
| PreviewText         (* showPreviewModal(generateTextContent(), 'txt') *)
| PreviewPdfAlert     (* alert('PDF preview is not available. ...') *)
| PreviewEmpty.       (* showPreviewModal('', format) *)

(** [document.getElementById('exportFormat').value] *)
Definition exportFormat (s : State) : JsVal :=
  inputValue (page s !! "exportFormat.value").

Definition exportSessionData (s : State) : ExportAction :=
  if Nat.eqb (length (sessionData s)) 0 then ExportNoData
  else match exportFormat s with
       | JStr f =>
           if String.eqb f "pdf" then ExportPdf
           else if String.eqb f "csv" then ExportCsv
           else if String.eqb f "txt" then ExportText
           else ExportNothing
       | _ => ExportNothing
       end.

Definition previewSessionData (s : State) : PreviewAction :=
  if Nat.eqb (length (sessionData s)) 0 then PreviewNoData
  else match exportFormat s with
       | JStr f =>
           if String.eqb f "csv" then PreviewCsv
           else if String.eqb f "txt" then PreviewText
           else if String.eqb f "pdf" then PreviewPdfAlert
           else PreviewEmpty
       | _ => PreviewEmpty
       end.

(** The property of a page element that the key names. *)
Definition domAt (key : string) (s : State) : option DomVal := page s !! key.

(** The [disabled] of the export button and of the preview button. *)
Definition exportButtons (s : State) : option DomVal * option DomVal :=
  (domAt "exportBtn.disabled" s, domAt "previewBtn.disabled" s).

(** The events whose handlers call [updateExportButtons]. *)
Definition refreshesButtons (e : Event) : bool :=
  match e with
  | ClickStart _ _ | ClickStop _ | ChangeExportFormat _ => true
  | _ => false
  end.

(** *** Reloading the page *)

(** A platform whose JSON functions know one history: it is written as
    one fixed text, and that text is read back as the history. *)
Definition onePlatform (h : list JsVal) : Platform :=
  mkPlatform
    (λ str, if String.eqb str "[h]" then Some (JArr h) else None)
    (λ _, "[h]")
    (toISOString examplePlatform)
    (newDate examplePlatform).

(** The history that stopping the session of one dated hub message at
    6000 leaves. *)
Definition oneEntry : list JsVal :=
  historyAfterStop examplePlatform 6000
    (run examplePlatform [HubMessage 2000 datedMessage] activeState).

(** *** The chart and the session *)

(** The chart holds the last 20 recorded samples, oldest first: their
    time labels, their drowsiness levels and their blink rates. *)
Definition chartMirrors (s : State) : Prop :=
  ∃ c, drowsinessChart s = Some c
       ∧ labels c = lastN 20 (map stampOf (sessionData s))
       ∧ dataset0 c = lastN 20 (map (fieldOf "drowsinessLevel") (sessionData s))
       ∧ dataset1 c = lastN 20 (map (fieldOf "eyeBlinkRate") (sessionData s)).

(** The events other than a load of the page and a hub message. *)
Definition localEvent (e : Event) : bool :=
  match e with
  | DOMContentLoaded | HubMessage _ _ => false
  | _ => true
  end.

(** *** The session controls *)

Definition isStop (e : Event) : bool :=
  match e with ClickStop _ => true | _ => false end.

(** The start button is disabled exactly while a session is active, and
    the stop button exactly while none is. *)
Definition controlsInSync (s : State) : Prop :=
  domAt "startSessionBtn.disabled" s = Some (DFlag (isSessionActive s))
  ∧ domAt "stopSessionBtn.disabled" s = Some (DFlag (negb (isSessionActive s))).

(** *** The CSV download *)

(** [iso.split('T')[0]] *)
Fixpoint beforeT (str : string) : string :=
  match str with
  | EmptyString => EmptyString
  | String c rest =>
      if String.eqb (String c EmptyString) "T" then EmptyString else String c (beforeT rest)
  end.

(** What [downloadFile] is given. *)
Record Download : Type := mkDownload {
  fileContent : list (list Cell);
  fileName : string;
  mimeType : string
}.

(** [generateCSVExport()]: the content first, then the file name, made of
    the day of [sessionStartTime]; [None] when one of them throws, the
    second on a [null] start time. *)
Definition generateCSVExport (P : Platform) (s : State) : option Download :=
  content ← generateCSVContent P s;
  start ← sessionStartTime s;
  Some (mkDownload content
          ("drowsiness_data_" +:+ beforeT (toISOString P start) +:+ ".csv")
          "text/csv").

(** The page properties that [processSensorData] writes to. *)
Definition sampleDisplays : list string :=
  ["blinkRate.textContent"; "blinkRateBar.style.width";
   "drowsinessLevel.textContent"; "drowsinessBar.style.width";
   "pitchValue.textContent"; "rollValue.textContent"; "yawValue.textContent";
   "batteryLevel.textContent"; "batteryBar.style.width";
   "lastDataTime.textContent"; "totalAlerts.textContent";
   "alertStatus.innerHTML"; "sessionDuration.textContent";
   "avgBlinkRate.textContent"; "peakDrowsiness.textContent"].

(** An active session with the format selector on csv and one dated hub
    message. *)
Definition csvState : State :=
  run examplePlatform [ChangeExportFormat "csv"; HubMessage 2000 datedMessage]
    activeState.


(** The draws of a tick in which the [Math.random()] of the battery is
    1 - 2^-52, a double below 1; the other draws are 0.5. *)
Definition edgeDraws : Draws :=
  mkDraws 0.5 0.5 0.5 0.5 0.5 0.5 0.5 0.5 0.5 0.5 0.5 0.5
          (1 - (1 # 4503599627370496)).

(** * Reasoning about the script *)

(** ** Rounding to a double *)

Lemma pow2_pos k : (0 < pow2 k)%Q.
Proof. apply Qpower_0_lt. reflexivity. Qed.

Lemma pow2_add a b : (pow2 (a + b) == pow2 a * pow2 b)%Q.
Proof. apply Qpower_plus. discriminate. Qed.

Lemma pow2_le a b : a ≤ b → (pow2 a <= pow2 b)%Q.
Proof. intros H. apply Qpower_le_compat_l; [done|]. discriminate. Qed.

Lemma pow2_lt a b : a < b → (pow2 a < pow2 b)%Q.
Proof. intros H. apply Qpower_lt_compat_l; [done|]. reflexivity. Qed.

Lemma pow2_le_inv a b : (pow2 a <= pow2 b)%Q → a ≤ b.
Proof. intros H. eapply Qpower_le_compat_l_inv; [exact H|reflexivity]. Qed.

Lemma pow2_lt_inv a b : (pow2 a < pow2 b)%Q → a < b.
Proof. intros H. eapply Qpower_lt_compat_l_inv; [exact H|reflexivity]. Qed.

Lemma pow2_Z k : 0 ≤ k → (pow2 k == inject_Z (2 ^ k))%Q.
Proof. intros H. unfold pow2. by rewrite Zpower_Qpower. Qed.

Lemma pow2_sub a b : (pow2 (a - b) == pow2 a / pow2 b)%Q.
Proof. apply Qpower_minus. discriminate. Qed.

Lemma pow2_succ a : (pow2 (a + 1) == 2 * pow2 a)%Q.
Proof. rewrite pow2_add. unfold pow2 at 2. rewrite Qpower_1_r. ring. Qed.

(** The binary exponent of a positive rational. *)
Lemma ilog2_spec q :
  (0 < q)%Q → (pow2 (ilog2 q) <= q < pow2 (ilog2 q + 1))%Q.
Proof.
  intros Hq. unfold ilog2.
  destruct q as [n d]. cbn [Qnum Qden].
  assert (Hn : 0 < n).
  { unfold Qlt in Hq. cbn in Hq. lia. }
  set (a := Z.log2 n). set (b := Z.log2 (Z.pos d)).
  destruct (Z.log2_spec n Hn) as [Ha1 Ha2]. fold a in Ha1, Ha2.
  destruct (Z.log2_spec (Z.pos d) (Pos2Z.is_pos d)) as [Hb1 Hb2].
  fold b in Hb1, Hb2.
  assert (Ha0 : 0 ≤ a) by apply Z.log2_nonneg.
  assert (Hb0 : 0 ≤ b) by apply Z.log2_nonneg.
  assert (Hq' : (n # d == inject_Z n / inject_Z (Z.pos d))%Q).
  { rewrite Qmake_Qdiv. reflexivity. }
  assert (Hd : (0 < inject_Z (Z.pos d))%Q).
  { rewrite <- (Zlt_Qlt 0). lia. }
  assert (HX1 : (inject_Z n < pow2 (a + 1))%Q).
  { rewrite pow2_Z by lia. rewrite <- Zlt_Qlt. lia. }
  assert (HX2 : (pow2 a <= inject_Z n)%Q).
  { rewrite pow2_Z by lia. rewrite <- Zle_Qle. lia. }
  assert (HD1 : (inject_Z (Z.pos d) < pow2 (b + 1))%Q).
  { rewrite pow2_Z by lia. rewrite <- Zlt_Qlt. lia. }
  assert (HD2 : (pow2 b <= inject_Z (Z.pos d))%Q).
  { rewrite pow2_Z by lia. rewrite <- Zle_Qle. lia. }
  assert (Hup : (n # d < pow2 (a - b + 1))%Q).
  { rewrite Hq'. apply Qlt_shift_div_r; [done|].
    replace (a - b + 1) with ((a + 1) - b) by lia.
    rewrite pow2_sub.
    pose proof (pow2_pos b) as Hb. pose proof (pow2_pos (a + 1)) as Ha.
    apply Qlt_le_trans with (pow2 (a + 1)); [done|].
    apply Qle_trans with (pow2 (a + 1) / pow2 b * pow2 b)%Q.
    - field_simplify; [apply Qle_refl|lra].
    - apply Qmult_le_l; [|done]. apply Qlt_shift_div_l; [done|lra]. }
  assert (Hlow : (pow2 (a - b - 1) <= n # d)%Q).
  { rewrite Hq'. apply Qle_shift_div_l; [done|].
    replace (a - b - 1) with (a - (b + 1)) by lia.
    rewrite pow2_sub.
    pose proof (pow2_pos (b + 1)) as Hb. pose proof (pow2_pos a) as Ha.
    apply Qle_trans with (pow2 a); [|done].
    apply Qle_trans with (pow2 a / pow2 (b + 1) * pow2 (b + 1))%Q.
    - apply Qmult_le_l; [|lra]. apply Qlt_shift_div_l; [done|lra].
    - field_simplify; [apply Qle_refl|lra]. }
  destruct (Qle_bool (pow2 (a - b)) (n # d)) eqn:E.
  - apply Qle_bool_iff in E. split; done.
  - split; [done|].
    replace (a - b - 1 + 1) with (a - b) by lia.
    apply Qnot_le_lt. intros H. apply Qle_bool_iff in H. congruence.
Qed.

Lemma ilog2_unique q e :
  (pow2 e <= q < pow2 (e + 1))%Q → ilog2 q = e.
Proof.
  intros [H1 H2].
  assert (Hq : (0 < q)%Q) by (eapply Qlt_le_trans; [apply pow2_pos|exact H1]).
  destruct (ilog2_spec q Hq) as [G1 G2].
  assert (ilog2 q < e + 1).
  { apply pow2_lt_inv. eapply Qle_lt_trans; [exact G1|exact H2]. }
  assert (e < ilog2 q + 1).
  { apply pow2_lt_inv. eapply Qle_lt_trans; [exact H1|exact G2]. }
  lia.
Qed.

Lemma ilog2_comp x y : (0 < x)%Q → (x == y)%Q → ilog2 x = ilog2 y.
Proof.
  intros Hx Hxy. symmetry. apply ilog2_unique. rewrite <- Hxy.
  by apply ilog2_spec.
Qed.

Lemma ilog2_le x y : (0 < x)%Q → (x <= y)%Q → ilog2 x ≤ ilog2 y.
Proof.
  intros Hx Hxy.
  assert (Hy : (0 < y)%Q) by (eapply Qlt_le_trans; eauto).
  destruct (ilog2_spec x Hx) as [G1 _]. destruct (ilog2_spec y Hy) as [_ G2].
  assert (ilog2 x < ilog2 y + 1); [|lia].
  apply pow2_lt_inv. eapply Qle_lt_trans; [exact G1|].
  eapply Qle_lt_trans; [exact Hxy|exact G2].
Qed.

(** Rounding to the nearest integer, ties to even. *)
Lemma rne_floor x : Qfloor x ≤ rne x ≤ Qfloor x + 1.
Proof.
  unfold rne. destruct (_ ?= _)%Q; [destruct (Z.even _)| |]; lia.
Qed.

Lemma rne_comp x y : (x == y)%Q → rne x = rne y.
Proof.
  intros H. unfold rne. rewrite (Qfloor_comp _ _ H).
  assert (E : (x - inject_Z (Qfloor y) == y - inject_Z (Qfloor y))%Q)
    by (rewrite H; reflexivity).
  by rewrite (Qcompare_comp _ _ E _ _ (Qeq_refl (1 # 2))).
Qed.

Lemma rne_Z n : rne (inject_Z n) = n.
Proof.
  unfold rne. rewrite Qfloor_Z.
  assert (E : (inject_Z n - inject_Z n == 0)%Q) by ring.
  rewrite (Qcompare_comp _ _ E _ _ (Qeq_refl (1 # 2))). reflexivity.
Qed.

Lemma rne_le x y : (x <= y)%Q → rne x ≤ rne y.
Proof.
  intros H. pose proof (Qfloor_resp_le _ _ H) as Hf.
  pose proof (rne_floor x). pose proof (rne_floor y).
  destruct (Z.eq_dec (Qfloor x) (Qfloor y)) as [E|E]; [|lia].
  unfold rne. rewrite E.
  destruct (Qcompare_spec (x - inject_Z (Qfloor y)) (1 # 2)) as [Hx|Hx|Hx];
    destruct (Qcompare_spec (y - inject_Z (Qfloor y)) (1 # 2)) as [Hy|Hy|Hy];
    try lia; try (destruct (Z.even (Qfloor y)); lia); exfalso; lra.
Qed.

Lemma rne_ge_Z n x : (inject_Z n <= x)%Q → n ≤ rne x.
Proof. intros H. rewrite <- (rne_Z n). by apply rne_le. Qed.

Lemma rne_le_Z n x : (x <= inject_Z n)%Q → rne x ≤ n.
Proof. intros H. rewrite <- (rne_Z n). by apply rne_le. Qed.

Lemma ulpExp_ge q : -1074 ≤ ulpExp q.
Proof. unfold ulpExp. lia. Qed.

Lemma ulpExp_le x y : (0 < x)%Q → (x <= y)%Q → ulpExp x ≤ ulpExp y.
Proof. intros Hx Hxy. unfold ulpExp. pose proof (ilog2_le x y Hx Hxy). lia. Qed.

Lemma ulpExp_comp x y : (0 < x)%Q → (x == y)%Q → ulpExp x = ulpExp y.
Proof. intros Hx Hxy. unfold ulpExp. by rewrite (ilog2_comp x y). Qed.

Lemma rdPos_eq q :
  (rdPos q == inject_Z (rne (scaled q)) * pow2 (ulpExp q))%Q.
Proof. unfold rdPos. apply Qred_correct. Qed.

Lemma scaled_mult q : (scaled q * pow2 (ulpExp q) == q)%Q.
Proof.
  unfold scaled. pose proof (pow2_pos (ulpExp q)). field. lra.
Qed.

Lemma scaled_bounds q :
  (0 < q)%Q →
  (0 < scaled q < inject_Z (2 ^ 53))%Q
  ∧ (-1022 ≤ ilog2 q → (inject_Z (2 ^ 52) <= scaled q)%Q).
Proof.
  intros Hq. destruct (ilog2_spec q Hq) as [H1 H2].
  pose proof (pow2_pos (ulpExp q)) as Hk.
  pose proof (scaled_mult q) as Hs.
  rewrite <- !pow2_Z by lia.
  split; [split|].
  - unfold scaled. apply Qlt_shift_div_l; [done|lra].
  - unfold scaled. apply Qlt_shift_div_r; [done|].
    rewrite <- pow2_add.
    eapply Qlt_le_trans; [exact H2|]. apply pow2_le. unfold ulpExp. lia.
  - intros He. unfold scaled. apply Qle_shift_div_l; [done|].
    rewrite <- pow2_add.
    eapply Qle_trans; [|exact H1]. apply pow2_le. unfold ulpExp. lia.
Qed.

Lemma mantissa_bounds q :
  (0 < q)%Q →
  0 ≤ rne (scaled q) ≤ 2 ^ 53
  ∧ (-1022 ≤ ilog2 q → 2 ^ 52 ≤ rne (scaled q)).
Proof.
  intros Hq. destruct (scaled_bounds q Hq) as [[H0 H1] H2].
  split; [split|].
  - apply rne_ge_Z. change (inject_Z 0) with 0%Q. lra.
  - apply rne_le_Z. lra.
  - intros He. apply rne_ge_Z. by apply H2.
Qed.

Lemma rdPos_nonneg q : (0 < q)%Q → (0 <= rdPos q)%Q.
Proof.
  intros Hq. rewrite rdPos_eq.
  destruct (mantissa_bounds q Hq) as [[H0 _] _].
  apply Qmult_le_0_compat; [|apply Qlt_le_weak, pow2_pos].
  change 0%Q with (inject_Z 0). by rewrite <- Zle_Qle.
Qed.

Lemma rdPos_upper q :
  (0 < q)%Q → (rdPos q <= pow2 (Z.max (ilog2 q) (-1022) + 1))%Q.
Proof.
  intros Hq. rewrite rdPos_eq.
  destruct (mantissa_bounds q Hq) as [[_ H1] _].
  replace (Z.max (ilog2 q) (-1022) + 1) with (53 + ulpExp q)
    by (unfold ulpExp; lia).
  rewrite pow2_add. apply Qmult_le_compat_r; [|apply Qlt_le_weak, pow2_pos].
  rewrite pow2_Z by lia. by rewrite <- Zle_Qle.
Qed.

Lemma rdPos_lower q :
  (0 < q)%Q → -1022 ≤ ilog2 q → (pow2 (ilog2 q) <= rdPos q)%Q.
Proof.
  intros Hq He. rewrite rdPos_eq.
  destruct (mantissa_bounds q Hq) as [_ H2]. specialize (H2 He).
  replace (ilog2 q) with (52 + ulpExp q) at 1 by (unfold ulpExp; lia).
  rewrite pow2_add. apply Qmult_le_compat_r; [|apply Qlt_le_weak, pow2_pos].
  rewrite pow2_Z by lia. by rewrite <- Zle_Qle.
Qed.

Lemma scaled_comp x y : (0 < x)%Q → (x == y)%Q → (scaled x == scaled y)%Q.
Proof.
  intros Hx Hxy. unfold scaled. rewrite (ulpExp_comp x y) by done.
  by rewrite Hxy.
Qed.

Lemma rdPos_comp x y : (0 < x)%Q → (x == y)%Q → rdPos x = rdPos y.
Proof.
  intros Hx Hxy. unfold rdPos. apply Qred_complete.
  rewrite (rne_comp _ _ (scaled_comp x y Hx Hxy)).
  by rewrite (ulpExp_comp x y).
Qed.

Lemma rdPos_le x y : (0 < x)%Q → (x <= y)%Q → (rdPos x <= rdPos y)%Q.
Proof.
  intros Hx Hxy.
  assert (Hy : (0 < y)%Q) by lra.
  pose proof (ulpExp_le x y Hx Hxy) as Hk.
  destruct (Z.eq_dec (ulpExp x) (ulpExp y)) as [E|E].
  - rewrite !rdPos_eq. rewrite E.
    apply Qmult_le_compat_r; [|apply Qlt_le_weak, pow2_pos].
    rewrite <- Zle_Qle. apply rne_le. unfold scaled. rewrite E.
    apply Qmult_le_compat_r; [done|].
    apply Qlt_le_weak, Qinv_lt_0_compat, pow2_pos.
  - assert (Hlt : ulpExp x < ulpExp y) by lia.
    unfold ulpExp in Hlt.
    eapply Qle_trans; [apply rdPos_upper; done|].
    eapply Qle_trans; [|apply rdPos_lower; [done|lia]].
    apply pow2_le. lia.
Qed.

Lemma rd_pos q : (0 < q)%Q → rd q = rdPos q.
Proof. intros H. unfold rd. by rewrite (proj1 (Qgt_alt q 0) H). Qed.

Lemma rd_neg q : (q < 0)%Q → rd q = (- rdPos (- q))%Q.
Proof. intros H. unfold rd. by rewrite (proj1 (Qlt_alt q 0) H). Qed.

Lemma rd_zero q : (q == 0)%Q → rd q = 0%Q.
Proof. intros H. unfold rd. by rewrite (proj1 (Qeq_alt q 0) H). Qed.

Lemma rd_comp x y : (x == y)%Q → rd x = rd y.
Proof.
  intros H. destruct (Q_dec x 0) as [[Hx|Hx]|Hx].
  - rewrite (rd_neg x), (rd_neg y) by lra. f_equal.
    apply rdPos_comp; [lra|]. by rewrite H.
  - rewrite (rd_pos x), (rd_pos y) by lra. by apply rdPos_comp.
  - rewrite (rd_zero x), (rd_zero y); [done| |done]. by rewrite <- H.
Qed.

Lemma rd_nonneg q : (0 <= q)%Q → (0 <= rd q)%Q.
Proof.
  intros H. destruct (Qle_lt_or_eq _ _ H) as [Hq|Hq].
  - rewrite rd_pos by done. by apply rdPos_nonneg.
  - rewrite rd_zero; [lra|]. by symmetry.
Qed.

Lemma rd_nonpos q : (q <= 0)%Q → (rd q <= 0)%Q.
Proof.
  intros H. destruct (Qle_lt_or_eq _ _ H) as [Hq|Hq].
  - rewrite rd_neg by done.
    assert (0 <= rdPos (- q))%Q by (apply rdPos_nonneg; lra). lra.
  - rewrite rd_zero; [lra|done].
Qed.

(** Rounding is monotone. *)
Lemma rd_le x y : (x <= y)%Q → (rd x <= rd y)%Q.
Proof.
  intros H. destruct (Qlt_le_dec 0 x) as [Hx|Hx].
  - rewrite (rd_pos x), (rd_pos y) by lra. by apply rdPos_le.
  - destruct (Qlt_le_dec y 0) as [Hy|Hy].
    + rewrite (rd_neg x), (rd_neg y) by lra.
      assert (rdPos (- y) <= rdPos (- x))%Q by (apply rdPos_le; lra). lra.
    + pose proof (rd_nonpos x Hx). pose proof (rd_nonneg y Hy). lra.
Qed.

Lemma Qopp_opp_eq q : (- - q)%Q = q.
Proof. destruct q as [n d]. unfold Qopp. cbn. by rewrite Z.opp_involutive. Qed.

Lemma rd_opp q : rd (- q) = (- rd q)%Q.
Proof.
  destruct (Q_dec q 0) as [[Hq|Hq]|Hq].
  - rewrite (rd_neg q), (rd_pos (- q)) by lra. by rewrite Qopp_opp_eq.
  - rewrite (rd_pos q), (rd_neg (- q)) by lra. by rewrite Qopp_opp_eq.
  - rewrite (rd_zero q), (rd_zero (- q)); [done|lra|done].
Qed.

Lemma Qred_twice q : Qred (Qred q) = Qred q.
Proof. apply Qred_complete, Qred_correct. Qed.

(** The results of rounding are in lowest terms. *)
Lemma rd_canon q : Qred (rd q) = rd q.
Proof.
  unfold rd. destruct (q ?= 0)%Q; [reflexivity| |].
  - unfold rdPos. rewrite Qred_opp. by rewrite Qred_twice.
  - unfold rdPos. apply Qred_twice.
Qed.

Lemma canon_eq x y : Qred x = x → Qred y = y → (x == y)%Q → x = y.
Proof. intros Hx Hy H. rewrite <- Hx, <- Hy. by apply Qred_complete. Qed.

(** A number [m * 2^k] with at most 53 bits in [m] and [k] no lower than
    the exponent of the subnormal numbers is its own rounding. *)
Lemma rdPos_grid m k :
  0 < m ≤ 2 ^ 53 → -1074 ≤ k →
  (rdPos (inject_Z m * pow2 k) == inject_Z m * pow2 k)%Q.
Proof.
  intros Hm Hk. set (v := (inject_Z m * pow2 k)%Q).
  assert (Hv : (0 < v)%Q).
  { apply Qmult_lt_0_compat; [|apply pow2_pos].
    change 0%Q with (inject_Z 0). rewrite <- Zlt_Qlt. lia. }
  assert (Hint : ∃ j, (scaled v == inject_Z j)%Q).
  { destruct (Z.eq_dec m (2 ^ 53)) as [->|Hne].
    - (* a power of two: the exponent is 53 + k *)
      assert (Hv' : (v == pow2 (53 + k))%Q).
      { unfold v. rewrite pow2_add, (pow2_Z 53) by lia. reflexivity. }
      assert (He : ilog2 v = 53 + k).
      { apply ilog2_unique. rewrite Hv'. split; [apply Qle_refl|].
        apply pow2_lt. lia. }
      exists (2 ^ 52). unfold scaled, ulpExp. rewrite He, Hv'.
      replace (Z.max (53 + k) (-1022) - 52) with (k + 1) by lia.
      apply Qmult_inj_r with (z := pow2 (k + 1)).
      { pose proof (pow2_pos (k + 1)). lra. }
      rewrite <- (pow2_Z 52), <- pow2_add by lia.
      replace (52 + (k + 1)) with (53 + k) by lia.
      pose proof (pow2_pos (k + 1)). field. lra.
    - assert (He : ilog2 v < 53 + k).
      { destruct (ilog2_spec v Hv) as [H1 _].
        apply pow2_lt_inv. eapply Qle_lt_trans; [exact H1|].
        unfold v. rewrite pow2_add, (pow2_Z 53) by lia.
        apply Qmult_lt_compat_r; [apply pow2_pos|].
        rewrite <- Zlt_Qlt. lia. }
      assert (Hk' : ulpExp v ≤ k) by (unfold ulpExp; lia).
      exists (m * 2 ^ (k - ulpExp v)). unfold scaled.
      apply Qmult_inj_r with (z := pow2 (ulpExp v)).
      { pose proof (pow2_pos (ulpExp v)). lra. }
      rewrite inject_Z_mult, <- pow2_Z by lia.
      rewrite <- Qmult_assoc, <- pow2_add.
      replace (k - ulpExp v + ulpExp v) with k by lia.
      generalize (pow2_pos (ulpExp v)). generalize (pow2 (ulpExp v)).
      intros p Hp. unfold v. field. lra. }
  destruct Hint as [j Hj].
  rewrite rdPos_eq, (rne_comp _ _ Hj), rne_Z, <- Hj.
  apply scaled_mult.
Qed.

Lemma rd_grid m k :
  - 2 ^ 53 ≤ m ≤ 2 ^ 53 → -1074 ≤ k →
  (rd (inject_Z m * pow2 k) == inject_Z m * pow2 k)%Q.
Proof.
  intros Hm Hk. pose proof (pow2_pos k) as Hp.
  destruct (Z.lt_trichotomy m 0) as [Hneg|[->|Hpos]].
  - assert (E : (inject_Z m * pow2 k == - (inject_Z (- m) * pow2 k))%Q).
    { rewrite inject_Z_opp. ring. }
    rewrite (rd_comp _ _ E), rd_opp, E.
    assert (Hv : (0 < inject_Z (- m) * pow2 k)%Q).
    { apply Qmult_lt_0_compat; [|done].
      change 0%Q with (inject_Z 0). rewrite <- Zlt_Qlt. lia. }
    rewrite rd_pos by done. rewrite rdPos_grid by lia. reflexivity.
  - rewrite rd_zero; ring.
  - assert (Hv : (0 < inject_Z m * pow2 k)%Q).
    { apply Qmult_lt_0_compat; [|done].
      change 0%Q with (inject_Z 0). rewrite <- Zlt_Qlt. lia. }
    rewrite rd_pos by done. apply rdPos_grid; lia.
Qed.

(** Every result of rounding is on the grid. *)
Lemma rd_on_grid q :
  ∃ m k, - 2 ^ 53 ≤ m ≤ 2 ^ 53 ∧ -1074 ≤ k
         ∧ (rd q == inject_Z m * pow2 k)%Q
         ∧ (0 < q → k = ulpExp q)%Q.
Proof.
  destruct (Q_dec q 0) as [[Hq|Hq]|Hq].
  - assert (Hq' : (0 < - q)%Q) by lra.
    destruct (mantissa_bounds (- q) Hq') as [[H0 H1] _].
    exists (- rne (scaled (- q))), (ulpExp (- q)).
    split; [lia|]. split; [apply ulpExp_ge|]. split; [|intros; lra].
    rewrite rd_neg by done. rewrite rdPos_eq, inject_Z_opp. ring.
  - destruct (mantissa_bounds q Hq) as [[H0 H1] _].
    exists (rne (scaled q)), (ulpExp q).
    split; [lia|]. split; [apply ulpExp_ge|]. split; [|done].
    rewrite rd_pos by done. apply rdPos_eq.
  - exists 0, 0. split; [lia|]. split; [lia|]. split; [|intros; lra].
    rewrite rd_zero by done. ring.
Qed.

(** Rounding twice is rounding once. *)
Lemma rd_idem q : rd (rd q) = rd q.
Proof.
  destruct (rd_on_grid q) as (m & k & Hm & Hk & E & _).
  apply canon_eq; [apply rd_canon|apply rd_canon|].
  rewrite (rd_comp _ _ E), E. by apply rd_grid.
Qed.

Lemma isDouble_rd q : isDouble (rd q).
Proof. unfold isDouble. by rewrite rd_idem. Qed.

Lemma isDouble_Z z : - 2 ^ 53 ≤ z ≤ 2 ^ 53 → isDouble (inject_Z z).
Proof.
  intros Hz. unfold isDouble.
  assert (E : (inject_Z z == inject_Z z * pow2 0)%Q).
  { unfold pow2. rewrite Qpower_0_r. ring. }
  rewrite (rd_comp _ _ E). rewrite rd_grid by lia. by rewrite <- E.
Qed.


Lemma rd_ge a q : isDouble a → (a <= q)%Q → (a <= rd q)%Q.
Proof.
  intros Ha H. unfold isDouble in Ha.
  eapply Qle_trans; [|apply rd_le; exact H]. rewrite Ha. apply Qle_refl.
Qed.

Lemma rd_le_double b q : isDouble b → (q <= b)%Q → (rd q <= b)%Q.
Proof.
  intros Hb H. unfold isDouble in Hb.
  eapply Qle_trans; [apply rd_le; exact H|]. rewrite Hb. apply Qle_refl.
Qed.

(** The doubles below 1 stop at [1 - 2^-53]. *)
Lemma isDouble_below_1 r :
  isDouble r → (r < 1)%Q → (r <= 1 - pow2 (-53))%Q.
Proof.
  intros Hr H1.
  destruct (Qlt_le_dec r (1 # 2)) as [Hlow|Hhigh].
  { assert (pow2 (-53) <= 1 # 2)%Q; [|lra].
    change (1 # 2)%Q with (pow2 (-1)). apply pow2_le. lia. }
  assert (Hpos : (0 < r)%Q) by lra.
  assert (He : ilog2 r = -1).
  { apply ilog2_unique. change (pow2 (-1)) with (1 # 2)%Q.
    change (pow2 (-1 + 1)) with 1%Q. split; done. }
  assert (Hk : ulpExp r = -53) by (unfold ulpExp; rewrite He; reflexivity).
  unfold isDouble in Hr. rewrite rd_pos, rdPos_eq, Hk in Hr by done.
  set (m := rne (scaled r)) in *.
  assert (Hm : m < 2 ^ 53).
  { apply Z.lt_nge. intros Hge.
    assert (1 <= inject_Z m * pow2 (-53))%Q; [|lra].
    apply Qle_trans with (inject_Z (2 ^ 53) * pow2 (-53))%Q.
    - vm_compute. discriminate.
    - apply Qmult_le_compat_r; [|apply Qlt_le_weak, pow2_pos].
      by rewrite <- Zle_Qle. }
  rewrite <- Hr.
  apply Qle_trans with (inject_Z (2 ^ 53 - 1) * pow2 (-53))%Q.
  - apply Qmult_le_compat_r; [|apply Qlt_le_weak, pow2_pos].
    rewrite <- Zle_Qle. lia.
  - vm_compute. discriminate.
Qed.



Lemma isDoubleb_true q : isDoubleb q = true ↔ isDouble q.
Proof. unfold isDoubleb, isDouble. apply Qeq_bool_iff. Qed.

Lemma isDouble_comp x y : (x == y)%Q → isDouble x → isDouble y.
Proof.
  unfold isDouble. intros H Hx. rewrite <- (rd_comp x y H). by rewrite Hx.
Qed.





(** Rounding keeps a number within bounds that are doubles. *)
Lemma rd_between a b q :
  isDouble a → isDouble b → (a <= q <= b)%Q → (a <= rd q <= b)%Q.
Proof. intros Ha Hb [H1 H2]. split; [by apply rd_ge|by apply rd_le_double]. Qed.


(** ** Relations that every step of a computation respects *)

Section Preserves.
Context (R : State → State → Prop).
Local Abbreviation preserves := (preserves R).
Hypothesis R_refl : ∀ s, R s s.
Hypothesis R_trans : ∀ a b c, R a b → R b c → R a c.

Lemma preserves_ret {A : Type} (a : A) : preserves (mret a).
Proof. intros s. apply R_refl. Qed.

Lemma preserves_throw {A : Type} (e : Exn) : preserves (@throw A e).
Proof. intros s. apply R_refl. Qed.

Lemma preserves_get : preserves get.
Proof. intros s. apply R_refl. Qed.

Lemma preserves_orThrow {A : Type} (o : option A) : preserves (orThrow o).
Proof. destruct o; intros s; apply R_refl. Qed.

Lemma preserves_bind {A B : Type} (m : M A) (k : A → M B) :
  preserves m → (∀ a, preserves (k a)) → preserves (m ≫= k).
Proof.
  intros Hm Hk s. unfold mbind, M_bind. specialize (Hm s).
  destruct (m s) as [[a|e] s1]; simpl in *; [|done].
  eapply R_trans; [exact Hm|apply Hk].
Qed.

Lemma preserves_try_catch (m h : M unit) :
  preserves m → preserves h → preserves (try_catch m h).
Proof.
  intros Hm Hh s. unfold try_catch. specialize (Hm s).
  destruct (m s) as [[a|e] s1]; simpl in *; [done|].
  eapply R_trans; [exact Hm|apply Hh].
Qed.
End Preserves.

Lemma keeps_exec {A B : Type} (f : State → B) (m : M A) s :
  keeps f m → f (exec m s) = f s.
Proof. intros H. apply H. Qed.

Ltac unfold_script :=
  unfold stopSession, startSession, onDOMContentLoaded, initializeDashboard,
    onReceiveSensorData, simulatorTick, processSensorData,
    updateSessionStatistics, updateChart, updateDashboardDisplays,
    checkForAlerts, triggerAlert, clearAlert, updateSessionControls,
    updateSessionStatus, updateConnectionStatus, updateExportButtons,
    updateThreshold, updateBlinkRate,
    stopSimulator, startSimulator, renderRecentSessions, saveRecentSession,
    loadRecentSessions, setItem, getItem, initializeChart, resetChart,
    spreadPeak, fixedOf, timeLabelOf.

(** Descend through a computation, leaving the writes to be checked by
    evaluation. *)
Ltac preserves_side := solve [intros; congruence].

Ltac preserves_step :=
  match goal with
  | |- preserves _ (_ ≫= _) =>
      apply preserves_bind; [preserves_side | | intros ?]
  | |- preserves _ (mret _) => apply preserves_ret; preserves_side
  | |- preserves _ (throw _) => apply preserves_throw; preserves_side
  | |- preserves _ get => apply preserves_get; preserves_side
  | |- preserves _ (orThrow _) => apply preserves_orThrow; preserves_side
  | |- preserves _ (try_catch _ _) =>
      apply preserves_try_catch; [preserves_side | | ]
  | |- preserves _ (modify _) => intros ?; reflexivity
  | |- preserves _ (setDom _ _) => intros ?; reflexivity
  | |- preserves _ (match ?x with _ => _ end) => destruct x
  end.

(** Run the monadic glue of a computation by evaluation. *)
Ltac mrun :=
  unfold exec, outcome, clearAlert, mbind, M_bind, mret, M_ret, orThrow,
    throw, modify, get, setDom, try_catch;
  cbn -[insert lookup averageBlink peakDrowsy rd round64 Z.leb Z.of_nat].

Ltac solve_keeps := unfold keeps; unfold_script; repeat preserves_step.

Lemma processSensorData_tail_keeps_sessionData statNow data :
  keeps sessionData
    (updateDashboardDisplays data;; updateChart data;; checkForAlerts data;;
     updateSessionStatistics statNow).
Proof. solve_keeps. Qed.

(** ** Ingest: the guard of [processSensorData] *)

Lemma typeof_number v :
  String.eqb (typeof v) "number" = true ↔ ∃ n, v = JNum n.
Proof.
  destruct v; simpl; split; try discriminate; try (intros [? ?]; discriminate);
    eauto.
Qed.

Lemma invalidSensorData_false raw :
  invalidSensorData raw = false ↔ accepted raw.
Proof.
  unfold invalidSensorData, accepted. split.
  - intros H. repeat (apply orb_false_elim in H as [H ?]).
    apply negb_false_iff in H.
    destruct raw as [| |b|n|str|t|items|props];
      try (simpl in *; discriminate).
    simpl in *.
    repeat match goal with
           | X : negb _ = false |- _ => apply negb_false_iff in X
           end.
    repeat match goal with
           | X : String.eqb (typeof _) _ = true |- _ =>
               apply typeof_number in X as [? X]
           end.
    eauto 10.
  - intros (props & blink & level & -> & Hh & Hb & Hl). simpl.
    rewrite Hh, Hb, Hl. reflexivity.
Qed.

Lemma processSensorData_rejects statNow raw s :
  invalidSensorData raw = true →
  processSensorData statNow raw s = (Ok tt, s).
Proof. intros H. unfold processSensorData. rewrite H. reflexivity. Qed.

Lemma processSensorData_appends statNow raw s :
  invalidSensorData raw = false →
  sessionData (exec (processSensorData statNow raw) s) = sessionData s ++ [raw].
Proof.
  intros H. unfold processSensorData. rewrite H.
  pose proof (processSensorData_tail_keeps_sessionData statNow raw
                (set_sessionData (sessionData s ++ [raw]) s)) as K.
  exact K.
Qed.

(** C1, as the claim states it, fails: a sample whose [eyeBlinkRate] is
    [NaN] does not meet the stated condition (finite numeric values), and
    [processSensorData] appends it to the session all the same. *)
Lemma C1_counterexample :
  specAccepts nanSample = false
  ∧ sessionData (exec (processSensorData 2000 nanSample) activeState)
    = sessionData activeState ++ [nanSample].
Proof. split; vm_compute; reflexivity. Qed.

(** C1 (amended): for every raw input given to [processSensorData], the
    sample is appended to the session's sample sequence if and only if
    the raw value is an object whose [headMovement] is truthy and whose
    [eyeBlinkRate] and [drowsinessLevel] are of type number ([NaN] and the
    infinities included); a rejected input leaves the whole state (sample
    sequence, alert counter, chart window, statistics and all the rest)
    unchanged, and the call returns normally. *)
Theorem C1_ingest_guard (statNow : Z) (raw : JsVal) (s : State) :
  (sessionData (exec (processSensorData statNow raw) s) = sessionData s ++ [raw]
   ↔ accepted raw)
  ∧ (¬ accepted raw → processSensorData statNow raw s = (Ok tt, s)).
Proof.
  assert (Hrej : ¬ accepted raw → processSensorData statNow raw s = (Ok tt, s)).
  { intros Hn. apply processSensorData_rejects.
    destruct (invalidSensorData raw) eqn:E; [done|].
    exfalso. apply Hn. by apply invalidSensorData_false. }
  split; [split|exact Hrej].
  - intros Happ. destruct (invalidSensorData raw) eqn:E.
    + unfold exec in Happ.
      rewrite (processSensorData_rejects _ _ _ E) in Happ. simpl in Happ.
      apply (f_equal length) in Happ. rewrite length_app in Happ.
      simpl in Happ. lia.
    + by apply invalidSensorData_false.
  - intros Hacc. apply processSensorData_appends.
    by apply invalidSensorData_false.
Qed.

(** ** The alert detector *)

Lemma app_cons_not_nil_match {A B : Type} (l : list A) (x : A) (a b : B) :
  match l ++ [x] with [] => a | _ :: _ => b end = b.
Proof. by destruct l. Qed.

Lemma accepted_drowsinessLevel d :
  accepted d → ∃ level, getProp d "drowsinessLevel" = Some (JNum level).
Proof.
  intros (props & blink & level & -> & _ & _ & Hl). simpl. rewrite Hl. eauto.
Qed.

Lemma checkForAlerts_truthy d flag s :
  accepted d → getProp d "alertTriggered" = Some flag → truthy flag = true →
  checkForAlerts d s
  = (Ok tt,
     set_page (<["alertStatus.innerHTML" := DAlert Active]>
                 (<["totalAlerts.textContent" := DInt (totalAlerts s + 1)]>
                    (page s)))
       (set_totalAlerts (totalAlerts s + 1) s)).
Proof.
  intros Hacc Hflag Ht. destruct (accepted_drowsinessLevel d Hacc) as [lv Hlv].
  unfold checkForAlerts, triggerAlert. rewrite Hflag, Hlv. mrun.
  rewrite Ht. reflexivity.
Qed.

Lemma checkForAlerts_falsy d flag s :
  getProp d "alertTriggered" = Some flag → truthy flag = false →
  checkForAlerts d s
  = (Ok tt, set_page (<["alertStatus.innerHTML" := DAlert Clear]> (page s)) s).
Proof.
  intros Hflag Ht. unfold checkForAlerts. rewrite Hflag. mrun. rewrite Ht.
  reflexivity.
Qed.

(** C6, as the claim states it, fails: the sample carries no
    [alertTriggered], its drowsiness level 90 is above the threshold 70,
    and the detector nevertheless clears the alert and leaves the counter
    alone. *)
Lemma C6_counterexample :
  accepted legacySample
  ∧ getProp legacySample "alertTriggered" = Some JUndefined
  ∧ threshold activeState = of_Z 70
  ∧ jge (numberField "drowsinessLevel" legacySample) (threshold activeState) = true
  ∧ alertShown (exec (checkForAlerts legacySample) activeState)
    = Some (DAlert Clear)
  ∧ totalAlerts (exec (checkForAlerts legacySample) activeState)
    = totalAlerts activeState.
Proof.
  split; [eexists _, _, _; repeat split; reflexivity|].
  do 4 (split; [vm_compute; reflexivity|]). vm_compute; reflexivity.
Qed.

(** C6 (amended): for every accepted sample in which [alertTriggered] is
    absent, the alert is Clear and the alert counter does not move,
    whatever the sample's drowsiness level and wherever the threshold
    slider stands: the detector never consults the threshold. *)
Theorem C6_absent_flag_is_clear (s : State) (d : JsVal) (th : DomVal) :
  accepted d →
  getProp d "alertTriggered" = Some JUndefined →
  let s' := exec (checkForAlerts d) (withThreshold th s) in
  outcome (checkForAlerts d) (withThreshold th s) = Ok tt
  ∧ alertShown s' = Some (DAlert Clear)
  ∧ totalAlerts s' = totalAlerts s.
Proof.
  intros _ Hflag. unfold exec, outcome, alertShown.
  rewrite (checkForAlerts_falsy d JUndefined) by done. cbn -[insert lookup].
  split; [done|]. split; [|done]. by rewrite lookup_insert_eq.
Qed.

Lemma C6_absent_flag_is_clear_witness :
  alertShown (exec (checkForAlerts legacySample)
                   (withThreshold (DInt 10) activeState))
  = Some (DAlert Clear)
  ∧ totalAlerts (exec (checkForAlerts legacySample)
                      (withThreshold (DInt 10) activeState))
    = totalAlerts activeState.
Proof.
  refine (proj2 (C6_absent_flag_is_clear activeState legacySample (DInt 10) _ _)).
  - eexists _, _, _. repeat split; reflexivity.
  - reflexivity.
Defined.

(** ** Running statistics *)















(** ** The rolling window of the chart *)

Lemma lastN_app_lastN {A : Type} (n : nat) (x y : list A) :
  lastN n (lastN n x ++ y) = lastN n (x ++ y).
Proof.
  unfold lastN. set (k := (length x - n)%nat).
  rewrite <- (drop_app_le x y k) by (subst k; lia).
  rewrite drop_drop. f_equal. rewrite length_drop, !length_app. subst k. lia.
Qed.

Lemma lastN_short {A : Type} (n : nat) (l : list A) :
  (length l ≤ n)%nat → lastN n l = l.
Proof. intros H. unfold lastN. by replace (length l - n)%nat with 0%nat by lia. Qed.

Lemma lastN_one_over {A : Type} (n : nat) (l : list A) :
  length l = S n → lastN n l = tail l.
Proof.
  intros H. unfold lastN. replace (length l - n)%nat with 1%nat by lia.
  by destruct l.
Qed.

Lemma tail_length {A : Type} (l : list A) :
  length (tail l) = (length l - 1)%nat.
Proof. destruct l; simpl; lia. Qed.

(** One push, on a window in its normal shape. *)
Lemma pushPoint_window label level blink c :
  windowOk c →
  windowOk (pushPoint label level blink c)
  ∧ labels (pushPoint label level blink c) = lastN 20 (labels c ++ [label])
  ∧ dataset0 (pushPoint label level blink c) = lastN 20 (dataset0 c ++ [level])
  ∧ dataset1 (pushPoint label level blink c) = lastN 20 (dataset1 c ++ [blink]).
Proof.
  intros (Hlen & H0 & H1). unfold pushPoint, windowOk. cbn [labels dataset0 dataset1].
  destruct (Nat.ltb_spec 20 (length (labels c ++ [label]))) as [Hgt|Hle];
    cbn [labels dataset0 dataset1]; rewrite length_app in *; simpl in *.
  - rewrite !lastN_one_over by (rewrite length_app; simpl; lia).
    repeat split; try done; rewrite ?tail_length, ?length_app; simpl; lia.
  - rewrite !lastN_short by (rewrite length_app; simpl; lia).
    repeat split; try done; rewrite ?length_app; simpl; lia.
Qed.

Lemma getProp_fieldOf d k v k' :
  getProp d k = Some v → getProp d k' = Some (fieldOf k' d).
Proof. unfold fieldOf. destruct d; simpl; intros; done. Qed.

Lemma updateChart_pushes d s c :
  stamped d → drowsinessChart s = Some c →
  updateChart d s
  = (Ok tt,
     set_drowsinessChart
       (Some (pushPoint (stampOf d) (fieldOf "drowsinessLevel" d)
                        (fieldOf "eyeBlinkRate" d) c)) s).
Proof.
  intros [t Ht] Hc. unfold updateChart, timeLabelOf, stampOf.
  rewrite (getProp_fieldOf _ _ _ "drowsinessLevel" Ht).
  rewrite (getProp_fieldOf _ _ _ "eyeBlinkRate" Ht).
  rewrite Ht. mrun. rewrite Hc. reflexivity.
Qed.

Lemma pushAll_window ds : ∀ s c,
  drowsinessChart s = Some c → windowOk c → Forall stamped ds →
  ∃ c', drowsinessChart (pushAll ds s) = Some c'
        ∧ windowOk c'
        ∧ labels c' = lastN 20 (labels c ++ map stampOf ds)
        ∧ dataset0 c' = lastN 20 (dataset0 c ++ map (fieldOf "drowsinessLevel") ds)
        ∧ dataset1 c' = lastN 20 (dataset1 c ++ map (fieldOf "eyeBlinkRate") ds).
Proof.
  induction ds as [|d ds IH]; intros s c Hc Hok Hall.
  - exists c. simpl. rewrite !app_nil_r.
    destruct Hok as (Hlen & H0 & H1).
    rewrite !lastN_short by lia. done.
  - apply Forall_cons in Hall as [Hd Hall].
    destruct (pushPoint_window (stampOf d) (fieldOf "drowsinessLevel" d)
                (fieldOf "eyeBlinkRate" d) c Hok) as (Hok1 & Hl & H0 & H1).
    unfold pushAll. cbn [foldl]. unfold exec at 2.
    rewrite (updateChart_pushes d s c Hd Hc). cbn [snd].
    destruct (IH (set_drowsinessChart
                    (Some (pushPoint (stampOf d) (fieldOf "drowsinessLevel" d)
                                     (fieldOf "eyeBlinkRate" d) c)) s)
                 _ eq_refl Hok1 Hall) as (c' & Hc' & Hok' & Hl' & H0' & H1').
    exists c'. split; [exact Hc'|]. split; [done|].
    rewrite Hl', H0', H1', Hl, H0, H1, !lastN_app_lastN.
    cbn [map]. by rewrite <- !app_assoc.
Qed.

(** C4: whatever samples are pushed into the chart's window, one
    [updateChart] call each, the window never holds more than 20 points,
    and it holds exactly the last 20 of the points it had and was given,
    oldest first; so a fresh window that is given 25 samples holds the
    last 20 of them, the first 5 dropped. *)
Theorem C4_rolling_window (s : State) (c : Chart) (ds : list JsVal) :
  drowsinessChart s = Some c → windowOk c → Forall stamped ds →
  ∃ c', drowsinessChart (pushAll ds s) = Some c'
        ∧ (length (labels c') ≤ 20)%nat
        ∧ labels c' = lastN 20 (labels c ++ map stampOf ds)
        ∧ dataset0 c' = lastN 20 (dataset0 c ++ map (fieldOf "drowsinessLevel") ds)
        ∧ dataset1 c' = lastN 20 (dataset1 c ++ map (fieldOf "eyeBlinkRate") ds)
        ∧ (c = mkChart [] [] [] → length ds = 25%nat →
           labels c' = drop 5 (map stampOf ds)
           ∧ dataset0 c' = drop 5 (map (fieldOf "drowsinessLevel") ds)
           ∧ dataset1 c' = drop 5 (map (fieldOf "eyeBlinkRate") ds)).
Proof.
  intros Hc Hok Hall.
  destruct (pushAll_window ds s c Hc Hok Hall) as (c' & Hc' & Hok' & Hl & H0 & H1).
  exists c'. split; [done|]. split; [apply Hok'|].
  split; [done|]. split; [done|]. split; [done|].
  intros -> Hlen. rewrite Hl, H0, H1. cbn [labels dataset0 dataset1 app].
  unfold lastN. rewrite !length_map, Hlen. done.
Qed.

Lemma C4_rolling_window_witness :
  ∃ c', drowsinessChart (pushAll twentyFive activeState) = Some c'
        ∧ (length (labels c') ≤ 20)%nat
        ∧ labels c'
          = map Some [6; 7; 8; 9; 10; 11; 12; 13; 14; 15; 16; 17; 18; 19; 20;
                      21; 22; 23; 24; 25].
Proof.
  destruct (C4_rolling_window activeState (mkChart [] [] []) twentyFive)
    as (c' & Hc' & Hlen & Hl & _ & _ & H25).
  - reflexivity.
  - repeat split; simpl; lia.
  - repeat constructor; eexists; reflexivity.
  - exists c'. split; [exact Hc'|]. split; [exact Hlen|].
    destruct (H25 eq_refl eq_refl) as (-> & _). reflexivity.
Defined.

(** ** The session history store: loading *)

Lemma loadRecentSessions_result P s :
  ∃ items, loadRecentSessions P s = (Ok tt, set_recentSessions items s)
           ∧ ((∃ l, wellFormedSlot P (localStorage s) l) → wellFormedSlot P (localStorage s) items)
           ∧ ((¬ ∃ l, wellFormedSlot P (localStorage s) l) → items = []).
Proof.
  unfold loadRecentSessions, getItem, wellFormedSlot. mrun.
  destruct (readable (localStorage s)) eqn:Er; mrun.
  2: { exists []. split; [done|]. split; [intros (l & ? & _); done|done]. }
  destruct (slot (localStorage s)) as [raw|] eqn:Es; mrun.
  2: { exists []. split; [done|]. split; [|done].
       intros (l & _ & raw & ? & _); done. }
  destruct (String.eqb_spec raw "") as [->|Hne]; mrun.
  { exists []. split; [done|]. split; [|done].
    intros (l & _ & raw & [= <-] & ? & _); done. }
  destruct (JSON_parse P raw) as [v|] eqn:Ep; mrun.
  2: { exists []. split; [done|]. split; [|done].
       intros (l & _ & raw' & [= <-] & _ & ?); congruence. }
  destruct v as [| | | | | |items|];
    try (exists []; split; [done|]; split; [|done];
         intros (l & _ & raw' & [= <-] & _ & ?); congruence).
  exists items. split; [done|]. split; [|intros Hn; exfalso; apply Hn; eauto 10].
  intros _. eauto 10.
Qed.

(** C9: whatever the storage holds under the history key (nothing, a
    well-formed sequence, a string that does not parse, a value that is
    not a sequence, or a storage that cannot be read), [loadRecentSessions]
    returns normally; the history is the persisted sequence when there is
    a well-formed one and the empty sequence otherwise; nothing else in
    the state changes. *)
Theorem C9_load_never_throws (P : Platform) (s : State) :
  outcome (loadRecentSessions P) s = Ok tt
  ∧ exec (loadRecentSessions P) s
    = set_recentSessions (recentSessions (exec (loadRecentSessions P) s)) s
  ∧ (∀ items, wellFormedSlot P (localStorage s) items →
       recentSessions (exec (loadRecentSessions P) s) = items)
  ∧ ((¬ ∃ items, wellFormedSlot P (localStorage s) items) →
       recentSessions (exec (loadRecentSessions P) s) = []).
Proof.
  destruct (loadRecentSessions_result P s) as (items & E & Hwf & Hnone).
  unfold outcome, exec. rewrite E. cbn [fst snd recentSessions set_recentSessions].
  split; [done|]. split; [done|]. split; [|exact Hnone].
  intros l Hl. destruct (Hwf (ex_intro _ l Hl)) as (_ & raw & Hs & _ & Hp).
  destruct Hl as (_ & raw' & Hs' & _ & Hp'). congruence.
Qed.

(** The cases of C9 on a concrete platform: a stored [[]] is loaded, a
    stored object, a string that does not parse, an empty string, a
    missing key and an unreadable storage all give the empty history. *)
Example load_examples :
  let load st :=
    loadRecentSessions examplePlatform (initialState ∅ st exampleLimit) in
  let history st := recentSessions (load st).2 in
  (load (mkStorage (Some "[null]") true true)).1 = Ok tt
  ∧ history (mkStorage (Some "[null]") true true) = [JNull]
  ∧ history (mkStorage (Some "[]") true true) = []
  ∧ history (mkStorage (Some "{}") true true) = []
  ∧ history (mkStorage (Some "not json") true true) = []
  ∧ history (mkStorage (Some "") true true) = []
  ∧ history (mkStorage None true true) = []
  ∧ history (mkStorage (Some "[null]") false true) = [].
Proof. vm_compute. repeat split. Qed.

(** ** Computations that never throw, and sequences of them *)

Lemma returns_ret {A : Type} (a : A) : returns (mret a).
Proof. intros s. by exists a. Qed.

Lemma returns_get : returns get.
Proof. intros s. by exists s. Qed.

Lemma returns_modify f : returns (modify f).
Proof. intros s. by exists tt. Qed.

Lemma returns_setDom key v : returns (setDom key v).
Proof. intros s. by exists tt. Qed.

Lemma returns_bind {A B : Type} (m : M A) (k : A → M B) :
  returns m → (∀ a, returns (k a)) → returns (m ≫= k).
Proof.
  intros Hm Hk s. unfold mbind, M_bind. destruct (Hm s) as [a Ha].
  destruct (m s) as [[a'|e] s1]; [|done]. apply Hk.
Qed.

Lemma returns_try_catch (m h : M unit) : returns h → returns (try_catch m h).
Proof.
  intros Hh s. unfold try_catch. destruct (m s) as [[a|e] s1]; [by exists a|].
  apply Hh.
Qed.

Ltac returns_step :=
  match goal with
  | |- returns (_ ≫= _) => apply returns_bind; [| intros ?]
  | |- returns (mret _) => apply returns_ret
  | |- returns get => apply returns_get
  | |- returns (modify _) => apply returns_modify
  | |- returns (setDom _ _) => apply returns_setDom
  | |- returns (try_catch _ _) => apply returns_try_catch
  | |- returns (match ?x with _ => _ end) => destruct x
  | |- returns (let _ := _ in _) => cbv zeta
  end.

Ltac solve_returns := unfold_script; repeat returns_step.

(** After a computation that returns, the rest runs from the state it
    leaves. *)
Lemma exec_seq {B : Type} (m : M unit) (k : unit → M B) s :
  returns m → exec (m ≫= k) s = exec (k tt) (exec m s).
Proof.
  intros Hm. unfold exec, mbind, M_bind. destruct (Hm s) as [a Ha].
  destruct (m s) as [[[]|e] s1]; done.
Qed.

Lemma bind_get {B : Type} (k : State → M B) s : (get ≫= k) s = k s s.
Proof. reflexivity. Qed.

Lemma bind_modify {B : Type} f (k : unit → M B) s :
  (modify f ≫= k) s = k tt (f s).
Proof. reflexivity. Qed.

(** A component that the rest of a sequence keeps is what the first
    statement leaves, whether or not that statement returns. *)
Lemma exec_bind_last {A B C : Type} (f : State → C) (m : M A) (k : A → M B) s :
  (∀ a, keeps f (k a)) → f (exec (m ≫= k) s) = f (exec m s).
Proof.
  intros Hk. unfold exec, mbind, M_bind.
  destruct (m s) as [[a|e] s1] eqn:E; cbn [snd]; [apply (Hk a s1)|done].
Qed.

(** Cut a sequence into the runs of its statements. *)
Ltac split_seq :=
  repeat (rewrite exec_seq by solve_returns; cbv beta).

(** Drop the outer statements that keep the component [f]. *)
Ltac peel f := repeat (rewrite (keeps_exec f) by solve_keeps).

(** ** Starting and stopping a session *)

Lemma startSimulator_fields perfNow s :
  match simulatorIntervalId s with
  | Some id => exec (startSimulator perfNow) s = s
  | None =>
      exec (startSimulator perfNow) s
      = set_timers (intervals s ++ [nextIntervalId s])
          (Pos.succ (nextIntervalId s))
          (set_simulatorIntervalId (Some (nextIntervalId s))
             (set_simulatorState
                (mkSim perfNow (blinkIntervalMs (simulatorState s)) 100 0
                       zeroTilt) s))
  end.
Proof.
  unfold startSimulator. mrun. destruct (simulatorIntervalId s) eqn:E; done.
Qed.

Lemma stopSimulator_fields s :
  exec stopSimulator s
  = match simulatorIntervalId s with
    | Some id =>
        set_simulatorIntervalId None
          (set_timers (filter (λ j, j ≠ id) (intervals s)) (nextIntervalId s) s)
    | None => s
    end.
Proof.
  unfold stopSimulator. mrun. destruct (simulatorIntervalId s) eqn:E; done.
Qed.

Lemma startSession_fields now perfNow s :
  let s' := exec (startSession now perfNow) s in
  isSessionActive s' = true
  ∧ sessionStartTime s' = Some now
  ∧ sessionData s' = []
  ∧ totalAlerts s' = 0
  ∧ recentSessions s' = recentSessions s
  ∧ localStorage s' = localStorage s
  ∧ drowsinessChart s' = (λ _, mkChart [] [] []) <$> drowsinessChart s
  ∧ simulatorPart s'
    = match simulatorIntervalId s with
      | Some id => simulatorPart s
      | None =>
          (Some (nextIntervalId s), intervals s ++ [nextIntervalId s],
           Pos.succ (nextIntervalId s),
           mkSim perfNow (blinkIntervalMs (simulatorState s)) 100 0 zeroTilt)
      end.
Proof.
  destruct s as [act start [ch|] alerts data [id|] sim hist pg store ints next lim];
    repeat split; reflexivity.
Qed.

Lemma saveRecentSession_exec P now s :
  exec (saveRecentSession P now) s
  = set_localStorage (storageAfterStop P now s)
      (set_recentSessions (historyAfterStop P now s) s).
Proof.
  unfold saveRecentSession, spreadPeak, historyAfterStop, storageAfterStop,
    recordsAtStop, setItem.
  destruct s as [act [start|] ch alerts [|d data] sid sim hist pg
                 [sl rd [|]] ints next lim];
    try reflexivity.
  all: mrun.
  all: destruct (Z.of_nat (S (length data)) <=? lim) eqn:E; reflexivity.
Qed.

Lemma stopSession_engine P now s :
  engine (exec (stopSession P now) s)
  = (false, sessionStartTime s, drowsinessChart s, totalAlerts s, sessionData s,
     (None,
      match simulatorIntervalId s with
      | Some id => filter (λ j, j ≠ id) (intervals s)
      | None => intervals s
      end,
      nextIntervalId s, simulatorState s),
     historyAfterStop P now s,
     storageAfterStop P now s).
Proof.
  unfold stopSession. split_seq.
  rewrite (exec_bind_last engine) by (intros; solve_keeps).
  rewrite saveRecentSession_exec.
  destruct s as [act [start|] ch alerts [|d data] [id|] sim hist pg
                 [sl rd [|]] ints next lim];
    reflexivity.
Qed.

(** ** What ingesting a sample changes *)

Lemma processSensorData_keeps_steady statNow d :
  keeps steady (processSensorData statNow d).
Proof. solve_keeps. Qed.

Lemma chartStaysOk_refl s : chartStaysOk s s.
Proof. by intros H. Qed.

Lemma chartStaysOk_trans a b c :
  chartStaysOk a b → chartStaysOk b c → chartStaysOk a c.
Proof. unfold chartStaysOk. auto. Qed.

Lemma keeps_chartStaysOk {A : Type} (m : M A) :
  keeps drowsinessChart m → preserves chartStaysOk m.
Proof. intros H s Hok c Hc. apply Hok. by rewrite <- (H s). Qed.

Lemma updateChart_chartStaysOk d : preserves chartStaysOk (updateChart d).
Proof.
  intros s Hok. unfold updateChart, timeLabelOf. mrun.
  destruct (getProp d "timestamp") as [[]|] eqn:Et; mrun; try done.
  destruct (drowsinessChart s) as [c|] eqn:Ec; mrun; [|done].
  rewrite (getProp_fieldOf _ _ _ "drowsinessLevel" Et).
  rewrite (getProp_fieldOf _ _ _ "eyeBlinkRate" Et). mrun.
  intros c' [= <-]. by apply pushPoint_window, Hok.
Qed.

Lemma processSensorData_chartStaysOk statNow d :
  preserves chartStaysOk (processSensorData statNow d).
Proof.
  unfold processSensorData. destruct (invalidSensorData d).
  { apply preserves_ret, chartStaysOk_refl. }
  repeat match goal with
         | |- preserves _ (_ ≫= _) =>
             apply preserves_bind; [exact chartStaysOk_trans| |intros ?]
         end;
    try apply updateChart_chartStaysOk;
    apply keeps_chartStaysOk; solve_keeps.
Qed.

Lemma processSensorData_samples statNow d s :
  Forall accepted (sessionData s) →
  Forall accepted (sessionData (exec (processSensorData statNow d) s)).
Proof.
  intros H. destruct (invalidSensorData d) eqn:E.
  - unfold exec. by rewrite processSensorData_rejects.
  - rewrite processSensorData_appends by done.
    apply Forall_app. split; [done|]. constructor; [|constructor].
    by apply invalidSensorData_false.
Qed.

(** A message of the hub is dropped while no session is active, or when
    stamping it throws; otherwise it is handed to [processSensorData]. *)
Lemma onReceiveSensorData_cases P statNow d s :
  exec (onReceiveSensorData P statNow d) s = s
  ∨ isSessionActive s = true
    ∧ ∃ d', exec (onReceiveSensorData P statNow d) s
            = exec (processSensorData statNow d') s.
Proof.
  unfold onReceiveSensorData. mrun. destruct (isSessionActive s); [|by left].
  destruct (getProp d "Timestamp") as [stamp|]; mrun; [|by left].
  destruct (setProp d "timestamp" _) as [d'|]; mrun; [|by left].
  right. split; [done|]. by exists d'.
Qed.

(** A tick does nothing while no session is active; otherwise it takes
    [drain r] from the battery, rounding the difference and not going
    below 5, and hands the sample it
    makes, which has every field, to [processSensorData]. *)
Lemma simulatorTick_cases now nowMs r statNow s :
  (isSessionActive s = false ∧ simulatorTick now nowMs r statNow s = (Ok tt, s))
  ∨ isSessionActive s = true
    ∧ ∃ st d,
        simulatorTick now nowMs r statNow s
        = processSensorData statNow d (set_simulatorState st s)
        ∧ batteryLevel st = qmax 5 (rd (battery s - drain r))
        ∧ complete d
        ∧ ∃ flag, getProp d "alertTriggered" = Some (JBool flag).
Proof.
  unfold simulatorTick. rewrite bind_get.
  destruct (isSessionActive s); cbn [negb]; [right|left; done].
  split; [done|]. cbv zeta. rewrite bind_modify.
  eexists _, _. split; [reflexivity|]. split; [|split].
  - cbn [batteryLevel set_batteryLevel]. unfold battery, drain.
    repeat case_match; reflexivity.
  - eexists _, _, _, _, _, _, _, _. repeat split; reflexivity.
  - eexists. reflexivity.
Qed.

(** ** The invariant of the page *)

Lemma onDOMContentLoaded_keeps P :
  keeps (λ s, (isSessionActive s, sessionStartTime s, sessionData s,
               simulatorPart s)) (onDOMContentLoaded P).
Proof. solve_keeps. Qed.

Lemma onDOMContentLoaded_chart P s :
  drowsinessChart (exec (onDOMContentLoaded P) s) = Some (mkChart [] [] []).
Proof.
  unfold onDOMContentLoaded. split_seq. peel drowsinessChart. reflexivity.
Qed.

Lemma updateConnectionStatus_keeps b :
  keeps (λ s, (engine s)) (updateConnectionStatus b).
Proof. solve_keeps. Qed.

Lemma windowOk_empty : windowOk (mkChart [] [] []).
Proof. repeat split; simpl; lia. Qed.

Lemma invariant_init page0 store limit :
  invariant (initialState page0 store limit).
Proof.
  split; done.
Qed.

Lemma invariant_processSensorData statNow d s :
  invariant s → isSessionActive s = true →
  invariant (exec (processSensorData statNow d) s).
Proof.
  intros [Ht Ha Hs Hb Hd Hw] Hact.
  pose proof (processSensorData_keeps_steady statNow d s) as K.
  unfold steady, simulatorPart in K. injection K as K1 K2 K3 K4 K5 K6 K7 K8.
  fold (exec (processSensorData statNow d) s) in *.
  split.
  - unfold timerRow. by rewrite K3, K4.
  - by rewrite K1, K3.
  - rewrite K2. intros E. destruct (Hs E). congruence.
  - unfold battery. by rewrite K6.
  - by apply processSensorData_samples.
  - by apply processSensorData_chartStaysOk.
Qed.

Lemma invariant_set_simulatorState st s :
  invariant s → (5 <= batteryLevel st <= 100)%Q →
  invariant (set_simulatorState st s).
Proof. intros [Ht Ha Hs Hb Hd Hw] Hst. by split. Qed.

Lemma qmax_floor b d :
  (5 <= b <= 100)%Q → (0 <= d)%Q →
  (5 <= qmax 5 (rd (b - d)) <= 100)%Q
  ∧ (isDouble b → qmax 5 (rd (b - d)) <= b)%Q
  ∧ isDouble (qmax 5 (rd (b - d))).
Proof.
  intros Hb Hd.
  assert (H100 : (rd (b - d) <= 100)%Q).
  { apply rd_le_double; [|lra]. by apply (isDouble_Z 100). }
  unfold qmax. destruct (Qle_bool 5 (rd (b - d))) eqn:E.
  - apply Qle_bool_iff in E. split; [lra|]. split; [|apply isDouble_rd].
    intros Hdb. apply rd_le_double; [done|lra].
  - split; [lra|]. split; [lra|]. by apply (isDouble_Z 5).
Qed.

Lemma inUnit_bounds q : inUnit q = true → (0 <= q < 1)%Q.
Proof.
  unfold inUnit, Qltb. intros [[H0 H1]%andb_prop _]%andb_prop.
  apply Qle_bool_iff in H0. apply negb_true_iff in H1. split; [done|].
  destruct (Qlt_le_dec q 1) as [|Hge]; [done|].
  apply Qle_bool_iff in Hge. congruence.
Qed.

Lemma inUnit_double q : inUnit q = true → isDouble q.
Proof.
  unfold inUnit. intros [_ H]%andb_prop. by apply isDoubleb_true.
Qed.

Lemma validDraws_battery r : validDraws r = true → inUnit (rBattery r) = true.
Proof. unfold validDraws. intros H. by apply andb_prop in H as [_ H]. Qed.

(** What a tick takes from the battery: at least the double nearest to
    0.15, which is below 0.15, and a quarter at most. *)
Lemma drain_bounds r :
  validDraws r = true → (lit 0.15 <= drain r <= 1 # 4)%Q.
Proof.
  intros H%validDraws_battery%inUnit_bounds. unfold drain.
  assert (H01 : (0 < lit 0.1)%Q) by (vm_compute; reflexivity).
  assert (Hp : (0 <= rd (rBattery r * lit 0.1) <= lit 0.1)%Q).
  { apply rd_between; [by apply (isDouble_Z 0)|apply isDouble_rd|]. nra. }
  split.
  - apply rd_ge; [apply isDouble_rd|]. lra.
  - assert (E : rd (lit 0.15 + lit 0.1) = (1 # 4)%Q) by (vm_compute; reflexivity).
    rewrite <- E. apply rd_le. lra.
Qed.

Lemma filter_out_single (id : positive) : filter (λ j, j ≠ id) [id] = [].
Proof.
  rewrite filter_cons. destruct (decide (id ≠ id)) as [H|_]; [by destruct H|].
  apply filter_nil.
Qed.

Lemma invariant_step P e s :
  invariant s → possible e s = true → invariant (exec (handler P e) s).
Proof.
  intros Hinv Hpos. destruct e as [| |now perfNow|now|now nowMs r statNow|statNow d|v|v|f];
    cbn [handler].
  - (* DOMContentLoaded *)
    destruct Hinv as [Ht Ha Hs Hb Hd Hw].
    pose proof (onDOMContentLoaded_keeps P s) as K.
    unfold simulatorPart in K. injection K as K1 K2 K3 K4 K5 K6 K7.
    fold (exec (onDOMContentLoaded P) s) in *.
    split.
    + unfold timerRow. by rewrite K4, K5.
    + by rewrite K1, K4.
    + by rewrite K1, K2, K3.
    + unfold battery. by rewrite K7.
    + by rewrite K3.
    + intros c. rewrite onDOMContentLoaded_chart. intros [= <-].
      apply windowOk_empty.
  - (* HubConnected *)
    destruct Hinv as [Ht Ha Hs Hb Hd Hw]. by split.
  - (* ClickStart *)
    destruct Hinv as [Ht Ha Hs Hb Hd Hw].
    destruct (startSession_fields now perfNow s)
      as (F1 & F2 & F3 & F4 & F5 & F6 & F7 & F8).
    unfold simulatorPart in F8. unfold timerRow in Ht.
    destruct (simulatorIntervalId s) as [id|] eqn:Eid;
      injection F8 as G1 G2 G3 G4;
      (split;
       [ unfold timerRow; rewrite G1, G2, Ht; done
       | by rewrite F1, G1
       | by rewrite F2
       | unfold battery; rewrite G4; try done; simpl; lra
       | rewrite F3; constructor
       | intros c; rewrite F7; destruct (drowsinessChart s); [|done];
         intros [= <-]; apply windowOk_empty ]).
  - (* ClickStop *)
    destruct Hinv as [Ht Ha Hs Hb Hd Hw].
    pose proof (stopSession_engine P now s) as K.
    unfold engine, simulatorPart in K.
    injection K as K1 K2 K3 K4 K5 K6 K7 K8 K9 K10 K11.
    split.
    + unfold timerRow. rewrite K6, K7. unfold timerRow in Ht.
      destruct (simulatorIntervalId s) as [id|]; [|done].
      rewrite Ht. apply filter_out_single.
    + by rewrite K1, K6.
    + rewrite K1, K2, K5. intros E. by destruct (Hs E).
    + unfold battery. by rewrite K9.
    + by rewrite K5.
    + unfold chartOk. by rewrite K3.
  - (* TimerTick *)
    cbn [possible] in Hpos.
    destruct (intervals s) as [|id ids] eqn:Ei; [done|].
    unfold exec.
    destruct (simulatorTick_cases now nowMs r statNow s)
      as [[_ ->]|(Hact & st & d & -> & Hst & _)]; [done|].
    apply invariant_processSensorData; [|done].
    apply invariant_set_simulatorState; [done|]. rewrite Hst.
    apply qmax_floor; [apply Hinv|]. pose proof (drain_bounds r Hpos) as Hd.
    assert ((0 < lit 0.15)%Q) by (vm_compute; reflexivity). lra.
  - (* HubMessage *)
    destruct (onReceiveSensorData_cases P statNow d s)
      as [->|(Hact & d' & ->)]; [done|].
    by apply invariant_processSensorData.
  - destruct Hinv as [Ht Ha Hs Hb Hd Hw]. by split.
  - destruct Hinv as [Ht Ha Hs Hb Hd Hw]. by split.
  - destruct Hinv as [Ht Ha Hs Hb Hd Hw]. by split.
Qed.

Lemma reachable_invariant P s : reachable P s → invariant s.
Proof.
  induction 1 as [page0 store|s e _ IH Hpos].
  - apply invariant_init.
  - by apply invariant_step.
Qed.

(** In every state that the page can reach, the chart's window holds at
    most 20 points and its three arrays have the same length. *)
Lemma reachable_chartOk P s : reachable P s → chartOk s.
Proof. intros H. apply (inv_window s (reachable_invariant P s H)). Qed.

Lemma reachable_run P es : ∀ s,
  reachable P s → allPossible P es s = true → reachable P (run P es s).
Proof.
  induction es as [|e es IH]; intros s Hs Hp; [done|].
  cbn [allPossible] in Hp. apply andb_prop in Hp as [He Hes].
  cbn [run]. apply IH; [|done]. by apply reachable_step.
Qed.

Lemma loadedState_reachable : reachable examplePlatform loadedState.
Proof. apply reachable_run; [apply reachable_init|]. vm_compute. reflexivity. Qed.

Lemma activeState_reachable : reachable examplePlatform activeState.
Proof.
  apply reachable_run; [apply loadedState_reachable|]. vm_compute. reflexivity.
Qed.

Lemma twoSampleState_reachable : reachable examplePlatform twoSampleState.
Proof.
  apply reachable_run; [apply activeState_reachable|]. vm_compute. reflexivity.
Qed.

(** ** The session history store: recording *)

Lemma stopSession_history P now s :
  recentSessions (exec (stopSession P now) s) = historyAfterStop P now s
  ∧ localStorage (exec (stopSession P now) s) = storageAfterStop P now s.
Proof.
  pose proof (stopSession_engine P now s) as K. unfold engine in K.
  split; congruence.
Qed.










(** ** Stopping twice *)

(** C3, as the claim states it, fails: a session with two accepted
    samples is stopped, which records one summary; stopping again at once
    records a second summary of the same session. *)
Lemma C3_counterexample :
  length (recentSessions (exec (stopSession examplePlatform 5000) twoSampleState))
  = 1%nat
  ∧ length (recentSessions
              (exec (stopSession examplePlatform 5001)
                    (exec (stopSession examplePlatform 5000) twoSampleState)))
    = 2%nat.
Proof. split; vm_compute; reflexivity. Qed.

(** C3 (amended): for every state, calling [stopSession] twice in
    immediate succession leaves the active flag, the session data, the
    alert counter, the chart, the simulator and its timer as one call
    leaves them; when no session was started or the session has no
    accepted sample, the history, in memory and in storage, is also the
    same as after one call. *)
Theorem C3_stop_twice (P : Platform) (s : State) (now1 now2 : Z) :
  let s1 := exec (stopSession P now1) s in
  let s2 := exec (stopSession P now2) s1 in
  isSessionActive s2 = isSessionActive s1
  ∧ sessionData s2 = sessionData s1
  ∧ totalAlerts s2 = totalAlerts s1
  ∧ sessionStartTime s2 = sessionStartTime s1
  ∧ drowsinessChart s2 = drowsinessChart s1
  ∧ simulatorPart s2 = simulatorPart s1
  ∧ (sessionStartTime s = None ∨ sessionData s = [] →
       recentSessions s2 = recentSessions s1
       ∧ localStorage s2 = localStorage s1).
Proof.
  cbv zeta.
  pose proof (stopSession_engine P now1 s) as K.
  pose proof (stopSession_engine P now2 (exec (stopSession P now1) s)) as L.
  unfold engine, simulatorPart in K, L.
  injection K as K1 K2 K3 K4 K5 K6 K7 K8 K9 K10 K11.
  injection L as L1 L2 L3 L4 L5 L6 L7 L8 L9 L10 L11.
  rewrite K6 in L7.
  unfold simulatorPart. rewrite L1, L2, L3, L4, L5, L6, L7, L8, L9, L10, L11.
  rewrite K1, K2, K3, K4, K5, K6, K8, K9.
  do 6 (split; [done|]).
  intros Hnone.
  assert (R : recordsAtStop (exec (stopSession P now1) s) = false).
  { unfold recordsAtStop. rewrite K2, K5.
    destruct Hnone as [->| ->]; [done|]. by destruct (sessionStartTime s). }
  unfold historyAfterStop, storageAfterStop. rewrite R. cbn [andb].
  by destruct (sessionStartTime (exec (stopSession P now1) s)).
Qed.

(** ** The tick timer *)

Lemma startSession_intervals now perfNow s :
  intervals (exec (startSession now perfNow) s)
  = match simulatorIntervalId s with
    | Some _ => intervals s
    | None => intervals s ++ [nextIntervalId s]
    end.
Proof.
  destruct (startSession_fields now perfNow s) as (_ & _ & _ & _ & _ & _ & _ & F).
  unfold simulatorPart in F. by destruct (simulatorIntervalId s); injection F.
Qed.

Lemma stopSession_intervals P now s :
  intervals (exec (stopSession P now) s)
  = match simulatorIntervalId s with
    | Some id => filter (λ j, j ≠ id) (intervals s)
    | None => intervals s
    end
  ∧ simulatorIntervalId (exec (stopSession P now) s) = None.
Proof.
  pose proof (stopSession_engine P now s) as K.
  unfold engine, simulatorPart in K.
  injection K as K1 K2 K3 K4 K5 K6 K7 K8 K9 K10 K11. done.
Qed.

(** C10: in every state that the page can reach, at most one tick timer
    is scheduled, and it is the one that [simulatorIntervalId] holds;
    stopping the session (and [stopSimulator] alone) leaves no timer
    scheduled; starting a session while a timer is scheduled schedules no
    second one ([startSimulator] does nothing at all then), and after a
    start exactly one timer is scheduled. *)
Theorem C10_single_timer (P : Platform) (s : State) :
  reachable P s →
  (length (intervals s) ≤ 1)%nat
  ∧ intervals s = timerRow s
  ∧ (∀ now, intervals (exec (stopSession P now) s) = []
            ∧ simulatorIntervalId (exec (stopSession P now) s) = None)
  ∧ (intervals (exec stopSimulator s) = []
     ∧ simulatorIntervalId (exec stopSimulator s) = None)
  ∧ (∀ now perfNow, intervals s ≠ [] →
       intervals (exec (startSession now perfNow) s) = intervals s)
  ∧ (∀ perfNow, intervals s ≠ [] → exec (startSimulator perfNow) s = s)
  ∧ (∀ now perfNow,
       length (intervals (exec (startSession now perfNow) s)) = 1%nat).
Proof.
  intros Hr. pose proof (inv_timers s (reachable_invariant P s Hr)) as Ht.
  unfold timerRow in *.
  split; [|split; [done|split; [|split; [|split; [|split]]]]].
  - rewrite Ht. destruct (simulatorIntervalId s); simpl; lia.
  - intros now. destruct (stopSession_intervals P now s) as [Hi Hid].
    split; [|done]. rewrite Hi, Ht.
    destruct (simulatorIntervalId s); [apply filter_out_single|done].
  - rewrite stopSimulator_fields.
    destruct (simulatorIntervalId s) as [id|] eqn:Eid; [|done].
    cbn [intervals simulatorIntervalId set_simulatorIntervalId set_timers].
    rewrite Ht. split; [apply filter_out_single|done].
  - intros now perfNow Hne. rewrite startSession_intervals.
    destruct (simulatorIntervalId s); [done|]. by rewrite Ht in Hne.
  - intros perfNow Hne. pose proof (startSimulator_fields perfNow s) as F.
    destruct (simulatorIntervalId s); [done|]. by rewrite Ht in Hne.
  - intros now perfNow. rewrite startSession_intervals, Ht.
    by destruct (simulatorIntervalId s).
Qed.

Lemma C10_single_timer_witness :
  intervals (exec (startSession 9000 0) activeState) = intervals activeState
  ∧ length (intervals activeState) = 1%nat
  ∧ intervals (exec (stopSession examplePlatform 9000) activeState) = [].
Proof.
  pose proof (C10_single_timer examplePlatform activeState activeState_reachable)
    as (_ & _ & Hstop & _ & Hstart & _).
  split; [|split].
  - apply Hstart. discriminate.
  - reflexivity.
  - apply Hstop.
Defined.

(** ** The battery of the simulator *)

Lemma startSession_battery now perfNow s :
  battery (exec (startSession now perfNow) s)
  = match simulatorIntervalId s with Some _ => battery s | None => 100%Q end.
Proof.
  destruct (startSession_fields now perfNow s) as (_ & _ & _ & _ & _ & _ & _ & F).
  unfold simulatorPart, battery in *.
  destruct (simulatorIntervalId s); by injection F as _ _ _ ->.
Qed.

Lemma tick_battery P now nowMs r statNow s :
  reachable P s → possible (TimerTick now nowMs r statNow) s = true →
  battery (exec (simulatorTick now nowMs r statNow) s)
  = qmax 5 (rd (battery s - drain r)).
Proof.
  intros Hr Hpos. pose proof (reachable_invariant P s Hr) as [Ht Ha _ _ _ _].
  cbn [possible] in Hpos. unfold timerRow in Ht.
  unfold exec at 1.
  destruct (simulatorTick_cases now nowMs r statNow s)
    as [[Hoff _]|(_ & st & d & -> & Hst & _)].
  { rewrite Hoff in Ha. destruct (simulatorIntervalId s); [done|].
    by rewrite Ht in Hpos. }
  pose proof (processSensorData_keeps_steady statNow d (set_simulatorState st s))
    as K.
  unfold steady, simulatorPart in K. injection K as _ _ _ _ _ K _ _.
  unfold battery, exec. by rewrite K.
Qed.

Lemma other_events_battery P e s :
  isStart e = false → isTick e = false →
  battery (exec (handler P e) s) = battery s.
Proof.
  intros Hs Ht. destruct e as [| |?|now| |statNow d|v|v|f]; try done; cbn [handler].
  - pose proof (onDOMContentLoaded_keeps P s) as K.
    unfold simulatorPart in K. injection K as _ _ _ _ _ _ K.
    unfold battery, exec. by rewrite K.
  - pose proof (stopSession_engine P now s) as K.
    unfold engine, simulatorPart in K.
    injection K as K1 K2 K3 K4 K5 K6 K7 K8 K9 K10 K11.
    unfold battery. by rewrite K9.
  - destruct (onReceiveSensorData_cases P statNow d s)
      as [->|(_ & d' & ->)]; [done|].
    pose proof (processSensorData_keeps_steady statNow d' s) as K.
    unfold steady, simulatorPart in K. injection K as _ _ _ _ _ K _ _.
    unfold battery, exec. by rewrite K.
Qed.

Lemma drain_nonneg r : validDraws r = true → (0 <= drain r)%Q.
Proof.
  intros [H _]%drain_bounds.
  assert ((0 < lit 0.15)%Q) by (vm_compute; reflexivity). lra.
Qed.

(** The battery level is a double in every state of the page. *)
Lemma reachable_battery_double P s : reachable P s → isDouble (battery s).
Proof.
  induction 1 as [page0 store limit|s e Hr IH Hpos].
  { by apply (isDouble_Z 100). }
  destruct (isStart e) eqn:Es.
  { destruct e; try done. cbn [handler]. rewrite startSession_battery.
    destruct (simulatorIntervalId s); [done|]. by apply (isDouble_Z 100). }
  destruct (isTick e) eqn:Et.
  - destruct e as [| | | |now nowMs r statNow| | | |]; try done. cbn [handler].
    rewrite (tick_battery P) by done.
    apply qmax_floor; [apply (inv_battery s (reachable_invariant P s Hr))|].
    apply drain_nonneg. cbn [possible] in Hpos. by destruct (intervals s).
  - by rewrite other_events_battery.
Qed.

Lemma ticks_battery P es : ∀ s,
  reachable P s → forallb validTick es = true → intervals s ≠ [] →
  (5 <= battery (run P es s) <= battery s)%Q.
Proof.
  induction es as [|e es IH]; intros s Hr Hes Hi.
  - cbn [run]. pose proof (inv_battery s (reachable_invariant P s Hr)). lra.
  - cbn [forallb] in Hes. apply andb_prop in Hes as [He Hes].
    destruct e as [| | | |now nowMs r statNow| | | |]; try done.
    assert (Hpos : possible (TimerTick now nowMs r statNow) s = true).
    { cbn [possible]. by destruct (intervals s). }
    pose proof (tick_battery P now nowMs r statNow s Hr Hpos) as Hb.
    pose proof (reachable_step P s _ Hr Hpos) as Hr'. cbn [handler] in Hr'.
    cbn [run handler].
    assert (Hi' : intervals (exec (simulatorTick now nowMs r statNow) s) ≠ []).
    { unfold exec.
      destruct (simulatorTick_cases now nowMs r statNow s)
        as [[_ ->]|(_ & st & d & -> & _)]; [done|].
      pose proof (processSensorData_keeps_steady statNow d
                    (set_simulatorState st s)) as K.
      unfold steady, simulatorPart in K. injection K as _ _ _ K _ _ _ _.
      unfold exec. by rewrite K. }
    specialize (IH _ Hr' Hes Hi'). rewrite Hb in IH.
    destruct (qmax_floor (battery s) (drain r)
                (inv_battery s (reachable_invariant P s Hr))
                (drain_nonneg r He)) as (_ & Hq & _).
    specialize (Hq (reachable_battery_double P s Hr)). lra.
Qed.

(** C8, the counterexample: from the state of a session just started,
    whose battery is at 100, a tick in which the [Math.random()] of the
    battery returns 1 - 2^-52 leaves exactly 99.75: the level has dropped
    by 0.25, which is not in the interval from 0.15 to 0.25 excluded. *)
Theorem C8_counterexample :
  possible (TimerTick 3000 4000 edgeDraws 3001) activeState = true
  ∧ battery activeState = 100%Q
  ∧ battery (exec (simulatorTick 3000 4000 edgeDraws 3001) activeState)
    = (399 # 4)%Q
  ∧ ¬ (battery activeState
       - battery (exec (simulatorTick 3000 4000 edgeDraws 3001) activeState)
       < 0.25)%Q.
Proof.
  assert (E : battery (exec (simulatorTick 3000 4000 edgeDraws 3001) activeState)
              = (399 # 4)%Q) by (vm_compute; reflexivity).
  split; [vm_compute; reflexivity|]. split; [reflexivity|]. split; [exact E|].
  rewrite E. intros H. vm_compute in H. discriminate.
Qed.

(** C8, amended: in every state that the page can reach the battery
    level of the simulator lies between 5 and 100, its value at the start
    of a session.  Every tick of the timer subtracts from it the amount
    [drain r], which lies between the double nearest to 0.15 and 0.25,
    both included; the difference is rounded to a double and floored at
    5; so over any run of ticks (1000 of them, say) the level does not
    increase and stays at or above 5.  No event other than the start of a
    session raises the level; a start from the idle state sets it to 100,
    and a start while a session is active leaves it. *)
Theorem C8_battery (P : Platform) (s : State) :
  reachable P s →
  (5 <= battery s <= 100)%Q
  ∧ (∀ now nowMs r statNow,
       possible (TimerTick now nowMs r statNow) s = true →
       (lit 0.15 <= drain r <= 0.25)%Q
       ∧ battery (exec (simulatorTick now nowMs r statNow) s)
         = qmax 5 (rd (battery s - drain r))
       ∧ (5 <= battery (exec (simulatorTick now nowMs r statNow) s)
            <= battery s)%Q)
  ∧ (∀ ticks, forallb validTick ticks = true → intervals s ≠ [] →
       (5 <= battery (run P ticks s) <= battery s)%Q)
  ∧ (∀ e, possible e s = true → isStart e = false →
       (battery (exec (handler P e) s) <= battery s)%Q)
  ∧ (∀ now perfNow,
       battery (exec (startSession now perfNow) s)
       = if isSessionActive s then battery s else 100%Q).
Proof.
  intros Hr. pose proof (inv_battery s (reachable_invariant P s Hr)) as Hb.
  assert (Htick : ∀ now nowMs r statNow,
             possible (TimerTick now nowMs r statNow) s = true →
             (lit 0.15 <= drain r <= 0.25)%Q
             ∧ battery (exec (simulatorTick now nowMs r statNow) s)
               = qmax 5 (rd (battery s - drain r))
             ∧ (5 <= battery (exec (simulatorTick now nowMs r statNow) s)
                  <= battery s)%Q).
  { intros now nowMs r statNow Hpos.
    assert (Hv : validDraws r = true).
    { cbn [possible] in Hpos. by destruct (intervals s). }
    pose proof (drain_bounds r Hv) as Hd.
    split; [split; [apply Hd|]|].
    { eapply Qle_trans; [apply Hd|]. by apply Qle_bool_iff. }
    rewrite (tick_battery P) by done. split; [done|].
    destruct (qmax_floor (battery s) (drain r) Hb (drain_nonneg r Hv))
      as (H1 & H2 & _).
    specialize (H2 (reachable_battery_double P s Hr)). lra. }
  split; [done|]. split; [exact Htick|]. split; [|split].
  - intros ticks. by apply ticks_battery.
  - intros e Hpos Hs. destruct (isTick e) eqn:Et.
    + destruct e; try done. cbn [handler]. by apply Htick.
    + rewrite other_events_battery by done. lra.
  - intros now perfNow. rewrite startSession_battery.
    rewrite (inv_active s (reachable_invariant P s Hr)).
    by destruct (simulatorIntervalId s).
Qed.

Lemma C8_battery_witness :
  battery (exec (simulatorTick 3000 4000 halfDraws 3001) activeState)
  = qmax 5 (rd (battery activeState - drain halfDraws))
  ∧ (5 <= battery (exec (simulatorTick 3000 4000 halfDraws 3001) activeState)
       <= battery activeState)%Q.
Proof.
  pose proof (C8_battery examplePlatform activeState activeState_reachable)
    as (_ & Htick & _).
  destruct (Htick 3000 4000%Q halfDraws 3001) as (_ & Hb & Hle).
  - reflexivity.
  - split; [exact Hb|exact Hle].
Defined.

(** ** A complete sample goes through the whole of [processSensorData] *)

Lemma bind_ok {A B : Type} (m : M A) (k : A → M B) s a s1 :
  m s = (Ok a, s1) → (m ≫= k) s = k a s1.
Proof. intros H. unfold mbind, M_bind. by rewrite H. Qed.

Lemma complete_accepted d : complete d → accepted d.
Proof.
  intros (t & blink & level & head & p & r & y & charge
          & Ht & Hb & Hl & Hh & Hhead & _).
  destruct d as [| |b|n|str|t'|items|props]; try discriminate.
  simpl in *. exists props, blink, level.
  injection Hb as ->. injection Hl as ->. injection Hh as ->. done.
Qed.

Lemma complete_stamped d : complete d → stamped d.
Proof. intros (t & blink & level & head & p & r & y & charge & Ht & _). by exists t. Qed.

Lemma updateDashboardDisplays_complete d s :
  complete d → ∃ pg, updateDashboardDisplays d s = (Ok tt, set_page pg s).
Proof.
  intros (t & blink & level & head & p & r & y & charge
          & Ht & Hb & Hl & Hh & _ & Hp & Hr & Hy & Hc).
  unfold updateDashboardDisplays, fixedOf, timeLabelOf.
  rewrite Ht, Hb, Hl, Hh, Hc. mrun. rewrite Hp, Hr, Hy. mrun.
  eexists. reflexivity.
Qed.

Lemma processSensorData_complete statNow d flag c s :
  complete d →
  getProp d "alertTriggered" = Some (JBool flag) →
  drowsinessChart s = Some c →
  let s' := exec (processSensorData statNow d) s in
  outcome (processSensorData statNow d) s
  = (if Z.of_nat (length (sessionData s ++ [d])) <=? argumentLimit s
     then Ok tt else Throw RangeError)
  ∧ sessionData s' = sessionData s ++ [d]
  ∧ totalAlerts s' = totalAlerts s + (if flag then 1 else 0)
  ∧ drowsinessChart s'
    = Some (pushPoint (stampOf d) (fieldOf "drowsinessLevel" d)
                      (fieldOf "eyeBlinkRate" d) c)
  ∧ alertShown s' = Some (DAlert (if flag then Active else Clear)).
Proof.
  intros Hd Hflag Hc.
  pose proof (complete_accepted d Hd) as Hacc.
  pose proof (proj2 (invalidSensorData_false d) Hacc) as Hvalid.
  cbv zeta. unfold outcome, exec, processSensorData. rewrite Hvalid.
  rewrite bind_modify. cbv beta.
  destruct (updateDashboardDisplays_complete d
              (set_sessionData (sessionData s ++ [d]) s) Hd) as [pg Hdisp].
  rewrite (bind_ok _ _ _ _ _ Hdisp). cbv beta.
  rewrite (bind_ok _ _ _ _ _
             (updateChart_pushes d
                (set_page pg (set_sessionData (sessionData s ++ [d]) s)) c
                (complete_stamped d Hd) Hc)).
  cbv beta.
  destruct flag.
  - rewrite (bind_ok _ _ _ _ _
               (checkForAlerts_truthy d (JBool true) _ Hacc Hflag eq_refl)).
    unfold updateSessionStatistics, spreadPeak, alertShown. mrun.
    rewrite app_cons_not_nil_match. mrun.
    destruct (Z.of_nat (length (sessionData s ++ [d])) <=? argumentLimit s);
      mrun; (repeat split; try done).
    + do 3 (rewrite lookup_insert_ne by done). by rewrite lookup_insert_eq.
    + do 2 (rewrite lookup_insert_ne by done). by rewrite lookup_insert_eq.
  - rewrite (bind_ok _ _ _ _ _
               (checkForAlerts_falsy d (JBool false) _ Hflag eq_refl)).
    unfold updateSessionStatistics, spreadPeak, alertShown. mrun.
    rewrite app_cons_not_nil_match. mrun.
    destruct (Z.of_nat (length (sessionData s ++ [d])) <=? argumentLimit s);
      mrun; (repeat split; try done; try lia).
    + do 3 (rewrite lookup_insert_ne by done). by rewrite lookup_insert_eq.
    + do 2 (rewrite lookup_insert_ne by done). by rewrite lookup_insert_eq.
Qed.




(** A tick of the simulator does not throw once the chart exists, the
    sample it makes being complete, while the session stays within the
    argument limit. *)
Lemma simulatorTick_returns now nowMs r statNow s :
  is_Some (drowsinessChart s) →
  Z.of_nat (length (sessionData s)) < argumentLimit s →
  outcome (simulatorTick now nowMs r statNow) s = Ok tt.
Proof.
  intros [c Hc] Hfit. unfold outcome.
  destruct (simulatorTick_cases now nowMs r statNow s)
    as [[_ ->]|(_ & st & d & -> & _ & Hd & flag & Hflag)]; [done|].
  destruct (processSensorData_complete statNow d flag c
              (set_simulatorState st s) Hd Hflag Hc) as [Ho _].
  unfold outcome in Ho. rewrite Ho.
  change (sessionData (set_simulatorState st s)) with (sessionData s).
  change (argumentLimit (set_simulatorState st s)) with (argumentLimit s).
  rewrite length_app. cbn [length].
  destruct (Z.leb_spec (Z.of_nat (length (sessionData s) + 1)) (argumentLimit s));
    [done|lia].
Qed.

(** A sample that passes the guard without being complete is appended to
    the session, and then [updateDashboardDisplays] throws on the missing
    angle: the chart, the alert detector and the statistics are not
    reached. *)
Example bare_sample_is_appended_then_throws :
  accepted bareSample
  ∧ sessionData (exec (processSensorData 2000 bareSample) activeState)
    = [bareSample]
  ∧ outcome (processSensorData 2000 bareSample) activeState = Throw TypeError
  ∧ drowsinessChart (exec (processSensorData 2000 bareSample) activeState)
    = drowsinessChart activeState.
Proof.
  split; [eexists _, _, _; repeat split; reflexivity|].
  split; [vm_compute; reflexivity|].
  split; vm_compute; reflexivity.
Qed.

(** * Further properties of the script *)

(** ** Starting a session *)

Lemma alertShown_setDom key v s :
  key ≠ "alertStatus.innerHTML" →
  alertShown (exec (setDom key v) s) = alertShown s.
Proof. intros H. unfold alertShown. mrun. by rewrite lookup_insert_ne. Qed.

(** X1: whatever the state, [startSession] leaves an active session that
    began at [now], with no sample, an alert counter at 0, an empty chart
    window (when the chart exists) and the alert banner cleared; the
    history and the storage are not touched. *)
Theorem startSession_resets (now : Z) (perfNow : Q) (s : State) :
  let s' := exec (startSession now perfNow) s in
  isSessionActive s' = true
  ∧ sessionStartTime s' = Some now
  ∧ sessionData s' = []
  ∧ totalAlerts s' = 0
  ∧ drowsinessChart s' = (λ _, mkChart [] [] []) <$> drowsinessChart s
  ∧ alertShown s' = Some (DAlert Clear)
  ∧ recentSessions s' = recentSessions s
  ∧ localStorage s' = localStorage s.
Proof.
  destruct (startSession_fields now perfNow s)
    as (F1 & F2 & F3 & F4 & F5 & F6 & F7 & _).
  cbv zeta. do 5 (split; [done|]). split; [|done].
  unfold startSession. split_seq.
  match goal with
  | |- alertShown (exec updateExportButtons (exec clearAlert ?s0)) = _ =>
      generalize s0; intros st
  end.
  unfold updateExportButtons, alertShown. mrun.
  do 2 (rewrite lookup_insert_ne by done). by rewrite lookup_insert_eq.
Qed.

(** ** A stopped session is frozen *)

Lemma onDOMContentLoaded_keeps_record P :
  keeps sessionRecord (onDOMContentLoaded P).
Proof. solve_keeps. Qed.

Lemma handler_idle P e s :
  isSessionActive s = false → notStart e = true →
  sessionRecord (exec (handler P e) s) = sessionRecord s.
Proof.
  intros Hidle Hns.
  destruct e as [| |now perfNow|now|now nowMs r statNow|statNow d|v|v|f];
    try done; cbn [handler].
  - apply onDOMContentLoaded_keeps_record.
  - pose proof (stopSession_engine P now s) as K.
    unfold engine, simulatorPart in K.
    injection K as K1 K2 K3 K4 K5 K6 K7 K8 K9 K10 K11.
    unfold sessionRecord. by rewrite K1, K2, K4, K5, Hidle.
  - unfold exec.
    destruct (simulatorTick_cases now nowMs r statNow s)
      as [[_ ->]|(Hact & _)]; [done|congruence].
  - destruct (onReceiveSensorData_cases P statNow d s)
      as [->|(Hact & _)]; [done|congruence].
Qed.

(** X2: from a state in which no session is active, no sequence of events
    without a click on Start changes the session data, the alert counter,
    the start time or the active flag: hub messages are dropped, ticks do
    nothing, and stopping again keeps them. *)
Theorem idle_session_is_frozen (P : Platform) (es : list Event) (s : State) :
  isSessionActive s = false →
  forallb notStart es = true →
  sessionRecord (run P es s) = sessionRecord s.
Proof.
  revert s. induction es as [|e es IH]; intros s Hidle Hes; [done|].
  cbn [forallb] in Hes. apply andb_prop in Hes as [He Hes].
  pose proof (handler_idle P e s Hidle He) as Hstep.
  cbn [run]. rewrite IH; [done| |done].
  unfold sessionRecord in Hstep. injection Hstep as -> _ _ _. done.
Qed.

Lemma idle_session_is_frozen_witness :
  sessionRecord
    (run examplePlatform
       [HubMessage 7000 (sample 6500 (Fin 18) (Fin 99) (JBool true));
        TimerTick 8000 9000 halfDraws 8001; ClickStop 9000; HubConnected]
       (exec (stopSession examplePlatform 5000) twoSampleState))
  = sessionRecord (exec (stopSession examplePlatform 5000) twoSampleState).
Proof.
  apply (idle_session_is_frozen examplePlatform); vm_compute; reflexivity.
Defined.

(** ** Counting the accepted samples *)

(** X3: whatever inputs are fed to [processSensorData], one per turn, the
    session's sample sequence grows by exactly the inputs that pass the
    guard, in the order of arrival; inputs that are refused, and
    exceptions thrown while a sample is displayed, change nothing of
    this. *)
Theorem ingest_keeps_the_accepted (inputs : list (Z * JsVal)) (s : State) :
  sessionData (ingestAll inputs s)
  = sessionData s ++ List.filter validSensorData inputs.*2.
Proof.
  revert s. induction inputs as [|[t d] inputs IH]; intros s.
  - simpl. by rewrite app_nil_r.
  - unfold ingestAll. cbn [foldl fst snd fmap list_fmap List.filter].
    fold (ingestAll inputs (exec (processSensorData t d) s)). rewrite IH.
    unfold validSensorData at 2. destruct (invalidSensorData d) eqn:E; cbn [negb].
    + unfold exec. by rewrite processSensorData_rejects.
    + rewrite processSensorData_appends by done. by rewrite <- app_assoc.
Qed.

(** ** What holds of every state of the page *)

(** X4: a session is active exactly when the tick timer of the simulator is
    scheduled. *)
Theorem active_iff_timer_scheduled (P : Platform) (s : State) :
  reachable P s →
  (isSessionActive s = true ↔ intervals s ≠ [])
  ∧ (isSessionActive s = true ↔ is_Some (simulatorIntervalId s)).
Proof.
  intros [Ht Ha _ _ _ _]%reachable_invariant. unfold timerRow in Ht.
  rewrite Ht, Ha. destruct (simulatorIntervalId s); split; split;
    try done; try (intros [? ?]; done); eauto.
Qed.

Lemma active_iff_timer_scheduled_witness :
  isSessionActive activeState = true ↔ intervals activeState ≠ [].
Proof.
  exact (proj1 (active_iff_timer_scheduled examplePlatform activeState
                  activeState_reachable)).
Defined.

(** X5: every sample that the session holds has passed the guard of
    [processSensorData], and the session holds samples only if it was
    started. *)
Theorem recorded_samples_are_accepted (P : Platform) (s : State) :
  reachable P s →
  Forall accepted (sessionData s)
  ∧ (sessionData s ≠ [] → is_Some (sessionStartTime s)).
Proof.
  intros [_ _ Hs _ Hd _]%reachable_invariant. split; [done|].
  intros Hne. destruct (sessionStartTime s) eqn:E; [done|].
  by destruct (Hs eq_refl).
Qed.

Lemma recorded_samples_are_accepted_witness :
  Forall accepted (sessionData twoSampleState)
  ∧ (sessionData twoSampleState ≠ [] → is_Some (sessionStartTime twoSampleState)).
Proof.
  exact (recorded_samples_are_accepted examplePlatform twoSampleState
           twoSampleState_reachable).
Defined.

(** X6: the chart's window never holds more than 20 points, and its labels
    and two data arrays always have the same length. *)
Theorem chart_window_is_bounded (P : Platform) (s : State) (c : Chart) :
  reachable P s → drowsinessChart s = Some c →
  (length (labels c) ≤ 20)%nat
  ∧ length (dataset0 c) = length (labels c)
  ∧ length (dataset1 c) = length (labels c).
Proof. intros Hr Hc. exact (inv_window s (reachable_invariant P s Hr) c Hc). Qed.

Lemma chart_window_is_bounded_witness :
  (length (labels (mkChart [None; None] [JNum (Fin 20); JNum (Fin 80)]
                           [JNum (Fin 10); JNum (Fin 20)])) ≤ 20)%nat.
Proof.
  refine (proj1 (chart_window_is_bounded examplePlatform twoSampleState _
                   twoSampleState_reachable _)).
  vm_compute. reflexivity.
Defined.

(** ** The simulator *)

Lemma simulatorTick_unfold now nowMs r statNow s :
  isSessionActive s = true →
  simulatorTick now nowMs r statNow s
  = processSensorData statNow
      (simulatedSample now nowMs r (threshold s) (simulatorState s))
      (set_simulatorState (nextSimulatorState nowMs r (simulatorState s)) s).
Proof.
  intros Hact. unfold simulatorTick. rewrite bind_get, Hact. cbn [negb].
  unfold simulatedSample, nextSimulatorState, simulatedLevel,
    simulatedBlinkRate, observedTilt, noiseOf, drain, tiltExceeded, afterTilt,
    spikeValue, afterBlink, blinkFires.
  cbv zeta. rewrite bind_modify. cbv beta. reflexivity.
Qed.

Lemma validDraws_all r :
  validDraws r = true →
  (0 <= rSpike r < 1 ∧ 0 <= rCooldown r < 1 ∧ 0 <= rAxis r < 1
   ∧ 0 <= rSign r < 1 ∧ 0 <= rMagnitude r < 1 ∧ 0 <= rPitch r < 1
   ∧ 0 <= rRoll r < 1 ∧ 0 <= rYaw r < 1 ∧ 0 <= rBaseline r < 1
   ∧ 0 <= rDrowsy r < 1 ∧ 0 <= rBlinkBoost r < 1 ∧ 0 <= rTiltBoost r < 1
   ∧ 0 <= rBattery r < 1)%Q.
Proof.
  unfold validDraws. intros H.
  do 12 (apply andb_prop in H as [H ?]).
  repeat match goal with
         | X : inUnit _ = true |- _ => apply inUnit_bounds in X
         end.
  tauto.
Qed.

Lemma validDraws_doubles r :
  validDraws r = true → isDouble (rCooldown r) ∧ isDouble (rAxis r).
Proof.
  unfold validDraws. intros H.
  do 12 (apply andb_prop in H as [H ?]).
  split; by apply inUnit_double.
Qed.

(** A constant is a double: by evaluation. *)
Ltac double_const := unfold isDouble; vm_compute; reflexivity.

(** [Math.floor(Math.random() * n)] is an index below [n], the product
    of the largest double below 1 and [n] being rounded to less than
    [n]. *)
Lemma Qfloor_scaled u (n : Z) :
  0 < n → (rd ((1 - pow2 (-53)) * inject_Z n) < inject_Z n)%Q →
  isDouble u → (0 <= u < 1)%Q → 0 ≤ Qfloor (rd (u * inject_Z n)) < n.
Proof.
  intros Hn Hedge Hu [H0 H1].
  pose proof (isDouble_below_1 u Hu H1) as Hb.
  pose proof (pow2_pos (-53)) as Hp. revert Hedge Hb Hp.
  generalize (pow2 (-53)). intros p Hedge Hb Hp.
  assert (Hn' : (0 < inject_Z n)%Q)
    by (change 0%Q with (inject_Z 0); by rewrite <- Zlt_Qlt).
  assert (Hlo : (0 <= rd (u * inject_Z n))%Q) by (apply rd_nonneg; nra).
  assert (Hhi : (rd (u * inject_Z n) < inject_Z n)%Q).
  { eapply Qle_lt_trans; [apply rd_le|exact Hedge]. nra. }
  pose proof (Qfloor_le (rd (u * inject_Z n))) as Hle.
  pose proof (Qlt_floor (rd (u * inject_Z n))) as Hlt.
  rewrite inject_Z_plus in Hlt.
  split.
  - assert (H : (inject_Z (-1) < inject_Z (Qfloor (rd (u * inject_Z n))))%Q).
    { change (inject_Z (-1)) with (-1)%Q. change (inject_Z 1) with 1%Q in Hlt. lra. }
    rewrite <- Zlt_Qlt in H. lia.
  - rewrite Zlt_Qlt. lra.
Qed.

Lemma Qltb_true x y : Qltb x y = true ↔ (x < y)%Q.
Proof.
  unfold Qltb. rewrite negb_true_iff. split.
  - intros H. destruct (Qlt_le_dec x y) as [|Hge]; [done|].
    apply Qle_bool_iff in Hge. congruence.
  - intros H. destruct (Qle_bool y x) eqn:E; [|done].
    apply Qle_bool_iff in E. lra.
Qed.

Lemma Qltb_false x y : Qltb x y = false ↔ (y <= x)%Q.
Proof.
  unfold Qltb. rewrite negb_false_iff. apply Qle_bool_iff.
Qed.

Lemma spikeValue_range r : validDraws r = true → spikeRange (spikeValue r).
Proof.
  intros H%validDraws_all. unfold spikeValue, spikeRange.
  assert (Hm : (0 <= rd (rMagnitude r * 20) <= 20)%Q).
  { apply rd_between; [double_const|double_const|lra]. }
  assert (Hs : (30 <= rd (30 + rd (rMagnitude r * 20)) <= 50)%Q).
  { apply rd_between; [double_const|double_const|lra]. }
  destruct (Qltb (rSign r) 0.5); [left|right];
    (apply rd_between; [double_const|double_const|lra]).
Qed.

Lemma afterBlink_tilt nowMs st :
  tiltCooldown (afterBlink nowMs st) = tiltCooldown st
  ∧ baseTilt (afterBlink nowMs st) = baseTilt st
  ∧ batteryLevel (afterBlink nowMs st) = batteryLevel st.
Proof. unfold afterBlink. by destruct (blinkFires nowMs st). Qed.

Lemma afterTilt_invariant r st :
  validDraws r = true → tiltInvariant st → tiltInvariant (afterTilt r st).
Proof.
  intros Hr (Hc & Hzero & Hone). pose proof (validDraws_all r Hr) as Hall.
  destruct (validDraws_doubles r Hr) as [Hdc Hda].
  unfold afterTilt, tiltInvariant.
  destruct ((tiltCooldown st =? 0) && Qltb (rSpike r) (lit 0.08)) eqn:E.
  - apply andb_prop in E as [E0%Z.eqb_eq _].
    pose proof (Qfloor_scaled (rCooldown r) 2 ltac:(lia)
                  ltac:(vm_compute; reflexivity) Hdc ltac:(tauto)) as Hf.
    pose proof (Qfloor_scaled (rAxis r) 3 ltac:(lia)
                  ltac:(vm_compute; reflexivity) Hda ltac:(tauto)) as Ha.
    change (inject_Z 2) with 2%Q in Hf. change (inject_Z 3) with 3%Q in Ha.
    cbn [set_tiltCooldown set_baseTilt tiltCooldown baseTilt].
    rewrite (Hzero E0). split; [lia|]. split; [lia|].
    right. exists (spikeValue r). split; [by apply spikeValue_range|].
    assert (Hcases : Qfloor (rd (rAxis r * 3)) = 0
                     ∨ Qfloor (rd (rAxis r * 3)) = 1
                     ∨ Qfloor (rd (rAxis r * 3)) = 2) by lia.
    destruct Hcases as [-> | [-> | ->]]; cbn [set_axis Z.eqb]; tauto.
  - destruct (0 <? tiltCooldown st) eqn:Epos.
    + apply Z.ltb_lt in Epos.
      cbn [set_tiltCooldown set_baseTilt tiltCooldown baseTilt].
      destruct (tiltCooldown st - 1 =? 0) eqn:Ez;
        cbn [set_tiltCooldown set_baseTilt tiltCooldown baseTilt].
      * apply Z.eqb_eq in Ez. split; [lia|]. split; [done|by left].
      * apply Z.eqb_neq in Ez. split; [lia|]. split; [lia|done].
    + done.
Qed.

Lemma nextSimulatorState_invariant nowMs r st :
  validDraws r = true → tiltInvariant st →
  tiltInvariant (nextSimulatorState nowMs r st).
Proof.
  intros Hr Hinv. unfold nextSimulatorState. cbv zeta.
  apply (afterTilt_invariant r (afterBlink nowMs st) Hr).
  destruct (afterBlink_tilt nowMs st) as (Hc & Hb & _).
  unfold tiltInvariant in *. by rewrite Hc, Hb.
Qed.

Lemma other_events_simulatorState P e s :
  isStart e = false → isTick e = false →
  simulatorState (exec (handler P e) s) = simulatorState s.
Proof.
  intros Hs Ht. destruct e as [| |?|now| |statNow d|v|v|f]; try done; cbn [handler].
  - pose proof (onDOMContentLoaded_keeps P s) as K.
    unfold simulatorPart in K. by injection K as _ _ _ _ _ _ K.
  - pose proof (stopSession_engine P now s) as K.
    unfold engine, simulatorPart in K.
    by injection K as K1 K2 K3 K4 K5 K6 K7 K8 K9 K10 K11.
  - destruct (onReceiveSensorData_cases P statNow d s)
      as [->|(_ & d' & ->)]; [done|].
    pose proof (processSensorData_keeps_steady statNow d' s) as K.
    unfold steady, simulatorPart in K. by injection K as _ _ _ _ _ K _ _.
Qed.

Lemma tick_simulatorState P now nowMs r statNow s :
  reachable P s → possible (TimerTick now nowMs r statNow) s = true →
  isSessionActive s = true
  ∧ validDraws r = true
  ∧ simulatorState (exec (simulatorTick now nowMs r statNow) s)
    = nextSimulatorState nowMs r (simulatorState s).
Proof.
  intros Hr Hpos. pose proof (reachable_invariant P s Hr) as [Ht Ha _ _ _ _].
  cbn [possible] in Hpos. unfold timerRow in Ht.
  assert (Hact : isSessionActive s = true).
  { rewrite Ha. destruct (simulatorIntervalId s); [done|]. by rewrite Ht in Hpos. }
  split; [done|]. split; [by destruct (intervals s)|].
  unfold exec. rewrite simulatorTick_unfold by done.
  pose proof (processSensorData_keeps_steady statNow
                (simulatedSample now nowMs r (threshold s) (simulatorState s))
                (set_simulatorState
                   (nextSimulatorState nowMs r (simulatorState s)) s)) as K.
  unfold steady, simulatorPart in K. by injection K as _ _ _ _ _ K _ _.
Qed.

Lemma reachable_tiltInvariant P s :
  reachable P s → tiltInvariant (simulatorState s).
Proof.
  induction 1 as [page0 store limit|s e Hr IH Hpos].
  - repeat split; simpl; try lia. by left.
  - destruct (isStart e) eqn:Es; [|destruct (isTick e) eqn:Et].
    + destruct e; try done. cbn [handler].
      destruct (startSession_fields now perfNow s)
        as (_ & _ & _ & _ & _ & _ & _ & F).
      unfold simulatorPart in F.
      destruct (simulatorIntervalId s); injection F as _ _ _ ->; [done|].
      repeat split; simpl; try lia. by left.
    + destruct e; try done. cbn [handler].
      destruct (tick_simulatorState P now nowMs r statNow s Hr Hpos)
        as (_ & Hv & ->).
      by apply nextSimulatorState_invariant.
    + by rewrite other_events_simulatorState.
Qed.

(** X7: in every state of the page the simulator's spike cooldown is between
    0 and 3 ticks, at most one axis has a base deflection, of 30 to 50
    degrees either way (both bounds included), and no axis has one when
    the cooldown is 0. *)
Theorem simulator_has_one_spike_at_most (P : Platform) (s : State) :
  reachable P s →
  0 ≤ tiltCooldown (simulatorState s) ≤ 3
  ∧ (tiltCooldown (simulatorState s) = 0 → baseTilt (simulatorState s) = zeroTilt)
  ∧ oneAxis (baseTilt (simulatorState s)).
Proof. apply reachable_tiltInvariant. Qed.

Lemma simulator_has_one_spike_at_most_witness :
  oneAxis (baseTilt (simulatorState
             (run examplePlatform [TimerTick 3000 4000 spikeDraws 3001]
                  activeState))).
Proof.
  refine (proj2 (proj2 (simulator_has_one_spike_at_most examplePlatform _ _))).
  apply reachable_run; [apply activeState_reachable|]. vm_compute. reflexivity.
Defined.

Lemma exec_simulatorTick now nowMs r statNow s :
  isSessionActive s = true →
  exec (simulatorTick now nowMs r statNow) s
  = exec (processSensorData statNow
            (simulatedSample now nowMs r (threshold s) (simulatorState s)))
         (set_simulatorState (nextSimulatorState nowMs r (simulatorState s)) s).
Proof. intros H. unfold exec. by rewrite simulatorTick_unfold. Qed.

Lemma simulatedSample_valid now nowMs r thr st :
  invalidSensorData (simulatedSample now nowMs r thr st) = false.
Proof. reflexivity. Qed.

Lemma tick_result P now nowMs r statNow s :
  reachable P s → possible (TimerTick now nowMs r statNow) s = true →
  let s' := exec (simulatorTick now nowMs r statNow) s in
  validDraws r = true
  ∧ sessionData s'
    = sessionData s
      ++ [simulatedSample now nowMs r (threshold s) (simulatorState s)]
  ∧ simulatorState s' = nextSimulatorState nowMs r (simulatorState s)
  ∧ (5 <= battery s' <= 100)%Q.
Proof.
  intros Hr Hpos. cbv zeta.
  destruct (tick_simulatorState P now nowMs r statNow s Hr Hpos)
    as (Hact & Hv & Hst).
  split; [done|]. split; [|split; [done|]].
  - rewrite exec_simulatorTick by done.
    rewrite processSensorData_appends by apply simulatedSample_valid.
    reflexivity.
  - pose proof (reachable_step P s _ Hr Hpos) as Hr'. cbn [handler] in Hr'.
    apply (inv_battery _ (reachable_invariant P _ Hr')).
Qed.

Lemma qmax_spec x y : (x <= qmax x y ∧ y <= qmax x y ∧ (qmax x y = x ∨ qmax x y = y))%Q.
Proof.
  unfold qmax. destruct (Qle_bool x y) eqn:E.
  - apply Qle_bool_iff in E. repeat split; try lra. by right.
  - assert (y <= x)%Q.
    { destruct (Qlt_le_dec x y) as [Hlt|]; [|done].
      apply Qlt_le_weak, Qle_bool_iff in Hlt. congruence. }
    repeat split; try lra. by left.
Qed.

Lemma qmin_spec x y : (qmin x y <= x ∧ qmin x y <= y ∧ (qmin x y = x ∨ qmin x y = y))%Q.
Proof.
  unfold qmin. destruct (Qle_bool x y) eqn:E.
  - apply Qle_bool_iff in E. repeat split; try lra. by left.
  - assert (y <= x)%Q.
    { destruct (Qlt_le_dec x y) as [Hlt|]; [|done].
      apply Qlt_le_weak, Qle_bool_iff in Hlt. congruence. }
    repeat split; try lra. by right.
Qed.

Lemma simulatedLevel_range fires exceeded r :
  validDraws r = true → (35 <= simulatedLevel fires exceeded r <= 100)%Q.
Proof.
  intros H%validDraws_all. unfold simulatedLevel. cbv zeta.
  assert (H0 : (35 <= rd (35 + rd (rDrowsy r * 15)))%Q).
  { apply rd_ge; [double_const|].
    assert (0 <= rd (rDrowsy r * 15))%Q by (apply rd_nonneg; lra). lra. }
  assert (H1 : (0 <= rd (20 + rd (rBlinkBoost r * 10)))%Q).
  { apply rd_nonneg.
    assert (0 <= rd (rBlinkBoost r * 10))%Q by (apply rd_nonneg; lra). lra. }
  assert (H2 : (0 <= rd (20 + rd (rTiltBoost r * 15)))%Q).
  { apply rd_nonneg.
    assert (0 <= rd (rTiltBoost r * 15))%Q by (apply rd_nonneg; lra). lra. }
  set (level0 := rd (35 + rd (rDrowsy r * 15))) in *.
  set (level1 := if fires then _ else level0).
  assert (Hl1 : (35 <= level1)%Q).
  { subst level1. destruct fires; [|done]. apply rd_ge; [double_const|lra]. }
  set (level := if exceeded then _ else level1).
  assert (Hl : (35 <= level)%Q).
  { subst level. destruct exceeded; [|done]. apply rd_ge; [double_const|lra]. }
  destruct (qmin_spec 100 level) as (G1 & G2 & [Hm|Hm]);
    destruct (qmax_spec 0 (qmin 100 level)) as (G3 & G4 & [Hx|Hx]);
    rewrite Hx, ?Hm in *; lra.
Qed.

Lemma simulatedBlinkRate_range fires r :
  validDraws r = true → (15 <= simulatedBlinkRate fires r <= 21)%Q.
Proof.
  intros H%validDraws_all. unfold simulatedBlinkRate. destruct fires; [lra|].
  assert (Hm : (0 <= rd (rBaseline r * 6) <= 6)%Q).
  { apply rd_between; [double_const|double_const|lra]. }
  apply rd_between; [double_const|double_const|lra].
Qed.

(** The threshold is what [parseInt] reads from the value of the slider:
    the leading integer of a text, and [NaN] when there is none. *)
Example threshold_reads_the_leading_integer :
  threshold (withThreshold (DText "67.9") activeState) = Fin 67
  ∧ threshold (withThreshold (DInt 70) activeState) = Fin 70
  ∧ threshold (withThreshold (DText "high") activeState) = NaN.
Proof. vm_compute. split; [|split]; reflexivity. Qed.

(** X8: in every state of the page, a tick of the timer appends exactly one
    sample to the session.  The sample is stamped with the tick's time,
    its blink rate is from 15 to 21 (both included), its drowsiness
    level from 35 to 100, its battery level is the simulator's new
    level, between 5 and 100, and its alert flag is set exactly when the
    level is at or above the threshold that [parseInt] reads from the
    slider or the larger of the three absolute angles of its head
    movement is above 30. *)
Theorem tick_appends_a_plausible_sample
    (P : Platform) (now : Z) (nowMs : Q) (r : Draws) (statNow : Z) (s : State) :
  reachable P s → possible (TimerTick now nowMs r statNow) s = true →
  let s' := exec (simulatorTick now nowMs r statNow) s in
  ∃ d blink level head charge,
    sessionData s' = sessionData s ++ [d]
    ∧ complete d
    ∧ getProp d "timestamp" = Some (JDate (Some now))
    ∧ getProp d "eyeBlinkRate" = Some (JNum (Fin blink))
    ∧ (15 <= blink <= 21)%Q
    ∧ getProp d "drowsinessLevel" = Some (JNum (Fin level))
    ∧ (35 <= level <= 100)%Q
    ∧ getProp d "headMovement"
      = Some (JObj [("pitch", JNum (Fin (pitch head)));
                    ("roll", JNum (Fin (roll head)));
                    ("yaw", JNum (Fin (yaw head)))])
    ∧ getProp d "batteryLevel" = Some (JNum (Fin charge))
    ∧ charge = battery s'
    ∧ (5 <= charge <= 100)%Q
    ∧ getProp d "alertTriggered"
      = Some (JBool (jge (Fin level) (threshold s) || tiltExceeded head)).
Proof.
  intros Hr Hpos. cbv zeta.
  destruct (tick_result P now nowMs r statNow s Hr Hpos) as (Hv & Hd & Hst & Hb).
  eexists _, _, _, _, _. split; [exact Hd|].
  split; [eexists _, _, _, _, _, _, _, _; repeat split; reflexivity|].
  split; [reflexivity|]. split; [reflexivity|].
  split; [by apply simulatedBlinkRate_range|].
  split; [reflexivity|]. split; [by apply simulatedLevel_range|].
  split; [reflexivity|]. split; [reflexivity|].
  split; [by unfold battery; rewrite Hst|].
  split; [|reflexivity].
  unfold battery in Hb. by rewrite Hst in Hb.
Qed.

Lemma tick_appends_a_plausible_sample_witness :
  ∃ d level,
    sessionData (exec (simulatorTick 3000 4000 halfDraws 3001) activeState) = [d]
    ∧ getProp d "drowsinessLevel" = Some (JNum (Fin level))
    ∧ (35 <= level <= 100)%Q.
Proof.
  destruct (tick_appends_a_plausible_sample examplePlatform 3000 4000%Q halfDraws
              3001 activeState activeState_reachable)
    as (d & blink & level & head & charge & Hd & _ & _ & _ & _ & Hl & Hr & _).
  - reflexivity.
  - exists d, level. split; [exact Hd|]. split; [exact Hl|exact Hr].
Defined.

Lemma Qabs_noise q : noiseOnly q → (Qabs q <= 2)%Q.
Proof. intros [H1 H2]. apply Qabs_Qle_condition. lra. Qed.

Lemma noise_bounds u : (0 <= u < 1)%Q → noiseOnly (noiseOf u).
Proof.
  intros H. unfold noiseOnly, noiseOf.
  assert (Hh : (- (1 # 2) <= rd (u - 0.5) <= 1 # 2)%Q).
  { apply rd_between; [double_const|double_const|lra]. }
  apply rd_between; [double_const|double_const|lra].
Qed.

Lemma noise_alone n : noiseOnly n → noiseOnly (rd (0 + n)).
Proof.
  intros H. unfold noiseOnly in *.
  apply rd_between; [double_const|double_const|lra].
Qed.

(** X9: in every state of the page, each angle of the sample that a tick
    makes is the double nearest to the sum of the base deflection of its
    axis and a noise between -2 and 2; so while no spike is under way
    (after the tick the base deflection is zero) every angle is between
    -2 and 2 and the tilt limit of 30 is not exceeded: the sample's alert
    flag is then set exactly when the drowsiness level is at or above the
    threshold that [parseInt] reads from the slider. *)
Theorem tilt_is_exceeded_only_during_a_spike
    (P : Platform) (now : Z) (nowMs : Q) (r : Draws) (statNow : Z) (s : State) :
  reachable P s → possible (TimerTick now nowMs r statNow) s = true →
  let s' := exec (simulatorTick now nowMs r statNow) s in
  let base := baseTilt (simulatorState s') in
  ∃ d head level,
    sessionData s' = sessionData s ++ [d]
    ∧ getProp d "headMovement"
      = Some (JObj [("pitch", JNum (Fin (pitch head)));
                    ("roll", JNum (Fin (roll head)));
                    ("yaw", JNum (Fin (yaw head)))])
    ∧ getProp d "drowsinessLevel" = Some (JNum (Fin level))
    ∧ (∃ np nr ny,
         noiseOnly np ∧ noiseOnly nr ∧ noiseOnly ny
         ∧ pitch head = rd (pitch base + np)
         ∧ roll head = rd (roll base + nr)
         ∧ yaw head = rd (yaw base + ny))
    ∧ (base = zeroTilt →
         (noiseOnly (pitch head) ∧ noiseOnly (roll head)
          ∧ noiseOnly (yaw head))
         ∧ tiltExceeded head = false
         ∧ getProp d "alertTriggered"
           = Some (JBool (jge (Fin level) (threshold s)))).
Proof.
  intros Hr Hpos. cbv zeta.
  destruct (tick_result P now nowMs r statNow s Hr Hpos) as (Hv & Hd & Hst & _).
  pose proof (validDraws_all r Hv) as Hall.
  pose proof (noise_bounds (rPitch r) ltac:(tauto)) as N1.
  pose proof (noise_bounds (rRoll r) ltac:(tauto)) as N2.
  pose proof (noise_bounds (rYaw r) ltac:(tauto)) as N3.
  eexists _, _, _. split; [exact Hd|]. split; [reflexivity|].
  split; [reflexivity|]. rewrite Hst.
  change (baseTilt (nextSimulatorState nowMs r (simulatorState s)))
    with (baseTilt (afterTilt r (afterBlink nowMs (simulatorState s)))).
  set (st1 := afterTilt r (afterBlink nowMs (simulatorState s))).
  split.
  - exists (noiseOf (rPitch r)), (noiseOf (rRoll r)), (noiseOf (rYaw r)).
    split; [exact N1|]. split; [exact N2|]. split; [exact N3|].
    split; [reflexivity|]. split; reflexivity.
  - intros Hzero.
    pose proof (noise_alone _ N1) as A1.
    pose proof (noise_alone _ N2) as A2.
    pose proof (noise_alone _ N3) as A3.
    assert (Hex : tiltExceeded (observedTilt r st1) = false).
    { unfold tiltExceeded, observedTilt. rewrite Hzero.
      cbn [pitch roll yaw zeroTilt].
      apply Qltb_false.
      apply Qabs_noise in A1, A2, A3.
      set (a1 := Qabs (rd (0 + noiseOf (rPitch r)))) in *.
      set (a2 := Qabs (rd (0 + noiseOf (rRoll r)))) in *.
      set (a3 := Qabs (rd (0 + noiseOf (rYaw r)))) in *.
      destruct (qmax_spec a1 a2) as (_ & _ & [E1|E1]);
        destruct (qmax_spec (qmax a1 a2) a3) as (_ & _ & [E2|E2]);
        rewrite E2, ?E1; lra. }
    split.
    { unfold observedTilt. rewrite Hzero. cbn [pitch roll yaw zeroTilt].
      split; [exact A1|]. split; [exact A2|exact A3]. }
    split; [exact Hex|].
    cbn [simulatedSample getProp assoc String.eqb Ascii.eqb Bool.eqb].
    fold st1. rewrite Hex. by rewrite orb_false_r.
Qed.

Lemma tilt_is_exceeded_only_during_a_spike_witness :
  ∃ d level,
    sessionData (exec (simulatorTick 3000 4000 halfDraws 3001) activeState) = [d]
    ∧ getProp d "drowsinessLevel" = Some (JNum (Fin level))
    ∧ getProp d "alertTriggered"
      = Some (JBool (jge (Fin level) (threshold activeState))).
Proof.
  destruct (tilt_is_exceeded_only_during_a_spike examplePlatform 3000 4000%Q
              halfDraws 3001 activeState activeState_reachable)
    as (d & head & level & Hd & _ & Hl & _ & Hz).
  - reflexivity.
  - exists d, level. split; [exact Hd|]. split; [exact Hl|].
    apply Hz. vm_compute. reflexivity.
Defined.

(** ** The alert counter and the flagged samples *)

Lemma exec_bind_keeps {A B C : Type} (f : State → C) (m : M A) (k : A → M B) s :
  keeps f m →
  f (exec (m ≫= k) s) = f s
  ∨ ∃ a s1, f s1 = f s ∧ exec (m ≫= k) s = exec (k a) s1.
Proof.
  intros Hm. specialize (Hm s). unfold exec, mbind, M_bind in *.
  destruct (m s) as [[a|e] s1]; cbn [snd] in *; [right; eauto|by left].
Qed.

Lemma flaggedCount_snoc ds d :
  flaggedCount (ds ++ [d]) = flaggedCount ds + (if flagged d then 1 else 0).
Proof.
  unfold flaggedCount. rewrite List.filter_app, length_app. cbn [List.filter].
  destruct (flagged d); simpl; lia.
Qed.

Lemma flaggedCount_bounds ds : 0 ≤ flaggedCount ds ≤ Z.of_nat (length ds).
Proof.
  unfold flaggedCount. pose proof (List.filter_length_le flagged ds). lia.
Qed.

(** The detector, followed by anything that keeps the tally, adds at most
    one alert, and only for a flagged sample. *)
Lemma checkForAlerts_tally {B : Type} d (k : M B) s :
  keeps tally k →
  tally (exec (checkForAlerts d ≫= λ _, k) s) = tally s
  ∨ tally (exec (checkForAlerts d ≫= λ _, k) s)
    = (sessionData s, totalAlerts s + 1)
    ∧ flagged d = true.
Proof.
  intros Hk. unfold checkForAlerts, triggerAlert, flagged, fieldOf.
  destruct (getProp d "alertTriggered") as [flag|] eqn:Ef; mrun; [|by left].
  destruct (truthy flag) eqn:Et; mrun.
  - right. split; [|done].
    destruct (getProp d "drowsinessLevel") as [[| | |n| | | |]|]; mrun;
      try reflexivity.
    match goal with |- tally (k ?s0).2 = _ => exact (Hk s0) end.
  - left. match goal with |- tally (k ?s0).2 = _ => exact (Hk s0) end.
Qed.

Lemma processSensorData_tail_tally statNow d s1 :
  let tail := updateDashboardDisplays d ≫= λ _, updateChart d ≫= λ _,
              checkForAlerts d ≫= λ _, updateSessionStatistics statNow in
  tally (exec tail s1) = tally s1
  ∨ tally (exec tail s1) = (sessionData s1, totalAlerts s1 + 1)
    ∧ flagged d = true.
Proof.
  cbv zeta.
  destruct (exec_bind_keeps tally (updateDashboardDisplays d)
              (λ _, updateChart d ≫= λ _, checkForAlerts d ≫= λ _,
                    updateSessionStatistics statNow) s1)
    as [->|(a & s2 & H2 & ->)]; [solve_keeps|by left|].
  destruct (exec_bind_keeps tally (updateChart d)
              (λ _, checkForAlerts d ≫= λ _, updateSessionStatistics statNow) s2)
    as [->|(a' & s3 & H3 & ->)]; [solve_keeps|left; by rewrite H2|].
  assert (H31 : tally s3 = tally s1) by congruence.
  unfold tally in H31. injection H31 as Hd Ha.
  destruct (checkForAlerts_tally d (updateSessionStatistics statNow) s3)
    as [->|[-> Hf]]; [solve_keeps|left; unfold tally; by rewrite Hd, Ha|right].
  by rewrite Hd, Ha.
Qed.

Lemma processSensorData_tally statNow d s :
  let s' := exec (processSensorData statNow d) s in
  tally s' = tally s
  ∨ sessionData s' = sessionData s ++ [d]
    ∧ (totalAlerts s' = totalAlerts s
       ∨ totalAlerts s' = totalAlerts s + 1 ∧ flagged d = true).
Proof.
  cbv zeta. destruct (invalidSensorData d) eqn:E.
  { left. unfold exec. by rewrite processSensorData_rejects. }
  right. split; [by apply processSensorData_appends|].
  unfold processSensorData. rewrite E.
  rewrite exec_seq by solve_returns. cbv beta.
  destruct (processSensorData_tail_tally statNow d
              (exec (modify (λ s0, set_sessionData (sessionData s0 ++ [d]) s0)) s))
    as [H|[H Hf]]; unfold tally in H; injection H as _ H; [by left|right; done].
Qed.

Lemma reachable_tally P s :
  reachable P s → 0 ≤ totalAlerts s ≤ flaggedCount (sessionData s).
Proof.
  induction 1 as [page0 store|s e Hr IH Hpos]; [done|].
  assert (Hproc : ∀ statNow d s0, tally s0 = tally s →
            0 ≤ totalAlerts (exec (processSensorData statNow d) s0)
              ≤ flaggedCount (sessionData (exec (processSensorData statNow d) s0))).
  { intros statNow d s0 H0. unfold tally in H0. injection H0 as Hd Ha.
    destruct (processSensorData_tally statNow d s0) as [Hsame|[Hdata Hal]].
    - unfold tally in Hsame. injection Hsame as -> ->. by rewrite Hd, Ha.
    - rewrite Hdata, flaggedCount_snoc, Hd.
      destruct Hal as [->|[-> ->]]; rewrite Ha; destruct (flagged d); lia. }
  destruct e as [| |now perfNow|now|now nowMs r statNow|statNow d|v|v|f];
    cbn [handler]; try exact IH.
  - pose proof (onDOMContentLoaded_keeps_record P s) as K.
    unfold sessionRecord in K. injection K as _ _ K3 K4.
    fold (exec (onDOMContentLoaded P) s) in *. by rewrite K3, K4.
  - destruct (startSession_fields now perfNow s) as (_ & _ & -> & -> & _). done.
  - pose proof (stopSession_engine P now s) as K.
    unfold engine, simulatorPart in K.
    injection K as K1 K2 K3 K4 K5 K6 K7 K8 K9 K10 K11. by rewrite K4, K5.
  - unfold exec.
    destruct (simulatorTick_cases now nowMs r statNow s)
      as [[_ ->]|(_ & st & d & -> & _)]; [exact IH|].
    by apply (Hproc statNow d (set_simulatorState st s)).
  - destruct (onReceiveSensorData_cases P statNow d s)
      as [->|(_ & d' & ->)]; [exact IH|].
    by apply Hproc.
Qed.

(** X10: in every state of the page the alert counter is at least 0 and at most
    the number of recorded samples whose [alertTriggered] is truthy; so it
    never exceeds the number of recorded samples. *)
Theorem alerts_never_exceed_flagged_samples (P : Platform) (s : State) :
  reachable P s →
  0 ≤ totalAlerts s ≤ flaggedCount (sessionData s)
  ∧ totalAlerts s ≤ Z.of_nat (length (sessionData s)).
Proof.
  intros H%reachable_tally. pose proof (flaggedCount_bounds (sessionData s)). lia.
Qed.

Lemma alerts_never_exceed_flagged_samples_witness :
  0 ≤ totalAlerts twoSampleState ≤ 1.
Proof.
  exact (proj1 (alerts_never_exceed_flagged_samples examplePlatform
                  twoSampleState twoSampleState_reachable)).
Defined.

(** ** Sessions fed by the simulator alone *)

Lemma simulatedSample_wellFormed now nowMs r thr st :
  wellFormed (simulatedSample now nowMs r thr st).
Proof.
  split; [|split].
  - eexists _, _, _, _, _, _, _, _. repeat split; reflexivity.
  - eexists. reflexivity.
  - eexists. reflexivity.
Qed.

Lemma wellFormed_flagged d b :
  getProp d "alertTriggered" = Some (JBool b) → flagged d = b.
Proof. intros H. unfold flagged, fieldOf. by rewrite H. Qed.

Lemma processSensorData_fullyProcessed statNow d s s0 :
  fullyProcessed s → wellFormed d →
  drowsinessChart s0 = drowsinessChart s →
  tally s0 = tally s →
  fullyProcessed (exec (processSensorData statNow d) s0).
Proof.
  intros ([c Hc] & Hall & Hcount) Hd Hchart Htally.
  pose proof Hd as (Hcomplete & _ & flag & Hflag).
  unfold tally in Htally. injection Htally as Hdata Halerts.
  rewrite <- Hchart in Hc.
  destruct (processSensorData_complete statNow d flag c s0 Hcomplete Hflag Hc)
    as (_ & Hd' & Ha' & Hc' & _).
  split; [by rewrite Hc'|]. split.
  - rewrite Hd', Hdata. apply Forall_app. split; [done|by constructor].
  - rewrite Ha', Hd', flaggedCount_snoc, (wellFormed_flagged d flag Hflag).
    by rewrite Halerts, Hdata, Hcount.
Qed.

Lemma fullyProcessed_step P e s :
  fullyProcessed s → notHubMessage e = true →
  fullyProcessed (exec (handler P e) s).
Proof.
  intros Hs He. pose proof Hs as (Hchart & Hall & Hcount).
  destruct e as [| |now perfNow|now|now nowMs r statNow|statNow d|v|v|f];
    try done; cbn [handler]; try exact Hs.
  - pose proof (onDOMContentLoaded_keeps_record P s) as K.
    unfold sessionRecord in K. injection K as _ _ K3 K4.
    fold (exec (onDOMContentLoaded P) s) in *.
    split; [by rewrite onDOMContentLoaded_chart|]. by rewrite K3, K4.
  - destruct (startSession_fields now perfNow s)
      as (_ & _ & Hd & Ha & _ & _ & Hc & _).
    split; [|split].
    + rewrite Hc. destruct Hchart as [c ->]. by eexists.
    + rewrite Hd. constructor.
    + by rewrite Hd, Ha.
  - pose proof (stopSession_engine P now s) as K.
    unfold engine, simulatorPart in K.
    injection K as K1 K2 K3 K4 K5 K6 K7 K8 K9 K10 K11.
    split; [by rewrite K3|]. by rewrite K4, K5.
  - destruct (isSessionActive s) eqn:Hact.
    + rewrite exec_simulatorTick by done.
      by apply (processSensorData_fullyProcessed statNow _ s);
        [|apply simulatedSample_wellFormed| |].
    + unfold exec.
      destruct (simulatorTick_cases now nowMs r statNow s)
        as [[_ ->]|(Hact' & _)]; [exact Hs|congruence].
Qed.

Lemma fullyProcessed_run P es : ∀ s,
  fullyProcessed s → forallb notHubMessage es = true →
  fullyProcessed (run P es s).
Proof.
  induction es as [|e es IH]; intros s Hs Hes; [done|].
  cbn [forallb] in Hes. apply andb_prop in Hes as [He Hes].
  cbn [run]. apply IH; [|done]. by apply fullyProcessed_step.
Qed.

(** X11: from a state that has the chart, whose samples are all well formed and
    whose alert counter is the number of flagged samples (the page just
    loaded is one), whatever the user and the timer do, as long as no hub
    message arrives, the chart stays, every recorded sample is complete
    with a valid date and a boolean flag, and the alert counter is exactly
    the number of recorded samples that are flagged. *)
Theorem simulated_session_counts_every_flag
    (P : Platform) (es : list Event) (s : State) :
  fullyProcessed s → forallb notHubMessage es = true →
  is_Some (drowsinessChart (run P es s))
  ∧ Forall wellFormed (sessionData (run P es s))
  ∧ totalAlerts (run P es s) = flaggedCount (sessionData (run P es s)).
Proof. intros Hs Hes. by apply fullyProcessed_run. Qed.

Lemma simulated_session_counts_every_flag_witness :
  let s := run examplePlatform
             [ClickStart 1000 0; TimerTick 3000 2000 halfDraws 3000;
              TimerTick 5000 4000 spikeDraws 5000; ClickStop 6000]
             loadedState in
  totalAlerts s = flaggedCount (sessionData s).
Proof.
  refine (proj2 (proj2 (simulated_session_counts_every_flag examplePlatform
            [ClickStart 1000 0; TimerTick 3000 2000 halfDraws 3000;
             TimerTick 5000 4000 spikeDraws 5000; ClickStop 6000]
            loadedState _ _))).
  - split; [by eexists|]. split; [constructor|reflexivity].
  - reflexivity.
Defined.

(** ** The session clock *)

Lemma clock_parts (d : Z) :
  let h := d `div` 3600000 in
  let m := (d `rem` 3600000) `div` 60000 in
  let sec := (d `rem` 60000) `div` 1000 in
  (0 ≤ d →
     0 ≤ h ∧ 0 ≤ m < 60 ∧ 0 ≤ sec < 60
     ∧ h * 3600 + m * 60 + sec = d `div` 1000)
  ∧ (d < 0 → h < 0 ∧ -60 ≤ m ≤ 0 ∧ -60 ≤ sec ≤ 0).
Proof. cbv zeta. split; intros Hd; Z.to_euclidean_division_equations; lia. Qed.

(** X12: when the statistics are refreshed at [now] in a session started at
    [start] that has a sample, the duration shown is the one that
    [formatDuration] makes of [now - start].  When the clock has not gone
    back, its minutes and seconds are below 60 and the three parts add up
    to the whole seconds elapsed; when it has, the hours are negative and
    no part is positive. *)
Theorem session_clock_splits_the_elapsed_time (s : State) (start now : Z) :
  sessionStartTime s = Some start → sessionData s ≠ [] →
  ∃ h m sec,
    page (exec (updateSessionStatistics now) s) !! "sessionDuration.textContent"
    = Some (DClock h m sec)
    ∧ DClock h m sec = formatDuration (now - start)
    ∧ (start ≤ now →
         0 ≤ h ∧ 0 ≤ m < 60 ∧ 0 ≤ sec < 60
         ∧ h * 3600 + m * 60 + sec = (now - start) `div` 1000)
    ∧ (now < start → h < 0 ∧ -60 ≤ m ≤ 0 ∧ -60 ≤ sec ≤ 0).
Proof.
  intros Hstart Hdata. unfold updateSessionStatistics, spreadPeak. mrun.
  destruct (sessionData s) as [|d ds] eqn:E; [done|]. mrun.
  rewrite Hstart, ?E. cbn [default].
  eexists _, _, _. split; [|split; [reflexivity|]].
  - destruct (Z.of_nat (length (d :: ds)) <=? argumentLimit s); mrun.
    + do 2 (rewrite lookup_insert_ne by done). by rewrite lookup_insert_eq.
    + rewrite lookup_insert_ne by done. by rewrite lookup_insert_eq.
  - destruct (clock_parts (now - start)) as [Hpos Hneg].
    split; intros H; [apply Hpos|apply Hneg]; lia.
Qed.

Lemma session_clock_splits_the_elapsed_time_witness :
  ∃ h m sec,
    page (exec (updateSessionStatistics 3724000) twoSampleState)
      !! "sessionDuration.textContent"
    = Some (DClock h m sec)
    ∧ DClock h m sec = formatDuration (3724000 - 1000)
    ∧ (1000 ≤ 3724000 →
         0 ≤ h ∧ 0 ≤ m < 60 ∧ 0 ≤ sec < 60
         ∧ h * 3600 + m * 60 + sec = (3724000 - 1000) `div` 1000)
    ∧ (3724000 < 1000 → h < 0 ∧ -60 ≤ m ≤ 0 ∧ -60 ≤ sec ≤ 0).
Proof.
  apply (session_clock_splits_the_elapsed_time twoSampleState 1000 3724000).
  - reflexivity.
  - vm_compute. discriminate.
Defined.

(** ** The CSV export *)

Lemma csvRow_Some P d row :
  csvRow P d = Some row →
  length row = 8%nat ∧ isYesRow row = flagged d.
Proof.
  unfold csvRow. intros H.
  destruct (isoOf P d) as [stamp|]; [|done].
  destruct (toFixedOf 2 d "eyeBlinkRate") as [blink|]; [|done].
  destruct (toFixedOf 2 d "drowsinessLevel") as [level|]; [|done].
  destruct (getProp d "headMovement") as [head|]; [|done]. cbn in H.
  destruct (toFixedOf 2 head "pitch") as [p|]; [|done].
  destruct (toFixedOf 2 head "roll") as [r|]; [|done].
  destruct (toFixedOf 2 head "yaw") as [y|]; [|done]. cbn in H.
  unfold flagged, fieldOf.
  destruct (getProp d "alertTriggered") as [flag|]; [|done]. cbn in H.
  destruct (toFixedOf 1 d "batteryLevel") as [battery|]; [|done].
  injection H as <-. split; [done|].
  unfold isYesRow. cbn. by destruct (truthy flag).
Qed.

Lemma csvRow_wellFormed P d : wellFormed d → is_Some (csvRow P d).
Proof.
  intros ((t0 & blink & level & head & p & r & y & charge
           & _ & Hb & Hl & Hh & _ & Hp & Hr & Hy & Hc)
          & [t Ht] & [b Hflag]).
  unfold csvRow, isoOf, toFixedOf.
  rewrite Ht, Hb, Hl, Hh. cbn. rewrite Hp, Hr, Hy, Hflag, Hc. cbn. by eexists.
Qed.

Lemma yesRows_flagged ds rows :
  Forall2 (λ d row, isYesRow row = flagged d) ds rows →
  Z.of_nat (length (List.filter isYesRow rows)) = flaggedCount ds.
Proof.
  unfold flaggedCount. induction 1 as [|d row ds rows Hd _ IH]; [done|].
  cbn [List.filter]. rewrite Hd. destruct (flagged d); cbn [length]; lia.
Qed.

Lemma generateCSVContent_shape P s content :
  generateCSVContent P s = Some content →
  ∃ rows, content = csvHeaders :: rows
    ∧ Forall2 (λ d row, csvRow P d = Some row) (sessionData s) rows.
Proof.
  unfold generateCSVContent. intros H.
  destruct (mapM (csvRow P) (sessionData s)) as [rows|] eqn:E; [|done].
  injection H as <-. exists rows. split; [done|]. by apply mapM_Some.
Qed.

(** X13: whenever [generateCSVContent] returns, the text has the header and
    then one row for each recorded sample, in the order of the samples;
    every row has 8 cells, and its Alert Triggered cell says Yes exactly
    when the sample's [alertTriggered] is truthy. *)
Theorem csv_has_one_row_for_each_sample
    (P : Platform) (s : State) (content : list (list Cell)) :
  generateCSVContent P s = Some content →
  ∃ rows,
    content = csvHeaders :: rows
    ∧ length rows = length (sessionData s)
    ∧ Forall (λ row, length row = 8%nat) rows
    ∧ Forall2 (λ d row, isYesRow row = flagged d) (sessionData s) rows.
Proof.
  intros (rows & -> & Hrows)%generateCSVContent_shape.
  exists rows. split; [done|]. split; [symmetry; by eapply Forall2_length|].
  split.
  - induction Hrows as [|d row ds rows' Hd _ IH]; constructor; [|done].
    by destruct (csvRow_Some P d row Hd).
  - eapply Forall2_impl; [exact Hrows|].
    intros d row Hd. by destruct (csvRow_Some P d row Hd).
Qed.

Lemma csv_has_one_row_for_each_sample_witness :
  ∃ rows,
    [csvHeaders;
     [CText "1970-01-01T00:00:00.000Z"; CFixed 2 (Fin 18); CFixed 2 (Fin 80);
      CFixed 2 (Fin 1); CFixed 2 (Fin 2); CFixed 2 (Fin 3); CText "Yes";
      CFixed 1 (Fin 90)]]
    = csvHeaders :: rows
    ∧ length rows
      = length (sessionData (run examplePlatform [HubMessage 2000 datedMessage]
                                 activeState))
    ∧ Forall (λ row, length row = 8%nat) rows
    ∧ Forall2 (λ d row, isYesRow row = flagged d)
              (sessionData (run examplePlatform [HubMessage 2000 datedMessage]
                                activeState)) rows.
Proof.
  apply (csv_has_one_row_for_each_sample examplePlatform
           (run examplePlatform [HubMessage 2000 datedMessage] activeState)).
  vm_compute. reflexivity.
Defined.

(** X14: in a session whose samples all went through the whole of
    [processSensorData], as those of a session fed by the simulator alone
    do, [generateCSVContent] returns, and the number of rows that say Yes
    is the alert counter. *)
Theorem csv_of_a_processed_session_counts_the_alerts
    (P : Platform) (s : State) :
  fullyProcessed s →
  ∃ rows,
    generateCSVContent P s = Some (csvHeaders :: rows)
    ∧ length rows = length (sessionData s)
    ∧ Z.of_nat (length (List.filter isYesRow rows)) = totalAlerts s.
Proof.
  intros (_ & Hall & Hcount).
  assert (Hsome : is_Some (mapM (csvRow P) (sessionData s))).
  { apply mapM_is_Some. eapply Forall_impl; [exact Hall|].
    intros d Hd. by apply csvRow_wellFormed. }
  destruct Hsome as [rows Hrows]. exists rows.
  unfold generateCSVContent. rewrite Hrows. split; [done|].
  apply mapM_Some in Hrows. split; [symmetry; by eapply Forall2_length|].
  rewrite Hcount. apply yesRows_flagged.
  eapply Forall2_impl; [exact Hrows|].
  intros d row Hd. by destruct (csvRow_Some P d row Hd).
Qed.

Lemma csv_of_a_processed_session_counts_the_alerts_witness :
  ∃ rows,
    generateCSVContent examplePlatform
      (run examplePlatform simulatedEvents loadedState)
    = Some (csvHeaders :: rows)
    ∧ length rows
      = length (sessionData (run examplePlatform simulatedEvents loadedState))
    ∧ Z.of_nat (length (List.filter isYesRow rows))
      = totalAlerts (run examplePlatform simulatedEvents loadedState).
Proof.
  apply (csv_of_a_processed_session_counts_the_alerts examplePlatform
           (run examplePlatform simulatedEvents loadedState)).
  apply fullyProcessed_run; [|reflexivity].
  split; [by eexists|]. split; [constructor|reflexivity].
Defined.

(** ** A hub message without a readable date *)

Lemma assoc_assign_eq k x ps : assoc k (assign k x ps) = x.
Proof.
  induction ps as [|[k' v] ps IH]; cbn [assign assoc].
  - by rewrite String.eqb_refl.
  - destruct (String.eqb k k') eqn:E; cbn [assoc]; by rewrite E.
Qed.

Lemma assoc_assign_ne k k' x ps :
  k ≠ k' → assoc k' (assign k x ps) = assoc k' ps.
Proof.
  intros Hne.
  assert (Hk : String.eqb k' k = false) by by apply String.eqb_neq.
  induction ps as [|[k0 v] ps IH]; cbn [assign assoc]; [by rewrite Hk|].
  destruct (String.eqb k k0) eqn:E; cbn [assoc]; [|by rewrite IH].
  apply String.eqb_eq in E as <-. by rewrite Hk.
Qed.

(** What the hub handler hands to [processSensorData]: the message with
    its [timestamp] set. *)
Lemma onReceiveSensorData_stamps P statNow props stamp s :
  isSessionActive s = true →
  assoc "Timestamp" props = stamp →
  onReceiveSensorData P statNow (JObj props) s
  = processSensorData statNow
      (JObj (assign "timestamp" (JDate (newDate P stamp)) props)) s.
Proof. intros Hact <-. unfold onReceiveSensorData. mrun. by rewrite Hact. Qed.

Lemma stamped_accepted props x :
  accepted (JObj props) → accepted (JObj (assign "timestamp" x props)).
Proof.
  intros (props' & blink & level & [= <-] & Hh & Hb & Hl).
  eexists _, blink, level. split; [done|].
  by rewrite !assoc_assign_ne.
Qed.

(** An event other than a click on start leaves the recorded samples in
    place, adding one at most. *)
Lemma handler_appends P e s :
  notStart e = true →
  ∃ l, sessionData (exec (handler P e) s) = sessionData s ++ l.
Proof.
  intros He.
  assert (Hproc : ∀ statNow d s0, sessionData s0 = sessionData s →
            ∃ l, sessionData (exec (processSensorData statNow d) s0)
                 = sessionData s ++ l).
  { intros statNow d s0 H0.
    destruct (processSensorData_tally statNow d s0) as [Hsame|[Hdata _]].
    - unfold tally in Hsame. injection Hsame as -> _. exists []. by rewrite app_nil_r.
    - exists [d]. by rewrite Hdata, H0. }
  assert (Hsame : ∀ s', sessionData s' = sessionData s →
            ∃ l, sessionData s' = sessionData s ++ l).
  { intros s' ->. exists []. by rewrite app_nil_r. }
  destruct e as [| |now perfNow|now|now nowMs r statNow|statNow d|v|v|f];
    try done; cbn [handler]; try (by apply Hsame).
  - apply Hsame. pose proof (onDOMContentLoaded_keeps_record P s) as K.
    unfold sessionRecord in K. by injection K as _ _ K3 K4.
  - apply Hsame. pose proof (stopSession_engine P now s) as K.
    unfold engine, simulatorPart in K.
    by injection K as K1 K2 K3 K4 K5 K6 K7 K8 K9 K10 K11.
  - unfold exec.
    destruct (simulatorTick_cases now nowMs r statNow s)
      as [[_ ->]|(_ & st & d & -> & _)]; [by apply Hsame|].
    by apply (Hproc statNow d (set_simulatorState st s)).
  - destruct (onReceiveSensorData_cases P statNow d s)
      as [->|(_ & d' & ->)]; [by apply Hsame|].
    by apply Hproc.
Qed.

Lemma run_appends P es : ∀ s,
  forallb notStart es = true →
  ∃ l, sessionData (run P es s) = sessionData s ++ l.
Proof.
  induction es as [|e es IH]; intros s Hes.
  { exists []. by rewrite app_nil_r. }
  cbn [forallb] in Hes. apply andb_prop in Hes as [He Hes]. cbn [run].
  destruct (IH (exec (handler P e) s) Hes) as [l2 ->].
  destruct (handler_appends P e s He) as [l1 ->].
  exists (l1 ++ l2). by rewrite app_assoc.
Qed.

Lemma generateCSVContent_invalid_date P s d :
  d ∈ sessionData s → getProp d "timestamp" = Some (JDate None) →
  generateCSVContent P s = None.
Proof.
  intros Hin Hd. unfold generateCSVContent.
  destruct (mapM (csvRow P) (sessionData s)) as [rows|] eqn:E; [|done].
  assert (Hsome : is_Some (mapM (csvRow P) (sessionData s))) by by eexists.
  rewrite mapM_is_Some, Forall_forall in Hsome.
  destruct (Hsome d Hin) as [row Hrow]. cbn in Hrow.
  unfold csvRow, isoOf in Hrow. by rewrite Hd in Hrow.
Qed.

(** X15: when the hub sends, in an active session, a message that passes the
    guard of [processSensorData] and whose [Timestamp] the platform
    cannot read as a date, the message is recorded with an invalid date
    for its [timestamp]; [generateCSVContent] then throws, and goes on
    throwing whatever happens until a new session is started. *)
Theorem undated_hub_message_breaks_the_csv
    (P : Platform) (statNow : Z) (d stamp : JsVal) (s : State) (es : list Event) :
  isSessionActive s = true → accepted d →
  getProp d "Timestamp" = Some stamp → newDate P stamp = None →
  forallb notStart es = true →
  let s' := exec (onReceiveSensorData P statNow d) s in
  (∃ d', sessionData s' = sessionData s ++ [d']
         ∧ getProp d' "timestamp" = Some (JDate None))
  ∧ generateCSVContent P (run P es s') = None.
Proof.
  intros Hact Hacc Hstamp Hdate Hes. cbv zeta.
  pose proof Hacc as (props & _ & _ & -> & _).
  cbn [getProp] in Hstamp. injection Hstamp as Hstamp.
  unfold exec at 1 2. rewrite (onReceiveSensorData_stamps P statNow props stamp) by done.
  rewrite Hdate.
  set (d' := JObj (assign "timestamp" (JDate None) props)).
  assert (Hd' : getProp d' "timestamp" = Some (JDate None)).
  { unfold d'. cbn [getProp]. by rewrite assoc_assign_eq. }
  assert (Hdata : sessionData (exec (processSensorData statNow d') s)
                  = sessionData s ++ [d']).
  { apply processSensorData_appends.
    apply not_true_is_false. intros Hinv.
    assert (Hok : accepted d') by by apply stamped_accepted.
    apply invalidSensorData_false in Hok. congruence. }
  split; [by exists d'|].
  destruct (run_appends P es (exec (processSensorData statNow d') s) Hes)
    as [l Hl].
  apply (generateCSVContent_invalid_date P _ d'); [|done].
  fold (exec (processSensorData statNow d') s).
  rewrite Hl, Hdata. set_solver.
Qed.

Lemma undated_hub_message_breaks_the_csv_witness :
  generateCSVContent examplePlatform
    (run examplePlatform [TimerTick 3000 2000 halfDraws 3000; ClickStop 6000]
       (exec (onReceiveSensorData examplePlatform 2000 undatedMessage)
             activeState))
  = None.
Proof.
  refine (proj2 (undated_hub_message_breaks_the_csv examplePlatform 2000
            undatedMessage (JStr "soon") activeState
            [TimerTick 3000 2000 halfDraws 3000; ClickStop 6000] _ _ _ _ _)).
  - reflexivity.
  - eexists _, _, _. repeat split; reflexivity.
  - reflexivity.
  - reflexivity.
  - reflexivity.
Defined.

(** ** The export and preview buttons *)

(** Descend through a computation that writes to other page properties
    than the one looked up. *)
Ltac keeps_dom_step :=
  match goal with
  | |- preserves _ (setDom _ _) =>
      intros ?; unfold domAt, setDom, modify; cbn [snd page set_page];
      by rewrite lookup_insert_ne
  | _ => preserves_step
  end.

Ltac solve_keeps_dom := unfold keeps; unfold_script; repeat keeps_dom_step.

Lemma updateExportButtons_sets s :
  exportButtons (exec updateExportButtons s)
  = (Some (DFlag (Nat.eqb (length (sessionData s)) 0)),
     Some (DFlag (Nat.eqb (length (sessionData s)) 0
                  || match exportFormat s with
                     | JStr f => String.eqb f "pdf"
                     | _ => false
                     end)))
  ∧ sessionData (exec updateExportButtons s) = sessionData s
  ∧ exportFormat (exec updateExportButtons s) = exportFormat s.
Proof.
  unfold exportButtons, exportFormat, domAt, updateExportButtons. mrun.
  rewrite negb_involutive.
  rewrite lookup_insert_ne by done. rewrite !lookup_insert_eq.
  do 2 (rewrite lookup_insert_ne by done).
  split; [|done]. do 3 f_equal.
  by destruct (page s !! "exportFormat.value") as [[]|].
Qed.

(** X16: just after [updateExportButtons] the two buttons agree with the guards
    of their handlers: the export button is disabled exactly when
    [exportSessionData] would answer with the no-data alert, and the
    preview button exactly when [previewSessionData] would answer with an
    alert, for want of data or because the format is pdf. *)
Theorem fresh_export_buttons_match_the_guards (s : State) :
  let s' := exec updateExportButtons s in
  (domAt "exportBtn.disabled" s' = Some (DFlag true)
   ↔ exportSessionData s' = ExportNoData)
  ∧ (domAt "previewBtn.disabled" s' = Some (DFlag true)
     ↔ previewSessionData s' = PreviewNoData
       ∨ previewSessionData s' = PreviewPdfAlert).
Proof.
  cbv zeta. destruct (updateExportButtons_sets s) as (Hb & Hd & Hf).
  unfold exportButtons in Hb. injection Hb as -> ->.
  unfold exportSessionData, previewSessionData. rewrite Hd, Hf.
  destruct (Nat.eqb (length (sessionData s)) 0); cbn [orb].
  { split; split; auto. }
  split.
  - split; [done|]. destruct (exportFormat s) as [| | | |f| | |]; try done.
    by repeat case_match.
  - destruct (exportFormat s) as [| | | |f| | |];
      try (split; [done|intros [|]; done]).
    destruct (String.eqb f "pdf") eqn:Epdf.
    + apply String.eqb_eq in Epdf as ->. split; [by right|done].
    + split; [done|]. intros [|]; by repeat case_match.
Qed.

Lemma processSensorData_keeps_dom key statNow d :
  key ≠ "blinkRate.textContent" → key ≠ "blinkRateBar.style.width" →
  key ≠ "drowsinessLevel.textContent" → key ≠ "drowsinessBar.style.width" →
  key ≠ "pitchValue.textContent" → key ≠ "rollValue.textContent" →
  key ≠ "yawValue.textContent" → key ≠ "batteryLevel.textContent" →
  key ≠ "batteryBar.style.width" → key ≠ "lastDataTime.textContent" →
  key ≠ "totalAlerts.textContent" → key ≠ "alertStatus.innerHTML" →
  key ≠ "sessionDuration.textContent" → key ≠ "avgBlinkRate.textContent" →
  key ≠ "peakDrowsiness.textContent" →
  keeps (domAt key) (processSensorData statNow d).
Proof. intros. solve_keeps_dom. Qed.

Lemma handler_keeps_button P e key :
  refreshesButtons e = false →
  key = "exportBtn.disabled" ∨ key = "previewBtn.disabled" →
  keeps (domAt key) (handler P e).
Proof.
  intros He Hkey.
  assert (Hproc : ∀ statNow d, keeps (domAt key) (processSensorData statNow d)).
  { intros statNow d.
    destruct Hkey as [-> | ->]; by apply processSensorData_keeps_dom. }
  destruct e as [| |now perfNow|now|now nowMs r statNow|statNow d|v|v|f];
    try done; cbn [handler].
  - destruct Hkey as [-> | ->]; solve_keeps_dom.
  - destruct Hkey as [-> | ->]; solve_keeps_dom.
  - intros s. cbv beta.
    destruct (simulatorTick_cases now nowMs r statNow s)
      as [[_ ->]|(_ & st & d & -> & _)]; [done|].
    apply (Hproc statNow d (set_simulatorState st s)).
  - intros s. cbv beta. fold (exec (onReceiveSensorData P statNow d) s).
    destruct (onReceiveSensorData_cases P statNow d s)
      as [->|(_ & d' & ->)]; [done|].
    apply (Hproc statNow d' s).
  - destruct Hkey as [-> | ->]; solve_keeps_dom.
  - destruct Hkey as [-> | ->]; solve_keeps_dom.
Qed.

Lemma run_keeps_buttons P es : ∀ s,
  forallb (λ e, negb (refreshesButtons e)) es = true →
  exportButtons (run P es s) = exportButtons s.
Proof.
  induction es as [|e es IH]; intros s Hes; [done|].
  cbn [forallb] in Hes. apply andb_prop in Hes as [He%negb_true_iff Hes].
  cbn [run]. rewrite IH by done. unfold exportButtons.
  rewrite (keeps_exec (domAt "exportBtn.disabled") (handler P e) s)
    by (apply handler_keeps_button; auto).
  rewrite (keeps_exec (domAt "previewBtn.disabled") (handler P e) s)
    by (apply handler_keeps_button; auto).
  reflexivity.
Qed.

Lemma startSession_buttons now perfNow s :
  exportButtons (exec (startSession now perfNow) s)
  = (Some (DFlag true), Some (DFlag true)).
Proof.
  unfold startSession. split_seq.
  match goal with
  | |- exportButtons (exec updateExportButtons ?s0) = _ =>
      destruct (updateExportButtons_sets s0) as [-> _]
  end.
  peel sessionData. reflexivity.
Qed.

Lemma stopSession_buttons P now s :
  exportButtons (exec (stopSession P now) s)
  = (Some (DFlag (Nat.eqb (length (sessionData s)) 0)),
     Some (DFlag (Nat.eqb (length (sessionData s)) 0
                  || match exportFormat s with
                     | JStr f => String.eqb f "pdf"
                     | _ => false
                     end))).
Proof.
  unfold stopSession. split_seq. unfold exportButtons.
  rewrite (exec_bind_last (domAt "exportBtn.disabled"))
    by (intros; solve_keeps_dom).
  rewrite (exec_bind_last (domAt "previewBtn.disabled"))
    by (intros; solve_keeps_dom).
  do 2 (rewrite (keeps_exec (domAt "exportBtn.disabled")) by solve_keeps_dom).
  do 2 (rewrite (keeps_exec (domAt "previewBtn.disabled")) by solve_keeps_dom).
  unfold updateSessionControls. split_seq.
  match goal with
  | |- (domAt _ (exec updateExportButtons ?s0), _) = _ =>
      fold (exportButtons (exec updateExportButtons s0));
      destruct (updateExportButtons_sets s0) as [-> _]
  end.
  peel sessionData. unfold exportFormat.
  repeat match goal with
         | |- context [page ?s0 !! "exportFormat.value"] =>
             change (page s0 !! "exportFormat.value")
               with (domAt "exportFormat.value" s0)
         end.
  do 4 (rewrite (keeps_exec (domAt "exportFormat.value")) by solve_keeps_dom).
  reflexivity.
Qed.

(** X17: the export and preview buttons are refreshed on start, on stop and
    when the format is changed, and by nothing else: ingesting a sample
    does not touch them.  So from a start on, whatever else happens, both
    buttons stay disabled until the stop, whatever has been recorded; the
    stop then enables the export button exactly when there is a sample. *)
Theorem export_buttons_wait_for_the_stop
    (P : Platform) (now stop : Z) (perfNow : Q) (es : list Event) (s : State) :
  forallb (λ e, negb (refreshesButtons e)) es = true →
  let s1 := run P es (exec (startSession now perfNow) s) in
  exportButtons s1 = (Some (DFlag true), Some (DFlag true))
  ∧ domAt "exportBtn.disabled" (exec (stopSession P stop) s1)
    = Some (DFlag (Nat.eqb (length (sessionData s1)) 0)).
Proof.
  intros Hes. cbv zeta. split.
  - by rewrite run_keeps_buttons, startSession_buttons.
  - pose proof (stopSession_buttons P stop
                  (run P es (exec (startSession now perfNow) s))) as H.
    unfold exportButtons in H. by injection H as -> _.
Qed.

Lemma export_buttons_wait_for_the_stop_witness :
  let s1 := run examplePlatform
              [TimerTick 3000 2000 halfDraws 3000; InputThreshold (DInt 60);
               HubMessage 4000 datedMessage]
              (exec (startSession 1000 0) loadedState) in
  exportButtons s1 = (Some (DFlag true), Some (DFlag true))
  ∧ domAt "exportBtn.disabled" (exec (stopSession examplePlatform 6000) s1)
    = Some (DFlag (Nat.eqb (length (sessionData s1)) 0)).
Proof.
  exact (export_buttons_wait_for_the_stop examplePlatform 1000 6000 0
           [TimerTick 3000 2000 halfDraws 3000; InputThreshold (DInt 60);
            HubMessage 4000 datedMessage] loadedState eq_refl).
Defined.

(** ** Rendering the history *)

Lemma bind_seq {B : Type} (m : M unit) (k : unit → M B) s :
  returns m → (m ≫= k) s = k tt (exec m s).
Proof.
  intros Hm. unfold exec, mbind, M_bind. destruct (Hm s) as [a Ha].
  destruct (m s) as [[[]|e] s1]; done.
Qed.

Lemma renderRecentSessions_result s :
  renderRecentSessions s
  = if forallb renderable (recentSessions s)
    then (Ok tt,
          set_page (<["sessionHistory.innerHTML" :=
                       match recentSessions s with
                       | [] => DText "No previous sessions found"
                       | _ :: _ => DRows (recentSessions s)
                       end]> (page s)) s)
    else (Throw TypeError, s).
Proof.
  unfold renderRecentSessions. mrun.
  destruct (recentSessions s) as [|e l]; [reflexivity|].
  cbn [forallb]. by destruct (renderable e && forallb renderable l).
Qed.




Lemma stopSession_isSessionActive P now s :
  isSessionActive (exec (stopSession P now) s) = false.
Proof.
  unfold stopSession. split_seq.
  rewrite (exec_bind_last isSessionActive) by (intros; solve_keeps).
  peel isSessionActive. reflexivity.
Qed.

(** Within the argument limit the save returns. *)
Lemma saveRecentSession_fits P now s :
  Z.of_nat (length (sessionData s)) ≤ argumentLimit s →
  saveRecentSession P now s = (Ok tt, exec (saveRecentSession P now) s).
Proof.
  intros H.
  assert (Ho : outcome (saveRecentSession P now) s = Ok tt).
  { unfold saveRecentSession, spreadPeak, setItem. mrun.
    destruct (sessionStartTime s); [|done].
    destruct (sessionData s) as [|d ds] eqn:Ed; [done|]. mrun. rewrite ?Ed.
    destruct (Z.leb_spec (Z.of_nat (length (d :: ds))) (argumentLimit s));
      [|lia].
    mrun. by destruct (writable (localStorage s)). }
  unfold outcome, exec in *.
  destruct (saveRecentSession P now s) as [o s1]. cbn [fst snd] in *. by subst.
Qed.

(** Within the argument limit the statements of [stopSession] before the
    rendering return, and leave the history that the rendering reads. *)
Lemma stopSession_renders P now s :
  Z.of_nat (length (sessionData s)) ≤ argumentLimit s →
  ∃ s5,
    stopSession P now s = renderRecentSessions s5
    ∧ recentSessions s5 = historyAfterStop P now s.
Proof.
  intros Hfit. unfold stopSession.
  do 4 (rewrite bind_seq by solve_returns; cbv beta).
  match goal with
  | |- ∃ _, (saveRecentSession P now ≫= _) ?s4 = _ ∧ _ =>
      pose proof (saveRecentSession_fits P now s4) as K;
      pose proof (saveRecentSession_exec P now s4) as L
  end.
  revert K. peel sessionData. peel argumentLimit. intros K.
  rewrite (bind_ok _ _ _ _ _ (K Hfit)). cbv beta.
  eexists. split; [reflexivity|]. rewrite L.
  destruct s as [act [start|] ch alerts [|d data] [id|] sim hist pg
                 [sl rd [|]] ints next lim];
    reflexivity.
Qed.



(** X19: an entry of the history that cannot be rendered, as a [null] read
    from the storage is, makes a stop throw a TypeError as long as it is
    among the entries kept (at an index below 9, or at any index when the
    stop records nothing) and the session has no more samples than the
    engine takes as the arguments of a call.  The throw comes last: the
    session is stopped and the history updated all the same. *)
Theorem unrenderable_entry_makes_stop_throw
    (P : Platform) (now : Z) (s : State) (i : nat) (e : JsVal) :
  recentSessions s !! i = Some e → renderable e = false →
  (i < 9)%nat ∨ sessionData s = [] →
  Z.of_nat (length (sessionData s)) ≤ argumentLimit s →
  outcome (stopSession P now) s = Throw TypeError
  ∧ isSessionActive (exec (stopSession P now) s) = false
  ∧ recentSessions (exec (stopSession P now) s) = historyAfterStop P now s.
Proof.
  intros Hi He Hkept Hfit.
  assert (Hin : e ∈ historyAfterStop P now s).
  { unfold historyAfterStop. destruct (sessionStartTime s) as [start|].
    2: { by eapply list_elem_of_lookup_2. }
    destruct (recordsAtStop s) eqn:Hrec.
    2: { by eapply list_elem_of_lookup_2. }
    destruct Hkept as [Hlt|Hnil].
    2: { unfold recordsAtStop in Hrec. rewrite Hnil in Hrec.
         by destruct (sessionStartTime s). }
    apply (list_elem_of_lookup_2 _ (S i)).
    rewrite lookup_take_lt by lia. done. }
  assert (Hall : forallb renderable (historyAfterStop P now s) = false).
  { apply not_true_is_false. intros Hall.
    rewrite forallb_forall in Hall.
    apply list_elem_of_In in Hin. apply Hall in Hin. congruence. }
  split; [|split; [apply stopSession_isSessionActive|apply stopSession_history]].
  destruct (stopSession_renders P now s Hfit) as (s5 & E & H5).
  unfold outcome. by rewrite E, renderRecentSessions_result, H5, Hall.
Qed.

Lemma unrenderable_entry_makes_stop_throw_witness :
  outcome (stopSession examplePlatform 6000)
    (run examplePlatform [DOMContentLoaded; ClickStart 1000 0]
       (initialState ∅ (mkStorage (Some "[null]") true true) exampleLimit))
  = Throw TypeError.
Proof.
  refine (proj1 (unrenderable_entry_makes_stop_throw examplePlatform 6000
            (run examplePlatform [DOMContentLoaded; ClickStart 1000 0]
               (initialState ∅ (mkStorage (Some "[null]") true true) exampleLimit))
            0 JNull _ _ _ _)).
  - reflexivity.
  - reflexivity.
  - left. lia.
  - vm_compute. discriminate.
Defined.

(** ** The history across a reload *)

Lemma onDOMContentLoaded_history P s items :
  wellFormedSlot P (localStorage s) items →
  recentSessions (exec (onDOMContentLoaded P) s) = items.
Proof.
  intros Hl. unfold onDOMContentLoaded. split_seq. peel recentSessions.
  match goal with
  | |- recentSessions (exec (loadRecentSessions P) ?s3) = _ =>
      destruct (loadRecentSessions_result P s3) as (items' & E & Hwf & _);
      change (localStorage s3) with (localStorage s) in Hwf
  end.
  unfold exec at 1. rewrite E. cbn [snd recentSessions set_recentSessions].
  destruct (Hwf (ex_intro _ items Hl)) as (_ & raw & Hs & _ & Hp).
  destruct Hl as (_ & raw' & Hs' & _ & Hp'). congruence.
Qed.

(** X20: when a stop records a session (one that was started, has a sample
    and no more samples than the engine takes as the arguments of a call)
    and the storage can be written and read, the history that a reload of
    the page finds is the one that the stop left in memory, on a platform
    whose [JSON.parse] reads back what its [JSON.stringify] wrote of it.
    When the storage cannot be written, the stop leaves it as it was: the
    new entry is in memory only. *)
Theorem recorded_history_survives_a_reload
    (P : Platform) (now start : Z) (s : State) (page0 : gmap string DomVal)
    (limit : Z) :
  sessionStartTime s = Some start → sessionData s ≠ [] →
  Z.of_nat (length (sessionData s)) ≤ argumentLimit s →
  let s1 := exec (stopSession P now) s in
  (writable (localStorage s) = true → readable (localStorage s) = true →
   JSON_stringify P (JArr (recentSessions s1)) ≠ "" →
   JSON_parse P (JSON_stringify P (JArr (recentSessions s1)))
   = Some (JArr (recentSessions s1)) →
   recentSessions
     (run P [DOMContentLoaded] (initialState page0 (localStorage s1) limit))
   = recentSessions s1)
  ∧ (writable (localStorage s) = false → localStorage s1 = localStorage s).
Proof.
  intros Hstart Hdata Hfit. cbv zeta.
  destruct (stopSession_history P now s) as [Hh Hst].
  rewrite Hh, Hst. unfold storageAfterStop.
  assert (Hrec : recordsAtStop s = true).
  { unfold recordsAtStop. rewrite Hstart.
    destruct (sessionData s) as [|d ds] eqn:Ed; [done|].
    by apply Z.leb_le. }
  rewrite Hrec. cbn [andb].
  split.
  - intros -> Hread Hne Hparse. cbn [run handler].
    apply onDOMContentLoaded_history.
    split; [done|]. by eexists.
  - by intros ->.
Qed.

Lemma recorded_history_survives_a_reload_witness :
  let s := run examplePlatform [HubMessage 2000 datedMessage] activeState in
  let s1 := exec (stopSession (onePlatform oneEntry) 6000) s in
  recentSessions
    (run (onePlatform oneEntry) [DOMContentLoaded]
         (initialState ∅ (localStorage s1) exampleLimit))
  = recentSessions s1.
Proof.
  cbv zeta.
  refine (proj1 (recorded_history_survives_a_reload (onePlatform oneEntry)
            6000 1000
            (run examplePlatform [HubMessage 2000 datedMessage] activeState)
            ∅ exampleLimit _ _ _) _ _ _ _).
  - reflexivity.
  - vm_compute. discriminate.
  - vm_compute. discriminate.
  - reflexivity.
  - reflexivity.
  - discriminate.
  - vm_compute. reflexivity.
Defined.

(** ** The chart and the session *)

Lemma lastN_length {A : Type} (n : nat) (l : list A) :
  (length (lastN n l) ≤ n)%nat ∧ length (lastN n l) = (length l `min` n)%nat.
Proof. unfold lastN. rewrite length_drop. lia. Qed.

Lemma chartMirrors_windowOk s c :
  drowsinessChart s = Some c →
  labels c = lastN 20 (map stampOf (sessionData s)) →
  dataset0 c = lastN 20 (map (fieldOf "drowsinessLevel") (sessionData s)) →
  dataset1 c = lastN 20 (map (fieldOf "eyeBlinkRate") (sessionData s)) →
  windowOk c.
Proof.
  intros _ Hl H0 H1. unfold windowOk. rewrite Hl, H0, H1.
  pose proof (lastN_length 20 (map stampOf (sessionData s))) as [? E1].
  pose proof (lastN_length 20 (map (fieldOf "drowsinessLevel") (sessionData s)))
    as [_ E2].
  pose proof (lastN_length 20 (map (fieldOf "eyeBlinkRate") (sessionData s)))
    as [_ E3].
  rewrite length_map in *. lia.
Qed.

Lemma processSensorData_chartMirrors statNow d s s0 :
  chartMirrors s → wellFormed d →
  drowsinessChart s0 = drowsinessChart s → sessionData s0 = sessionData s →
  chartMirrors (exec (processSensorData statNow d) s0).
Proof.
  intros (c & Hc & Hl & H0 & H1) Hd Hchart Hdata.
  pose proof (chartMirrors_windowOk s c Hc Hl H0 H1) as Hok.
  pose proof Hd as (Hcomplete & _ & flag & Hflag).
  rewrite <- Hchart in Hc.
  destruct (processSensorData_complete statNow d flag c s0 Hcomplete Hflag Hc)
    as (_ & Hd' & _ & Hc' & _).
  destruct (pushPoint_window (stampOf d) (fieldOf "drowsinessLevel" d)
              (fieldOf "eyeBlinkRate" d) c Hok) as (_ & Hl' & H0' & H1').
  eexists. split; [exact Hc'|].
  rewrite Hl', H0', H1', Hd', Hdata, Hl, H0, H1, !lastN_app_lastN, !map_app.
  done.
Qed.

Lemma chartMirrors_step P e s :
  chartMirrors s → localEvent e = true → chartMirrors (exec (handler P e) s).
Proof.
  intros Hs He. pose proof Hs as (c & Hc & Hl & H0 & H1).
  destruct e as [| |now perfNow|now|now nowMs r statNow|statNow d|v|v|f];
    try done; cbn [handler]; try exact Hs.
  - destruct (startSession_fields now perfNow s)
      as (_ & _ & Hd & _ & _ & _ & Hc' & _).
    eexists. split; [by rewrite Hc', Hc|]. by rewrite Hd.
  - pose proof (stopSession_engine P now s) as K.
    unfold engine, simulatorPart in K.
    injection K as K1 K2 K3 K4 K5 K6 K7 K8 K9 K10 K11.
    exists c. by rewrite K3, K5.
  - destruct (isSessionActive s) eqn:Hact.
    + rewrite exec_simulatorTick by done.
      by apply (processSensorData_chartMirrors statNow _ s);
        [|apply simulatedSample_wellFormed| |].
    + unfold exec.
      destruct (simulatorTick_cases now nowMs r statNow s)
        as [[_ ->]|(Hact' & _)]; [exact Hs|congruence].
Qed.

Lemma chartMirrors_run P es : ∀ s,
  chartMirrors s → forallb localEvent es = true → chartMirrors (run P es s).
Proof.
  induction es as [|e es IH]; intros s Hs Hes; [done|].
  cbn [forallb] in Hes. apply andb_prop in Hes as [He Hes].
  cbn [run]. apply IH; [|done]. by apply chartMirrors_step.
Qed.

Lemma startSession_chartMirrors now perfNow s :
  is_Some (drowsinessChart s) → chartMirrors (exec (startSession now perfNow) s).
Proof.
  intros [c Hc].
  destruct (startSession_fields now perfNow s)
    as (_ & _ & Hd & _ & _ & _ & Hc' & _).
  exists (mkChart [] [] []). split; [by rewrite Hc', Hc|].
  by rewrite Hd.
Qed.

(** X21: when the chart exists, from a start on, whatever the user and the
    timer do, as long as the page is not loaded again and no hub message
    arrives, the chart holds the last 20 recorded samples: its time
    labels, its drowsiness levels and its blink rates are those of the
    last 20 samples of the session, oldest first. *)
Theorem chart_shows_the_last_samples
    (P : Platform) (now : Z) (perfNow : Q) (es : list Event) (s : State) :
  is_Some (drowsinessChart s) → forallb localEvent es = true →
  chartMirrors (run P es (exec (startSession now perfNow) s)).
Proof.
  intros Hc Hes. apply chartMirrors_run; [|done].
  by apply startSession_chartMirrors.
Qed.

Lemma chart_shows_the_last_samples_witness :
  chartMirrors
    (run examplePlatform
       [TimerTick 3000 2000 halfDraws 3000;
        TimerTick 5000 4000 spikeDraws 5000; ClickStop 6000]
       (exec (startSession 1000 0) loadedState)).
Proof.
  exact (chart_shows_the_last_samples examplePlatform 1000 0
           [TimerTick 3000 2000 halfDraws 3000;
            TimerTick 5000 4000 spikeDraws 5000; ClickStop 6000]
           loadedState (ex_intro _ (mkChart [] [] []) eq_refl) eq_refl).
Defined.

(** ** The session controls *)

Ltac peel_dom key :=
  repeat (rewrite (keeps_exec (domAt key)) by solve_keeps_dom).

Lemma updateSessionControls_sets isActive s :
  domAt "startSessionBtn.disabled" (exec (updateSessionControls isActive) s)
  = Some (DFlag isActive)
  ∧ domAt "stopSessionBtn.disabled" (exec (updateSessionControls isActive) s)
    = Some (DFlag (negb isActive)).
Proof.
  unfold updateSessionControls. split_seq. split.
  - peel_dom "startSessionBtn.disabled". unfold domAt. mrun.
    by rewrite lookup_insert_eq.
  - peel_dom "stopSessionBtn.disabled". unfold domAt. mrun.
    by rewrite lookup_insert_eq.
Qed.

Lemma startSession_controls now perfNow s :
  controlsInSync (exec (startSession now perfNow) s).
Proof.
  destruct (startSession_fields now perfNow s) as (Hact & _).
  unfold controlsInSync. rewrite Hact.
  unfold startSession. split_seq. split.
  - peel_dom "startSessionBtn.disabled". apply updateSessionControls_sets.
  - peel_dom "stopSessionBtn.disabled". apply updateSessionControls_sets.
Qed.

Lemma stopSession_controls P now s :
  controlsInSync (exec (stopSession P now) s).
Proof.
  unfold controlsInSync. rewrite stopSession_isSessionActive.
  unfold stopSession. split_seq. split.
  - peel_dom "startSessionBtn.disabled". apply updateSessionControls_sets.
  - peel_dom "stopSessionBtn.disabled". apply updateSessionControls_sets.
Qed.

Lemma handler_keeps_controls P e key :
  isStart e = false → isStop e = false →
  key = "startSessionBtn.disabled" ∨ key = "stopSessionBtn.disabled" →
  keeps (domAt key) (handler P e).
Proof.
  intros Hstart Hstop Hkey.
  assert (Hproc : ∀ statNow d, keeps (domAt key) (processSensorData statNow d)).
  { intros statNow d.
    destruct Hkey as [-> | ->]; by apply processSensorData_keeps_dom. }
  destruct e as [| |now perfNow|now|now nowMs r statNow|statNow d|v|v|f];
    try done; cbn [handler].
  - destruct Hkey as [-> | ->]; solve_keeps_dom.
  - destruct Hkey as [-> | ->]; solve_keeps_dom.
  - intros s. cbv beta.
    destruct (simulatorTick_cases now nowMs r statNow s)
      as [[_ ->]|(_ & st & d & -> & _)]; [done|].
    apply (Hproc statNow d (set_simulatorState st s)).
  - intros s. cbv beta. fold (exec (onReceiveSensorData P statNow d) s).
    destruct (onReceiveSensorData_cases P statNow d s)
      as [->|(_ & d' & ->)]; [done|].
    apply (Hproc statNow d' s).
  - destruct Hkey as [-> | ->]; solve_keeps_dom.
  - destruct Hkey as [-> | ->]; solve_keeps_dom.
  - destruct Hkey as [-> | ->]; solve_keeps_dom.
Qed.

Lemma handler_keeps_isSessionActive P e s :
  isStart e = false → isStop e = false →
  isSessionActive (exec (handler P e) s) = isSessionActive s.
Proof.
  intros Hstart Hstop.
  destruct e as [| |now perfNow|now|now nowMs r statNow|statNow d|v|v|f];
    try done; cbn [handler].
  - pose proof (onDOMContentLoaded_keeps P s) as K. by injection K as K _ _ _.
  - unfold exec.
    destruct (simulatorTick_cases now nowMs r statNow s)
      as [[_ ->]|(_ & st & d & -> & _)]; [done|].
    pose proof (processSensorData_keeps_steady statNow d
                  (set_simulatorState st s)) as K.
    unfold steady in K. by injection K as K _ _ _ _.
  - destruct (onReceiveSensorData_cases P statNow d s)
      as [->|(_ & d' & ->)]; [done|].
    pose proof (processSensorData_keeps_steady statNow d' s) as K.
    unfold steady in K. by injection K as K _ _ _ _.
Qed.

Lemma controlsInSync_step P e s :
  controlsInSync s → controlsInSync (exec (handler P e) s).
Proof.
  intros [H1 H2].
  destruct (isStart e) eqn:Hstart.
  { destruct e; try done. apply startSession_controls. }
  destruct (isStop e) eqn:Hstop.
  { destruct e; try done. apply stopSession_controls. }
  unfold controlsInSync.
  rewrite (handler_keeps_isSessionActive P e s Hstart Hstop).
  rewrite !(keeps_exec (domAt _) (handler P e) s)
    by (apply handler_keeps_controls; auto).
  done.
Qed.

(** X22: from the first click on start or stop on, whatever happens, the two
    session buttons mirror the session: the start button is disabled
    exactly while a session is active and the stop button exactly while
    none is. *)
Theorem session_controls_mirror_the_session
    (P : Platform) (e : Event) (es : list Event) (s : State) :
  isStart e || isStop e = true →
  controlsInSync (run P (e :: es) s).
Proof.
  intros He. cbn [run].
  assert (H0 : controlsInSync (exec (handler P e) s)).
  { destruct e; try done; [apply startSession_controls|apply stopSession_controls]. }
  generalize dependent (exec (handler P e) s). clear He.
  induction es as [|e' es IH]; intros s0 H0; [done|].
  cbn [run]. apply IH. by apply controlsInSync_step.
Qed.

Lemma session_controls_mirror_the_session_witness :
  controlsInSync
    (run examplePlatform
       [ClickStart 1000 0; TimerTick 3000 2000 halfDraws 3000;
        InputThreshold (DInt 60); ClickStop 6000; HubMessage 7000 datedMessage]
       loadedState).
Proof.
  apply (session_controls_mirror_the_session examplePlatform (ClickStart 1000 0)
           [TimerTick 3000 2000 halfDraws 3000; InputThreshold (DInt 60);
            ClickStop 6000; HubMessage 7000 datedMessage]
           loadedState).
  reflexivity.
Defined.

(** ** What ingesting a sample leaves alone *)

(** X23: whatever the sample, and whether [processSensorData] returns or
    throws, it writes to no page property other than the displays of the
    sample, the alert and the statistics; in particular not to the session
    controls, the export buttons, the sliders or the history.  Nor does it
    touch the session flag, the start time, the simulator, the timers,
    the history or the storage. *)
Theorem ingest_writes_the_sample_displays_only
    (statNow : Z) (d : JsVal) (key : string) (s : State) :
  key ∉ sampleDisplays →
  domAt key (exec (processSensorData statNow d) s) = domAt key s
  ∧ steady (exec (processSensorData statNow d) s) = steady s.
Proof.
  intros Hkey. split; [|apply processSensorData_keeps_steady].
  unfold sampleDisplays in Hkey.
  repeat (apply not_elem_of_cons in Hkey as [? Hkey]).
  by apply (processSensorData_keeps_dom key statNow d).
Qed.

Lemma ingest_writes_the_sample_displays_only_witness :
  domAt "exportBtn.disabled" (exec (processSensorData 2000 bareSample) activeState)
  = domAt "exportBtn.disabled" activeState
  ∧ steady (exec (processSensorData 2000 bareSample) activeState)
    = steady activeState.
Proof.
  apply (ingest_writes_the_sample_displays_only 2000 bareSample
           "exportBtn.disabled" activeState).
  unfold sampleDisplays.
  repeat (apply not_elem_of_cons; split; [done|]). apply not_elem_of_nil.
Defined.

(** ** The CSV download *)

(** X24: in every state that the page can reach, when a click on the export
    button gets to [generateCSVExport], the session has a start time, so
    the file name can be made: the export throws only if a row of the
    content does, and otherwise downloads the content as text/csv under
    the name made of the day the session started. *)
Theorem csv_export_has_a_start_time
    (P : Platform) (s : State) (content : list (list Cell)) :
  reachable P s → exportSessionData s = ExportCsv →
  generateCSVContent P s = Some content →
  ∃ start,
    sessionStartTime s = Some start
    ∧ generateCSVExport P s
      = Some (mkDownload content
                ("drowsiness_data_" +:+ beforeT (toISOString P start) +:+ ".csv")
                "text/csv").
Proof.
  intros Hr Hexp Hcontent.
  destruct (sessionStartTime s) as [start|] eqn:Es.
  - exists start. split; [done|].
    unfold generateCSVExport. by rewrite Hcontent, Es.
  - destruct (inv_started s (reachable_invariant P s Hr) Es) as [_ Hdata].
    unfold exportSessionData in Hexp. by rewrite Hdata in Hexp.
Qed.

Lemma csv_export_has_a_start_time_witness :
  ∃ start,
    sessionStartTime csvState = Some start
    ∧ generateCSVExport examplePlatform csvState
      = Some (mkDownload
                [csvHeaders;
                 [CText "1970-01-01T00:00:00.000Z"; CFixed 2 (Fin 18);
                  CFixed 2 (Fin 80); CFixed 2 (Fin 1); CFixed 2 (Fin 2);
                  CFixed 2 (Fin 3); CText "Yes"; CFixed 1 (Fin 90)]]
                ("drowsiness_data_"
                 +:+ beforeT (toISOString examplePlatform start) +:+ ".csv")
                "text/csv").
Proof.
  apply (csv_export_has_a_start_time examplePlatform csvState).
  - apply reachable_run; [apply activeState_reachable|]. reflexivity.
  - reflexivity.
  - vm_compute. reflexivity.
Defined.
